(** * ComfyUI asset generator: a shallow embedding of [comfy_asset_generator.py]

    The script drives a ComfyUI server: it builds a workflow (a JSON
    document), posts it, polls the history endpoint and downloads the first
    image it can get.  The embedding keeps the Python control flow:

    - values are JSON values ([json]); an [Optional] result that Python
      returns as [None] is [JNull] or [None];
    - exceptions are explicit ([res], [try_catch]); an exception that no
      handler of the script catches is the result [Exc];
    - everything the script does not define itself (the server, the clock,
      the file system) is an oracle [Env], asked with the number of
      interactions made so far; a [State] carries the clock, that number and
      the trace of interactions;
    - [time.time()] is an integer number of milliseconds, so the two-minute
      ceiling is 120000 and [time.sleep(1)] asks for 1000;
    - the [while True] loop takes fuel, and [OutOfFuel] is a result of its
      own, never confused with a return. *)

From Stdlib Require Import ZArith List String Ascii Bool Lia Strings.Byte.
From Stdlib Require Import Floats.PrimFloat.
From Stdlib Require Decimal DecimalString DecimalZ DecimalPos DecimalN.
From Stdlib Require Import Sorting.Sorted Sorting.Permutation.
Import ListNotations.

#[local] Set Warnings "-register-all".
#[local] Open Scope string_scope.
#[local] Open Scope Z_scope.

(* ================================================================== *)
(** ** Python values *)

(** What [json.load]/[json.loads] produce.  A [dict] keeps insertion order
    (iteration over [outputs.items()] depends on it) and has unique keys.
    Strings are byte strings holding UTF-8. *)
Inductive json : Type :=
| JNull
| JBool (b : bool)
| JInt (n : Z)
| JFloat (f : float)
| JStr (s : string)
| JArr (l : list json)
| JObj (d : list (string * json)).

Definition dict : Type := list (string * json).

(** The exceptions (all subclasses of [Exception]) the script can meet.
    [OSError] stands for the OS errors other than [FileNotFoundError]
    (permissions, a directory in place of a file, ...), [URLError] for the
    transport errors of [urllib]. *)
Inductive exn : Type :=
| KeyError | TypeError | AttributeError | IndexError | ValueError
| FileNotFoundError | JSONDecodeError | OSError | URLError.

(** Outcome of running a piece of the script. *)
Inductive res (A : Type) : Type :=
| Val (a : A)
| Exc (e : exn)
| OutOfFuel.
Arguments Val {A} a.
Arguments Exc {A} e.
Arguments OutOfFuel {A}.

Definition res_bind {A B} (r : res A) (k : A -> res B) : res B :=
  match r with
  | Val a => k a
  | Exc e => Exc e
  | OutOfFuel => OutOfFuel
  end.

Definition of_reply {A} (r : exn + A) : res A :=
  match r with
  | inl e => Exc e
  | inr a => Val a
  end.

(** Python truthiness: [if x], [if not x]. *)
Definition truthy (j : json) : bool :=
  match j with
  | JNull => false
  | JBool b => b
  | JInt n => negb (n =? 0)
  | JFloat f => negb (PrimFloat.eqb f 0%float)
  | JStr s => negb (s =? "")%string
  | JArr l => match l with [] => false | _ => true end
  | JObj d => match d with [] => false | _ => true end
  end.

(** An [Optional[str]] argument ([model], [asset_name]). *)
Definition truthy_opt (o : option string) : bool :=
  match o with
  | Some s => negb (s =? "")%string
  | None => false
  end.

Fixpoint dict_get (k : string) (d : dict) : option json :=
  match d with
  | [] => None
  | (k', v) :: r => if (k' =? k)%string then Some v else dict_get k r
  end.

Definition dict_mem (k : string) (d : dict) : bool :=
  match dict_get k d with Some _ => true | None => false end.

(** [d[k] = v]: an existing key keeps its position, a new one goes last. *)
Fixpoint dict_set (k : string) (v : json) (d : dict) : dict :=
  match d with
  | [] => [(k, v)]
  | (k', v') :: r =>
      if (k' =? k)%string then (k', v) :: r else (k', v') :: dict_set k v r
  end.

(** [x.get(k, default)]: only a dict has [get]. *)
Definition py_get (j : json) (k : string) (default : json) : res json :=
  match j with
  | JObj d => Val (match dict_get k d with Some v => v | None => default end)
  | _ => Exc AttributeError
  end.

(** [x[k]] with a string key. *)
Definition subscript (j : json) (k : string) : res json :=
  match j with
  | JObj d => match dict_get k d with Some v => Val v | None => Exc KeyError end
  | _ => Exc TypeError
  end.

(** [x[k] = v] with a string key. *)
Definition store (j : json) (k : string) (v : json) : res json :=
  match j with
  | JObj d => Val (JObj (dict_set k v d))
  | _ => Exc TypeError
  end.

(** [x.keys()]. *)
Definition py_keys (j : json) : res (list string) :=
  match j with
  | JObj d => Val (map fst d)
  | _ => Exc AttributeError
  end.

(** [x.items()]. *)
Definition py_items (j : json) : res dict :=
  match j with
  | JObj d => Val d
  | _ => Exc AttributeError
  end.

Definition is_continuation (c : ascii) : bool :=
  let n := nat_of_ascii c in (128 <=? n)%nat && (n <? 192)%nat.

Fixpoint take_continuation (s : string) : string :=
  match s with
  | String c r => if is_continuation c then String c (take_continuation r) else ""
  | EmptyString => ""
  end.

Fixpoint drop_continuation (s : string) : string :=
  match s with
  | String c r => if is_continuation c then drop_continuation r else s
  | EmptyString => ""
  end.

(** The characters of a string: a lead byte with its continuation bytes. *)
Fixpoint chars_fuel (fuel : nat) (s : string) : list string :=
  match fuel, s with
  | S f, String c r =>
      String c (take_continuation r) :: chars_fuel f (drop_continuation r)
  | _, _ => []
  end.

Definition chars (s : string) : list string := chars_fuel (String.length s) s.

(** [x[0]]. *)
Definition index0 (j : json) : res json :=
  match j with
  | JArr (x :: _) => Val x
  | JArr [] => Exc IndexError
  | JStr s => match chars s with c :: _ => Val (JStr c) | [] => Exc IndexError end
  | JObj _ => Exc KeyError
  | _ => Exc TypeError
  end.

(** [len(x)]. *)
Definition py_len (j : json) : res nat :=
  match j with
  | JArr l => Val (List.length l)
  | JStr s => Val (List.length (chars s))
  | JObj d => Val (List.length d)
  | _ => Exc TypeError
  end.

(** The elements a [for] loop over [x] visits. *)
Definition py_iter (j : json) : res (list json) :=
  match j with
  | JArr l => Val l
  | JStr s => Val (map JStr (chars s))
  | JObj d => Val (map (fun kv => JStr (fst kv)) d)
  | _ => Exc TypeError
  end.

(** [x[:8]], evaluated for the queue message. *)
Definition slice8 (j : json) : res json :=
  match j with
  | JStr s => Val (JStr (String.concat "" (firstn 8 (chars s))))
  | JArr l => Val (JArr (firstn 8 l))
  | _ => Exc TypeError
  end.

(* ------------------------------------------------------------------ *)
(** *** [sorted] on strings *)

Fixpoint insert_sorted (x : string) (l : list string) : list string :=
  match l with
  | [] => [x]
  | y :: r => if String.leb x y then x :: l else y :: insert_sorted x r
  end.

(** [sorted(l)] for a list of strings: code point order, which is byte order
    on UTF-8. *)
Fixpoint sort_strings (l : list string) : list string :=
  match l with
  | [] => []
  | x :: r => insert_sorted x (sort_strings r)
  end.

Fixpoint all_strings (l : list json) : option (list string) :=
  match l with
  | [] => Some []
  | JStr s :: r => option_map (cons s) (all_strings r)
  | _ :: _ => None
  end.

(* ------------------------------------------------------------------ *)
(** *** Strings, integers and paths *)

(** [str(n)] for an integer, used by the f-string of [base_url]. *)
Definition str_of_int (n : Z) : string := DecimalString.NilZero.string_of_int (Z.to_int n).

(** The white space that [int] strips from an ASCII string: tab, line
    feed, vertical tab, form feed, carriage return and space. *)
Definition is_space (c : ascii) : bool :=
  let n := nat_of_ascii c in
  ((9 <=? n)%nat && (n <=? 13)%nat) || (n =? 32)%nat.

Fixpoint lstrip (l : list ascii) : list ascii :=
  match l with
  | c :: r => if is_space c then lstrip r else l
  | [] => []
  end.

Definition strip (l : list ascii) : list ascii :=
  rev (lstrip (rev (lstrip l))).

Definition digit_val (c : ascii) : option Z :=
  let n := nat_of_ascii c in
  if ((48 <=? n)%nat && (n <=? 57)%nat)%bool then Some (Z.of_nat n - 48) else None.

(** Digits with single underscores between them, read left to right. *)
Fixpoint digits_value (after_digit : bool) (acc : Z) (l : list ascii) : option Z :=
  match l with
  | [] => if after_digit then Some acc else None
  | c :: r =>
      match digit_val c with
      | Some d => digits_value true (10 * acc + d) r
      | None =>
          if (Ascii.eqb c "_" && after_digit)%bool
          then digits_value false acc r
          else None
      end
  end.

(** [int(s)]: [None] stands for [ValueError].  The model is that of [int]
    on ASCII strings of moderate length: in a string with other characters
    Python also reads the Unicode decimal digits and strips the Unicode
    white space, and it refuses a string of more than 4300 digits; neither
    is modelled. *)
Definition py_int (s : string) : option Z :=
  match strip (list_ascii_of_string s) with
  | "-"%char :: r => option_map Z.opp (digits_value false 0 r)
  | "+"%char :: r => digits_value false 0 r
  | l => digits_value false 0 l
  end.

(** [s.split(sep)] for a one-character separator. *)
Fixpoint split_on (sep : ascii) (s : string) : list string :=
  match s with
  | EmptyString => [""]
  | String c r =>
      if Ascii.eqb c sep then "" :: split_on sep r
      else match split_on sep r with
           | h :: t => String c h :: t
           | [] => [String c ""]
           end
  end.

(** [width, height = map(int, size.split('x'))]: the unpacking wants exactly
    two items and [int] must accept both. *)
Definition parse_size (size : string) : res (Z * Z) :=
  match split_on "x" size with
  | [a; b] =>
      match py_int a, py_int b with
      | Some w, Some h => Val (w, h)
      | _, _ => Exc ValueError
      end
  | _ => Exc ValueError
  end.

(** [os.path.splitext(p)[1]] on POSIX: the extension starts at the last dot
    of the last component, unless only dots precede it there. *)
Fixpoint rsplit_dot (rl : list ascii) (acc : list ascii)
  : option (list ascii * list ascii) :=
  match rl with
  | [] => None
  | c :: r =>
      if Ascii.eqb c "/" then None
      else if Ascii.eqb c "." then Some (r, c :: acc)
      else rsplit_dot r (c :: acc)
  end.

Fixpoint has_name_char (rl : list ascii) : bool :=
  match rl with
  | [] => false
  | c :: r =>
      if Ascii.eqb c "/" then false
      else if Ascii.eqb c "." then has_name_char r
      else true
  end.

Definition splitext_ext (p : string) : string :=
  match rsplit_dot (rev (list_ascii_of_string p)) [] with
  | Some (before, ext) =>
      if has_name_char before then string_of_list_ascii ext else ""
  | None => ""
  end.

Definition is_absolute (p : string) : bool :=
  match p with
  | String c _ => Ascii.eqb c "/"
  | EmptyString => false
  end.

(** [dir / name] of [pathlib]; paths are kept as written.  [pathlib] drops
    an empty [dir], the components ["."] and the repeated or trailing
    separators (["./assets"] and ["assets/"] become ["assets"]); that is not
    modelled, so the text is the path [pathlib] opens only for a [dir] and a
    [name] without them. *)
Definition path_join (dir name : string) : string :=
  if is_absolute name then name else dir ++ "/" ++ name.

(** [p.absolute()] in the working directory [cwd]. *)
Definition path_absolute (cwd p : string) : string :=
  if is_absolute p then p else cwd ++ "/" ++ p.

(* ================================================================== *)
(** ** The environment and the interaction state *)

(** What the script prints, one constructor per [print] statement (the
    debug lines carry no payload). *)
Inductive msg : Type :=
| MsgServerNotRunning (base_url : string)
| MsgGenerating (prompt : string)
| MsgErrorFetchingModels (e : exn)
| MsgTemplateNotFound
| MsgTemplateInvalidJSON
| MsgErrorQueuing (e : exn)
| MsgQueueFailed
| MsgQueued (id8 : json)
| MsgGenerated (elapsed_ms : Z)
| MsgDebugHistoryKeys
| MsgDebugOutputNodes
| MsgDebugNode (node_id : string)
| MsgDebugFound (n : nat)
| MsgDebugImageInfo
| MsgDownloading (filename subfolder : json)
| MsgErrorDownloading (e : exn)
| MsgDownloadFailed (filename : json)
| MsgSaved (local_filename : string) (size : nat)
| MsgLocation (path : string)
| MsgNoImages
| MsgErrorProcessing (e : exn)
| MsgProgress (elapsed_ms : Z)
| MsgTimedOut
| MsgInvalidSize
| MsgSuccess (path : string)
| MsgFailed.

(** One interaction with the outside. *)
Inductive event : Type :=
| EvMkdir (path : string) (created : bool)
| EvSystemStats
| EvObjectInfo
| EvReadTemplate
| EvPrompt (workflow : dict) (client_id : string)
| EvHistory (prompt_id : json)
| EvView (filename subfolder : json)
| EvSleep (ms : Z)
| EvWrite (path : string) (data : list byte) (written : bool)
| EvPrint (m : msg).

(** The outside world.  Every oracle is asked with the number of
    interactions made so far, so the answers may change over time.
    [latency n] is the wall-clock time, in milliseconds, that the [n]-th
    interaction takes (for a sleep, the time slept beyond the request). *)
Record Env : Type := {
  cwd : string;
  uuid4 : string;
  os_mkdir : nat -> string -> exn + bool;
  http_system_stats : nat -> exn + unit;
  http_object_info : nat -> exn + json;
  read_template : nat -> exn + json;
  http_prompt : nat -> dict -> string -> exn + json;
  http_history : nat -> json -> exn + json;
  http_view : nat -> json -> json -> exn + list byte;
  os_write : nat -> string -> list byte -> exn + unit;
  latency : nat -> Z;
  (** [sorted(x)] where [x] is not a list of strings: the sorted list, or
      the [TypeError] of an unorderable or non-iterable value. *)
  sorted_other : json -> exn + list json
}.

(** [now] is [time.time()] in milliseconds; [trace] is newest first. *)
Record State : Type := {
  now : Z;
  tick : nat;
  trace : list event
}.

Definition M (A : Type) : Type := State -> res A * State.

Definition ret {A} (a : A) : M A := fun st => (Val a, st).

Definition bind {A B} (m : M A) (k : A -> M B) : M B :=
  fun st =>
    match m st with
    | (Val a, st') => k a st'
    | (Exc e, st') => (Exc e, st')
    | (OutOfFuel, st') => (OutOfFuel, st')
    end.

Notation "x <- m ;; k" := (bind m (fun x => k))
  (at level 61, m at next level, right associativity).
Notation "m ;;; k" := (bind m (fun _ => k))
  (at level 61, right associativity).

Definition lift {A} (r : res A) : M A := fun st => (r, st).

(** [try: m  except ...: h]. *)
Definition try_catch {A} (m : M A) (h : exn -> M A) : M A :=
  fun st =>
    match m st with
    | (Exc e, st') => h e st'
    | r => r
    end.

(** [print(...)]: the message is taken to reach the output.  A [print] that
    raises (a closed stream, a message that the stream cannot encode) is
    not modelled. *)
Definition print (m : msg) : M unit :=
  fun st =>
    (Val tt, {| now := now st; tick := tick st; trace := EvPrint m :: trace st |}).

Definition time_time : M Z := fun st => (Val (now st), st).

(* ================================================================== *)
(** ** The script *)

(** The state held by a [ComfyUIAssetGenerator]. *)
Record Client : Type := {
  host : string;
  port : Z;
  base_url : string;
  client_id : string;
  output_dir : string
}.

(** The keyword arguments of [create_workflow], as [main] passes them. *)
Record Options : Type := {
  model : option string;
  steps : Z;
  cfg : float;
  width : Z;
  height : Z;
  seed : Z
}.

Definition default_options : Options :=
  {| model := None; steps := 20; cfg := 7.0%float;
     width := 512; height := 512; seed := -1 |}.

(** The command line after [argparse]. *)
Record Args : Type := {
  arg_prompt : string;
  arg_name : option string;
  arg_model : option string;
  arg_steps : Z;
  arg_cfg : float;
  arg_size : string;
  arg_seed : Z;
  arg_output : string;
  arg_host : string;
  arg_port : Z
}.

(** [workflow[node]["inputs"][key] = v], on the shared document. *)
Definition assign_input (w : dict) (node key : string) (v : json) : res dict :=
  res_bind (subscript (JObj w) node) (fun x =>
  res_bind (subscript x "inputs") (fun y =>
  res_bind (store y key v) (fun y' =>
  res_bind (store x "inputs" y') (fun x' =>
  Val (dict_set node x' w))))).

(** The chain of [get]s and the [[0]] of line 46. *)
Definition ckpt_names (data : json) : res json :=
  res_bind (py_get data "CheckpointLoaderSimple" (JObj [])) (fun a =>
  res_bind (py_get a "input" (JObj [])) (fun b =>
  res_bind (py_get b "required" (JObj [])) (fun c =>
  res_bind (py_get c "ckpt_name" (JArr [JArr []])) (fun d =>
  index0 d)))).

(** Lines 213-214: the asset name goes to node 66, when there is one. *)
Definition name_save_node (asset_name : option string) (workflow : dict) : res dict :=
  if (truthy_opt asset_name && dict_mem "66" workflow)%bool
  then assign_input workflow "66" "filename_prefix"
         (match asset_name with Some a => JStr a | None => JNull end)
  else Val workflow.

Definition ref (node : string) (slot : Z) : json := JArr [JStr node; JInt slot].

(** The dict literal returned by [create_fallback_workflow]. *)
Definition fallback_graph (prompt : string) (model_ : json) (o : Options)
    (seed_ : Z) : dict :=
  [ ("1", JObj [ ("class_type", JStr "CheckpointLoaderSimple");
                 ("inputs", JObj [ ("ckpt_name", model_) ]) ]);
    ("2", JObj [ ("class_type", JStr "CLIPTextEncode");
                 ("inputs", JObj [ ("clip", ref "1" 1);
                                   ("text", JStr prompt) ]) ]);
    ("3", JObj [ ("class_type", JStr "CLIPTextEncode");
                 ("inputs", JObj [ ("clip", ref "1" 1);
                                   ("text", JStr "low quality, blurry, artifacts, bad anatomy") ]) ]);
    ("4", JObj [ ("class_type", JStr "EmptyLatentImage");
                 ("inputs", JObj [ ("width", JInt (width o));
                                   ("height", JInt (height o));
                                   ("batch_size", JInt 1) ]) ]);
    ("5", JObj [ ("class_type", JStr "KSampler");
                 ("inputs", JObj [ ("model", ref "1" 0);
                                   ("positive", ref "2" 0);
                                   ("negative", ref "3" 0);
                                   ("latent_image", ref "4" 0);
                                   ("seed", JInt seed_);
                                   ("steps", JInt (steps o));
                                   ("cfg", JFloat (cfg o));
                                   ("sampler_name", JStr "euler");
                                   ("scheduler", JStr "normal");
                                   ("denoise", JFloat 1.0%float) ]) ]);
    ("6", JObj [ ("class_type", JStr "VAEDecode");
                 ("inputs", JObj [ ("samples", ref "5" 0);
                                   ("vae", ref "1" 2) ]) ]);
    ("7", JObj [ ("class_type", JStr "SaveImage");
                 ("inputs", JObj [ ("filename_prefix", JStr "TetrisAsset");
                                   ("images", ref "6" 0) ]) ]) ].

Section Script.

Variable env : Env.

(** The state after one interaction that was asked to last [extra] ms. *)
Definition advance (st : State) (extra : Z) (ev : event) : State :=
  {| now := now st + extra + latency env (tick st);
     tick := S (tick st);
     trace := ev :: trace st |}.

Definition interact {A} (ask : nat -> exn + A) (ev : event) : M A :=
  fun st => (of_reply (ask (tick st)), advance st 0 ev).

(** [Path.mkdir(exist_ok=True)]; the event tells whether a directory was
    created. *)
Definition mkdir_exist_ok (path : string) : M unit :=
  fun st =>
    let r := os_mkdir env (tick st) path in
    (res_bind (of_reply r) (fun _ => Val tt),
     advance st 0 (EvMkdir path (match r with inr true => true | _ => false end))).

(** [open(path, 'wb')] and [f.write(data)]; [written] is false when either
    raised. *)
Definition write_file (path : string) (data : list byte) : M unit :=
  fun st =>
    let r := os_write env (tick st) path data in
    (of_reply r,
     advance st 0 (EvWrite path data (match r with inr _ => true | inl _ => false end))).

Definition time_sleep (ms : Z) : M unit :=
  fun st => (Val tt, advance st ms (EvSleep ms)).

(** [ComfyUIAssetGenerator.__init__]. *)
Definition init (host_ : string) (port_ : Z) (output_dir_ : string) : M Client :=
  mkdir_exist_ok output_dir_ ;;;
  ret {| host := host_;
         port := port_;
         base_url := "http://" ++ host_ ++ ":" ++ str_of_int port_;
         client_id := uuid4 env;
         output_dir := output_dir_ |}.

Definition is_server_running : M bool :=
  try_catch
    (interact (http_system_stats env) EvSystemStats ;;; ret true)
    (fun _ => ret false).

(** [sorted(x)]. *)
Definition py_sorted (j : json) : res (list json) :=
  match j with
  | JArr l =>
      match all_strings l with
      | Some ss => Val (map JStr (sort_strings ss))
      | None =>
          match l with
          | [_] => Val l
          | _ => of_reply (sorted_other env j)
          end
      end
  | _ => of_reply (sorted_other env j)
  end.

Definition get_models : M (list json) :=
  try_catch
    (data <- interact (http_object_info env) EvObjectInfo ;;
     checkpoints <- lift (ckpt_names data) ;;
     if truthy checkpoints then lift (py_sorted checkpoints) else ret [])
    (fun e => print (MsgErrorFetchingModels e) ;;; ret []).

(** Returns the document, or [JNull] for [None]. *)
Definition load_workflow_template : M json :=
  try_catch
    (interact (read_template env) EvReadTemplate)
    (fun e =>
       match e with
       | FileNotFoundError => print MsgTemplateNotFound ;;; ret JNull
       | JSONDecodeError => print MsgTemplateInvalidJSON ;;; ret JNull
       | _ => lift (Exc e)
       end).

(** [int(time.time() * 1000) % 2147483647] when the seed is [-1]. *)
Definition pick_seed (seed_ : Z) : M Z :=
  if seed_ =? -1 then (t <- time_time ;; ret (t mod 2147483647)) else ret seed_.

Definition create_fallback_workflow (prompt : string) (o : Options) : M dict :=
  model_ <- (if negb (truthy_opt (model o))
             then models <- get_models ;;
                  ret (match models with
                       | m :: _ => m
                       | [] => JStr "model.safetensors"
                       end)
             else ret (match model o with Some m => JStr m | None => JNull end)) ;;
  seed_ <- pick_seed (seed o) ;;
  ret (fallback_graph prompt model_ o seed_).

Definition create_workflow (prompt : string) (o : Options) : M dict :=
  workflow <- load_workflow_template ;;
  if negb (truthy workflow) then create_fallback_workflow prompt o
  else
    seed_ <- pick_seed (seed o) ;;
    match workflow with
    | JObj w =>
        w <- lift (assign_input w "47" "text" (JStr prompt)) ;;
        w <- lift (assign_input w "42" "noise_seed" (JInt seed_)) ;;
        w <- lift (assign_input w "45" "steps" (JInt (steps o))) ;;
        w <- lift (assign_input w "49" "guidance" (JFloat (cfg o))) ;;
        w <- lift (assign_input w "46" "width" (JInt (width o))) ;;
        w <- lift (assign_input w "46" "height" (JInt (height o))) ;;
        if truthy_opt (model o)
        then lift (assign_input w "4" "ckpt_name"
                     (match model o with Some m => JStr m | None => JNull end))
        else ret w
    | _ => lift (Exc TypeError)   (* [workflow["47"]] on a list, str or number *)
    end.

(** Returns the identifier, or [JNull] for [None]. *)
Definition queue_prompt (c : Client) (workflow : dict) : M json :=
  try_catch
    (result <- interact (fun n => http_prompt env n workflow (client_id c))
                        (EvPrompt workflow (client_id c)) ;;
     lift (py_get result "prompt_id" JNull))
    (fun e => print (MsgErrorQueuing e) ;;; ret JNull).

(** [history.get(prompt_id)]: the key must be hashable; the keys of a
    decoded document are strings. *)
Definition history_entry (history prompt_id : json) : res json :=
  match history with
  | JObj d =>
      match prompt_id with
      | JStr s => Val (match dict_get s d with Some v => v | None => JNull end)
      | JArr _ | JObj _ => Exc TypeError
      | _ => Val JNull
      end
  | _ => Exc AttributeError
  end.

Definition get_history (prompt_id : json) : M json :=
  try_catch
    (history <- interact (fun n => http_history env n prompt_id)
                         (EvHistory prompt_id) ;;
     lift (history_entry history prompt_id))
    (fun _ => ret JNull).

Definition download_image (filename subfolder : json) : M (option (list byte)) :=
  try_catch
    (data <- interact (fun n => http_view env n filename subfolder)
                      (EvView filename subfolder) ;;
     ret (Some data))
    (fun e => print (MsgErrorDownloading e) ;;; ret None).

(** [not image_data]. *)
Definition no_data (d : option (list byte)) : bool :=
  match d with
  | Some (_ :: _) => false
  | _ => true
  end.

(** [os.path.splitext] and [Path / x] want a string. *)
Definition local_name (asset_name : option string) (filename : json) : res string :=
  match filename with
  | JStr f =>
      if truthy_opt asset_name
      then Val (match asset_name with Some a => a | None => "" end ++ splitext_ext f)
      else Val f
  | _ => Exc TypeError
  end.

(** The loop over [images] (lines 243-269): [Some path] is the [return]
    inside the loop, [None] the end of the loop. *)
Fixpoint images_loop (c : Client) (asset_name : option string)
    (images : list json) : M (option string) :=
  match images with
  | [] => ret None
  | image_info :: rest =>
      print MsgDebugImageInfo ;;;
      filename <- lift (subscript image_info "filename") ;;
      subfolder <- lift (py_get image_info "subfolder" (JStr "")) ;;
      print (MsgDownloading filename subfolder) ;;;
      image_data <- download_image filename subfolder ;;
      if no_data image_data then
        print (MsgDownloadFailed filename) ;;;
        images_loop c asset_name rest
      else
        let data := match image_data with Some d => d | None => [] end in
        local_filename <- lift (local_name asset_name filename) ;;
        let local_path := path_join (output_dir c) local_filename in
        write_file local_path data ;;;
        print (MsgSaved local_filename (List.length data)) ;;;
        print (MsgLocation (path_absolute (cwd env) local_path)) ;;;
        ret (Some (path_absolute (cwd env) local_path))
  end.

(** The loop over [outputs.items()] (lines 238-269). *)
Fixpoint nodes_loop (c : Client) (asset_name : option string)
    (items : dict) : M (option string) :=
  match items with
  | [] => ret None
  | (node_id, node_output) :: rest =>
      _ <- lift (py_keys node_output) ;;
      print (MsgDebugNode node_id) ;;;
      images <- lift (py_get node_output "images" (JArr [])) ;;
      n <- lift (py_len images) ;;
      print (MsgDebugFound n) ;;;
      elems <- lift (py_iter images) ;;
      r <- images_loop c asset_name elems ;;
      match r with
      | Some path => ret (Some path)
      | None => nodes_loop c asset_name rest
      end
  end.

(** The [try] block run once the history is there (lines 233-278). *)
Definition handle_completion (c : Client) (asset_name : option string)
    (history : json) : M (option string) :=
  try_catch
    (_ <- lift (py_keys history) ;;
     print MsgDebugHistoryKeys ;;;
     outputs <- lift (py_get history "outputs" (JObj [])) ;;
     _ <- lift (py_keys outputs) ;;
     print MsgDebugOutputNodes ;;;
     items <- lift (py_items outputs) ;;
     r <- nodes_loop c asset_name items ;;
     match r with
     | Some path => ret (Some path)
     | None => print MsgNoImages ;;; ret None
     end)
    (fun e => print (MsgErrorProcessing e) ;;; ret None).

(** The [while True] loop (lines 226-289); [fuel] bounds the number of
    iterations the model follows. *)
Fixpoint poll_loop (fuel : nat) (c : Client) (asset_name : option string)
    (prompt_id : json) (start_time : Z) : M (option string) :=
  match fuel with
  | O => lift OutOfFuel
  | S fuel' =>
      history <- get_history prompt_id ;;
      if truthy history then
        t <- time_time ;;
        print (MsgGenerated (t - start_time)) ;;;
        handle_completion c asset_name history
      else
        t <- time_time ;;
        let elapsed := t - start_time in
        print (MsgProgress elapsed) ;;;
        time_sleep 1000 ;;;
        if elapsed >? 120000 then
          print MsgTimedOut ;;; ret None
        else poll_loop fuel' c asset_name prompt_id start_time
  end.

Definition generate_asset (fuel : nat) (c : Client) (prompt : string)
    (asset_name : option string) (o : Options) : M (option string) :=
  up <- is_server_running ;;
  if negb up then
    print (MsgServerNotRunning (base_url c)) ;;; ret None
  else
    print (MsgGenerating prompt) ;;;
    workflow <- create_workflow prompt o ;;
    workflow <- lift (name_save_node asset_name workflow) ;;
    prompt_id <- queue_prompt c workflow ;;
    if negb (truthy prompt_id) then
      print MsgQueueFailed ;;; ret None
    else
      id8 <- lift (slice8 prompt_id) ;;
      print (MsgQueued id8) ;;;
      start_time <- time_time ;;
      poll_loop fuel c asset_name prompt_id start_time.

(** [main] after [parse_args]; the value is the exit status of the process:
    0 when [main] returns, 1 for [sys.exit(1)]. *)
Definition main (fuel : nat) (a : Args) : M Z :=
  match parse_size (arg_size a) with
  | Val (width_, height_) =>
      generator <- init (arg_host a) (arg_port a) (arg_output a) ;;
      result <- generate_asset fuel generator (arg_prompt a) (arg_name a)
                  {| model := arg_model a; steps := arg_steps a;
                     cfg := arg_cfg a; width := width_; height := height_;
                     seed := arg_seed a |} ;;
      if truthy_opt result then
        print (MsgSuccess (match result with Some p => p | None => "" end)) ;;;
        ret 0
      else
        print MsgFailed ;;; ret 1
  | _ =>
      print MsgInvalidSize ;;; ret 0
  end.

End Script.

(** The exit status the shell sees: an uncaught exception ends the
    interpreter with status 1. *)
Definition exit_status (r : res Z) : option Z :=
  match r with
  | Val code => Some code
  | Exc _ => Some 1
  | OutOfFuel => None
  end.

Definition initial_state (t0 : Z) : State :=
  {| now := t0; tick := O; trace := [] |}.

(* ================================================================== *)
(** ** Observations on a run *)

(** [since st st' evs]: the run from [st] to [st'] made the interactions
    [evs] (newest first, as [trace] keeps them). *)
Definition since (st st' : State) (evs : list event) : Prop :=
  trace st' = (evs ++ trace st)%list.

Definition is_write (ev : event) : bool :=
  match ev with EvWrite _ _ _ => true | _ => false end.

(** The attempts to write a file. *)
Definition writes (evs : list event) : list event := filter is_write evs.

(** The workflows posted to [/prompt]. *)
Definition submitted (evs : list event) : list dict :=
  flat_map (fun ev => match ev with EvPrompt w _ => [w] | _ => [] end) evs.

(** The images asked from [/view]. *)
Definition views (evs : list event) : list (json * json) :=
  flat_map (fun ev => match ev with EvView f s => [(f, s)] | _ => [] end) evs.

Definition is_history (ev : event) : bool :=
  match ev with EvHistory _ => true | _ => false end.

(** The requests to [/history]. *)
Definition polls (evs : list event) : list event := filter is_history evs.

(** A progress report made within the two minutes. *)
Definition within_ceiling (ev : event) : bool :=
  match ev with
  | EvPrint (MsgProgress e) => e <=? 120000
  | _ => true
  end.

(** What the poll loop does while nothing is ready: ask the history, report
    the elapsed time, sleep one second, and in the end give up. *)
Definition polling_event (ev : event) : bool :=
  match ev with
  | EvHistory _ => true
  | EvSleep ms => ms =? 1000
  | EvPrint (MsgProgress _) => true
  | EvPrint MsgTimedOut => true
  | _ => false
  end.

(** [workflow[node]["inputs"][key]], when all three are there. *)
Definition input_of (w : dict) (node key : string) : option json :=
  match dict_get node w with
  | Some (JObj n) =>
      match dict_get "inputs" n with
      | Some (JObj i) => dict_get key i
      | _ => None
      end
  | _ => None
  end.

(** The image references of a history record, in the order the loops visit
    them: defined when [outputs] maps node ids to dicts whose [images] are
    lists of dicts with a [filename]. *)
Definition image_ref (image_info : json) : option (json * json) :=
  match image_info with
  | JObj i =>
      match dict_get "filename" i with
      | Some f =>
          Some (f, match dict_get "subfolder" i with Some s => s | None => JStr "" end)
      | None => None
      end
  | _ => None
  end.

Fixpoint image_refs (images : list json) : option (list (json * json)) :=
  match images with
  | [] => Some []
  | i :: r =>
      match image_ref i, image_refs r with
      | Some x, Some xs => Some (x :: xs)
      | _, _ => None
      end
  end.

Definition node_refs (node_output : json) : option (list (json * json)) :=
  match node_output with
  | JObj n =>
      match dict_get "images" n with
      | Some (JArr images) => image_refs images
      | None => Some []
      | _ => None
      end
  | _ => None
  end.

Fixpoint nodes_refs (items : dict) : option (list (json * json)) :=
  match items with
  | [] => Some []
  | (_, n) :: r =>
      match node_refs n, nodes_refs r with
      | Some x, Some xs => Some (x ++ xs)%list
      | _, _ => None
      end
  end.

Definition record_refs (history : json) : option (list (json * json)) :=
  match history with
  | JObj h =>
      match dict_get "outputs" h with
      | Some (JObj outs) => nodes_refs outs
      | None => Some []
      | _ => None
      end
  | _ => None
  end.

(** The pure helpers raise or return; only the poll loop can run out of
    fuel. *)
Definition finished {A} (r : res A) : Prop := r <> OutOfFuel.

(** The order [sorted] puts strings in. *)
Definition str_le (a b : string) : Prop := String.leb a b = true.

(** What [get_models] returns, read off the reply to [/object_info]. *)
Definition models_of (env : Env) (reply : exn + json) : list json :=
  match reply with
  | inl _ => []
  | inr data =>
      match ckpt_names data with
      | Val checkpoints =>
          if truthy checkpoints then
            match py_sorted env checkpoints with
            | Val l => l
            | _ => []
            end
          else []
      | _ => []
      end
  end.

(** The integer that decimal digits stand for, read left to right after
    [acc]. *)
Fixpoint uint_value (d : Decimal.uint) (acc : Z) : Z :=
  match d with
  | Decimal.Nil => acc
  | Decimal.D0 d => uint_value d (10 * acc + 0)
  | Decimal.D1 d => uint_value d (10 * acc + 1)
  | Decimal.D2 d => uint_value d (10 * acc + 2)
  | Decimal.D3 d => uint_value d (10 * acc + 3)
  | Decimal.D4 d => uint_value d (10 * acc + 4)
  | Decimal.D5 d => uint_value d (10 * acc + 5)
  | Decimal.D6 d => uint_value d (10 * acc + 6)
  | Decimal.D7 d => uint_value d (10 * acc + 7)
  | Decimal.D8 d => uint_value d (10 * acc + 8)
  | Decimal.D9 d => uint_value d (10 * acc + 9)
  end.

(** A character of a printed integer: neither white space nor the
    separator of [--size]. *)
Definition plain_char (c : ascii) : bool :=
  negb (is_space c) && negb (Ascii.eqb c "x").

Fixpoint all_plain (s : string) : bool :=
  match s with
  | EmptyString => true
  | String c r => plain_char c && all_plain r
  end.

(** The node [node] is a dict with a dict under ["inputs"]: what
    [workflow[node]["inputs"][key] = v] needs. *)
Definition has_inputs (w : dict) (node : string) : bool :=
  match dict_get node w with
  | Some (JObj n) =>
      match dict_get "inputs" n with
      | Some (JObj _) => true
      | _ => false
      end
  | _ => false
  end.

(** Item assignments done one after the other, as lines 80-89 do them. *)
Fixpoint assign_inputs (w : dict) (edits : list (string * string * json)) : res dict :=
  match edits with
  | [] => Val w
  | (node, key, v) :: rest =>
      res_bind (assign_input w node key v) (fun w' => assign_inputs w' rest)
  end.

(** The assignments of lines 80-89 for a request. *)
Definition template_edits (prompt : string) (o : Options) (seed_ : Z)
  : list (string * string * json) :=
  [ ("47", "text", JStr prompt);
    ("42", "noise_seed", JInt seed_);
    ("45", "steps", JInt (steps o));
    ("49", "guidance", JFloat (cfg o));
    ("46", "width", JInt (width o));
    ("46", "height", JInt (height o)) ] ++
  (if truthy_opt (model o)
   then [("4", "ckpt_name", match model o with Some m => JStr m | None => JNull end)]
   else [])%list.

Definition edit_slot (e : string * string * json) : string * string :=
  (fst (fst e), snd (fst e)).

(** A template with the nodes that [create_workflow] and [generate_asset]
    write to, and one that they leave alone. *)
Definition template_flux : json :=
  JObj [ ("4", JObj [("class_type", JStr "CheckpointLoaderSimple");
                     ("inputs", JObj [("ckpt_name", JStr "flux.safetensors")])]);
         ("42", JObj [("class_type", JStr "RandomNoise");
                      ("inputs", JObj [("noise_seed", JInt 1)])]);
         ("45", JObj [("class_type", JStr "BasicScheduler");
                      ("inputs", JObj [("steps", JInt 4); ("denoise", JFloat 1.0%float)])]);
         ("46", JObj [("class_type", JStr "EmptyLatentImage");
                      ("inputs", JObj [("width", JInt 1024); ("height", JInt 1024)])]);
         ("47", JObj [("class_type", JStr "CLIPTextEncode");
                      ("inputs", JObj [("text", JStr "")])]);
         ("49", JObj [("class_type", JStr "FluxGuidance");
                      ("inputs", JObj [("guidance", JFloat 3.5%float)])]);
         ("66", JObj [("class_type", JStr "SaveImage");
                      ("inputs", JObj [("filename_prefix", JStr "ComfyUI")])]);
         ("70", JObj [("class_type", JStr "VAEDecode");
                      ("inputs", JObj [("samples", JArr [JStr "42"; JInt 0])])]) ].

Definition template_flux_nodes : dict :=
  match template_flux with JObj w => w | _ => [] end.

(** The nodes that lines 80-89 write to. *)
Definition required_nodes (o : Options) : list string :=
  ["47"; "42"; "45"; "49"; "46"] ++ (if truthy_opt (model o) then ["4"] else []).

(** A link of a workflow: [[node id, output slot]]. *)
Definition link_target (j : json) : option string :=
  match j with
  | JArr [JStr node; JInt _] => Some node
  | _ => None
  end.

(** The nodes that the inputs of a node link to. *)
Definition node_links (node : json) : list string :=
  match node with
  | JObj n =>
      match dict_get "inputs" n with
      | Some (JObj i) =>
          flat_map (fun kv => match link_target (snd kv) with
                              | Some t => [t]
                              | None => []
                              end) i
      | _ => []
      end
  | _ => []
  end.

(** Every link of every node goes to a node listed before it ([seen] are
    the ids met so far): the links resolve and the graph has no cycle. *)
Fixpoint links_backward (seen : list string) (g : dict) : bool :=
  match g with
  | [] => true
  | (id, node) :: rest =>
      forallb (fun t => existsb (String.eqb t) seen) (node_links node) &&
      links_backward (id :: seen) rest
  end.

(** The client and the options that [main] makes from the command line,
    once the size is read. *)
Definition client_of (env : Env) (a : Args) : Client :=
  {| host := arg_host a; port := arg_port a;
     base_url := "http://" ++ arg_host a ++ ":" ++ str_of_int (arg_port a);
     client_id := uuid4 env; output_dir := arg_output a |}.

Definition options_of (a : Args) (width_ height_ : Z) : Options :=
  {| model := arg_model a; steps := arg_steps a; cfg := arg_cfg a;
     width := width_; height := height_; seed := arg_seed a |}.

(** [fuel_free m]: [m] never stops for lack of fuel. *)
Definition fuel_free {A} (m : M A) : Prop :=
  forall st, fst (m st) <> OutOfFuel.

(** [no_raise m]: no exception leaves [m]. *)
Definition no_raise {A} (m : M A) : Prop :=
  forall st e, fst (m st) <> Exc e.

(** The interactions made before the polling starts. *)
Definition before_polling (ev : event) : bool :=
  match ev with
  | EvSystemStats | EvObjectInfo | EvReadTemplate | EvPrompt _ _ | EvPrint _ => true
  | _ => false
  end.

(** What the retrieval of a finished job does: downloads, a write, and
    messages other than those of the polling. *)
Definition retrieval_event (ev : event) : bool :=
  match ev with
  | EvView _ _ | EvWrite _ _ _ => true
  | EvPrint (MsgProgress _) | EvPrint MsgTimedOut => false
  | EvPrint _ => true
  | _ => false
  end.

Definition not_poll (ev : event) : bool := negb (is_history ev).

(** [polls_at_most k m]: [m] ends within the iterations the model follows,
    having asked the history at most [k] times. *)
Definition polls_at_most (k : nat) {A} (m : M A) : Prop :=
  forall st,
    fst (m st) <> OutOfFuel /\
    exists evs, since st (snd (m st)) evs /\ (List.length (polls evs) <= k)%nat.

(** A character of a file name's stem or extension: neither a dot nor a
    separator. *)
Definition name_char (c : ascii) : bool :=
  negb (Ascii.eqb c ".") && negb (Ascii.eqb c "/").

(** A write, if [ev] is one, goes to [dir/<a><ext>], the extension being
    that of some file name. *)
Definition written_as (dir a : string) (ev : event) : Prop :=
  match ev with
  | EvWrite p _ _ => exists f, p = dir ++ "/" ++ a ++ splitext_ext f
  | _ => True
  end.

(** [emits] for a property that is not decided. *)
Definition emitsP (P : event -> Prop) {A} (m : M A) : Prop :=
  forall st, exists evs, since st (snd (m st)) evs /\ Forall P evs.

(** The time that the [n] interactions from the [t]-th on take beyond what
    they were asked to last. *)
Fixpoint lag (env : Env) (t n : nat) : Z :=
  match n with
  | O => 0
  | S n' => latency env t + lag env (S t) n'
  end.

(** What the clock shows, less [start], when round [i] (from 0) of a wait
    that begins in [st] reads it: [i] sleeps of one second and [2 i + 1]
    interactions lie between [st] and that reading. *)
Definition reading (env : Env) (start : Z) (st : State) (i : nat) : Z :=
  now st - start + 1000 * Z.of_nat i + lag env (tick st) (2 * i + 1).

(** The trace of [k] rounds of a wait that begins in [st], newest first:
    each round asks the history, reports the elapsed time it read and
    sleeps one second. *)
Fixpoint waiting (env : Env) (id : json) (start : Z) (st : State) (k : nat)
  : list event :=
  match k with
  | O => []
  | S k' =>
      EvSleep 1000 :: EvPrint (MsgProgress (reading env start st k'))
        :: EvHistory id :: waiting env id start st k'
  end.

(** A string of ASCII characters. *)
Definition ascii_only (s : string) : bool :=
  forallb (fun c => (nat_of_ascii c <? 128)%nat) (list_ascii_of_string s).

Definition slash_free (s : string) : bool :=
  forallb (fun c => negb (Ascii.eqb c "/")) (list_ascii_of_string s).

Definition proper_component (s : string) : bool :=
  negb (s =? "")%string && negb (s =? ".")%string.

(** A path that [pathlib] keeps as it is written: it is not empty, none of
    its components is ["."], and none is empty but the one before a single
    leading slash (so no doubled or trailing slash, and not the root). *)
Definition kept_as_written (p : string) : bool :=
  match split_on "/" p with
  | first :: rest =>
      negb (first =? ".")%string && forallb proper_component rest &&
      (negb (first =? "")%string
       || negb (match rest with [] => true | _ => false end))
  | [] => false
  end.

(* ================================================================== *)
(** ** Sample worlds *)

(** Nothing answers: no server, no template, but the disk is writable. *)
Definition env_offline : Env :=
  {| cwd := "/work";
     uuid4 := "6f1c";
     os_mkdir := fun _ _ => inr true;
     http_system_stats := fun _ => inl URLError;
     http_object_info := fun _ => inl URLError;
     read_template := fun _ => inl FileNotFoundError;
     http_prompt := fun _ _ _ => inl URLError;
     http_history := fun _ _ => inl URLError;
     http_view := fun _ _ _ => inl URLError;
     os_write := fun _ _ _ => inr tt;
     latency := fun _ => 0;
     sorted_other := fun _ => inl TypeError |}.

(** A server that accepts every job as ["abc123"]; the rest is given. *)
Definition env_server (info : exn + json) (template : exn + json)
    (history : nat -> exn + json) (view : json -> exn + list byte) : Env :=
  {| cwd := "/work";
     uuid4 := "6f1c";
     os_mkdir := fun _ _ => inr true;
     http_system_stats := fun _ => inr tt;
     http_object_info := fun _ => info;
     read_template := fun _ => template;
     http_prompt := fun _ _ _ => inr (JObj [("prompt_id", JStr "abc123")]);
     http_history := fun n _ => history n;
     http_view := fun _ f _ => view f;
     os_write := fun _ _ _ => inr tt;
     latency := fun _ => 0;
     sorted_other := fun _ => inl TypeError |}.

Definition object_info_of (names : list json) : json :=
  JObj [("CheckpointLoaderSimple",
         JObj [("input",
                JObj [("required",
                       JObj [("ckpt_name", JArr [JArr names])])])])].

Definition image_info (filename : string) : json :=
  JObj [("filename", JStr filename); ("subfolder", JStr ""); ("type", JStr "output")].

Definition record_of (outputs : dict) : json :=
  JObj [("abc123", JObj [("outputs", JObj outputs)])].

Definition sample_client : Client :=
  {| host := "127.0.0.1"; port := 8188; base_url := "http://127.0.0.1:8188";
     client_id := "6f1c"; output_dir := "assets" |}.

Definition sample_args (size : string) : Args :=
  {| arg_prompt := "a red block"; arg_name := Some "block"; arg_model := None;
     arg_steps := 20; arg_cfg := 7.0%float; arg_size := size; arg_seed := -1;
     arg_output := "assets"; arg_host := "127.0.0.1"; arg_port := 8188 |}.

(** A running server that lists no checkpoint; no template on disk. *)
Definition env_no_models : Env :=
  env_server (inr (object_info_of [])) (inl FileNotFoundError)
    (fun _ => inl URLError) (fun _ => inl URLError).

(** A template that parses but has no node 47. *)
Definition template_without_47 : json :=
  JObj [("4", JObj [("class_type", JStr "CheckpointLoaderSimple");
                    ("inputs", JObj [("ckpt_name", JStr "flux.safetensors")])])].

Definition env_bad_template : Env :=
  env_server (inr (object_info_of [JStr "flux.safetensors"]))
    (inr template_without_47)
    (fun _ => inl URLError) (fun _ => inl URLError).

(** The answers of the disk on which [load_workflow_template] returns
    [None] or a document that counts as false. *)
Definition template_unusable (reply : exn + json) : bool :=
  match reply with
  | inl FileNotFoundError => true
  | inl JSONDecodeError => true
  | inl _ => false
  | inr j => negb (truthy j)
  end.

(** A server on which the job never shows up in the history. *)
Definition env_never_ready : Env :=
  env_server (inr (object_info_of [JStr "flux.safetensors"]))
    (inl FileNotFoundError)
    (fun _ => inr (JObj [])) (fun _ => inl URLError).

(** A finished job whose only output node holds no image. *)
Definition env_empty_outputs : Env :=
  env_server (inr (object_info_of [JStr "flux.safetensors"]))
    (inl FileNotFoundError)
    (fun _ => inr (record_of [("7", JObj [("images", JArr [])])]))
    (fun _ => inl URLError).

(** [not image_data] after [download_image]: the request failed or
    brought no byte. *)
Definition download_fails (reply : exn + list byte) : bool :=
  match reply with
  | inr (_ :: _) => false
  | _ => true
  end.

Definition always_fails (env : Env) (r : json * json) : Prop :=
  forall n, download_fails (http_view env n (fst r) (snd r)) = true.

Definition is_ok {A} (reply : exn + A) : bool :=
  match reply with inr _ => true | inl _ => false end.

(** What a run looks like when the downloads of [pre] failed and the image
    [(f, s)] then came with [data]: the images were asked in that order, the
    data were written once under the local name, and the path is returned
    unless the write raised ([on_error] says what becomes of that). *)
Definition saved_after (env : Env) (c : Client) (asset_name : option string)
    (on_error : exn -> res (option string))
    (pre : list (json * json)) (f : string) (s : json) (data : list byte)
    (r : res (option string)) (evs : list event) : Prop :=
  exists name (reply : exn + unit),
    local_name asset_name (JStr f) = Val name /\
    rev (views evs) = (pre ++ [(JStr f, s)])%list /\
    writes evs = [EvWrite (path_join (output_dir c) name) data (is_ok reply)] /\
    r = match reply with
        | inr _ => Val (Some (path_absolute (cwd env)
                                (path_join (output_dir c) name)))
        | inl e => on_error e
        end.

(** The interactions of the poll loop and of the retrieval. *)
Definition loop_event (ev : event) : bool :=
  match ev with
  | EvHistory _ | EvView _ _ | EvSleep _ | EvWrite _ _ _ | EvPrint _ => true
  | _ => false
  end.

(** The interactions of the workflow builder. *)
Definition build_event (ev : event) : bool :=
  match ev with
  | EvObjectInfo | EvReadTemplate | EvPrint _ => true
  | _ => false
  end.

(** Everything [generate_asset] can do: no directory is made. *)
Definition asset_event (ev : event) : bool :=
  match ev with
  | EvMkdir _ _ => false
  | _ => true
  end.

(** How the writes of a run relate to its result, inside the [try] block:
    nothing written and no path; or one file written and its path returned;
    or one write that raised. *)
Definition inner_outcome (env : Env) (r : res (option string))
    (evs : list event) : Prop :=
  (writes evs = [] /\ forall p, r <> Val (Some p)) \/
  (exists p d, writes evs = [EvWrite p d true] /\
               r = Val (Some (path_absolute (cwd env) p))) \/
  (exists p d e, writes evs = [EvWrite p d false] /\ r = Exc e).

(** The same for [generate_asset] and the poll loop: an exception of the
    write is caught and the result is [None]. *)
Definition write_outcome (env : Env) (r : res (option string))
    (evs : list event) : Prop :=
  (writes evs = [] /\ forall p, r <> Val (Some p)) \/
  (exists p d, writes evs = [EvWrite p d true] /\
               r = Val (Some (path_absolute (cwd env) p))) \/
  (exists p d, writes evs = [EvWrite p d false] /\ r = Val None).

(** The interactions of the health check. *)
Definition health_event (ev : event) : bool :=
  match ev with
  | EvSystemStats => true
  | _ => false
  end.

(** The interactions of [queue_prompt]. *)
Definition prompt_event (ev : event) : bool :=
  match ev with
  | EvPrompt _ _ | EvPrint _ => true
  | _ => false
  end.

Definition no_write (ev : event) : bool := negb (is_write ev).

(** [emits p m]: whatever the state, the interactions of [m] satisfy [p]. *)
Definition emits (p : event -> bool) {A} (m : M A) : Prop :=
  forall st, exists evs, since st (snd (m st)) evs /\ forallb p evs = true.

(** [m] relates its writes to its result as [inner_outcome] says. *)
Definition inner_spec (env : Env) (m : M (option string)) : Prop :=
  forall st, exists evs,
    since st (snd (m st)) evs /\ inner_outcome env (fst (m st)) evs.

Definition outcome_spec (env : Env) (m : M (option string)) : Prop :=
  forall st, exists evs,
    since st (snd (m st)) evs /\ write_outcome env (fst (m st)) evs.

(** What is left of a trace when the messages and the writes are taken
    out: the requests to the server, the template read, the sleeps. *)
Definition is_request (ev : event) : bool :=
  match ev with
  | EvPrint _ | EvWrite _ _ _ => false
  | _ => true
  end.

Definition requests (evs : list event) : list event := filter is_request evs.

(** Two states that differ at most in messages and writes. *)
Definition same_requests (st1 st2 : State) : Prop :=
  now st1 = now st2 /\ tick st1 = tick st2 /\
  requests (trace st1) = requests (trace st2).

(** [steady m]: run from two such states, [m] returns the same result and
    leaves two such states. *)
Definition steady {A} (m : M A) : Prop :=
  forall st1 st2,
    same_requests st1 st2 ->
    fst (m st1) = fst (m st2) /\ same_requests (snd (m st1)) (snd (m st2)).

(** [paired m1 m2]: run from two such states, [m1] and [m2] leave two such
    states, and one falls through (returns [None]) exactly when the other
    does. *)
Definition paired (m1 m2 : M (option string)) : Prop :=
  forall st1 st2,
    same_requests st1 st2 ->
    (fst (m1 st1) = Val None <-> fst (m2 st2) = Val None) /\
    same_requests (snd (m1 st1)) (snd (m2 st2)).

(** [trailing m1 m2]: run from two such states, they leave two such
    states. *)
Definition trailing (m1 m2 : M (option string)) : Prop :=
  forall st1 st2,
    same_requests st1 st2 ->
    same_requests (snd (m1 st1)) (snd (m2 st2)).

(** A finished job with two images, the first of which cannot be fetched. *)
Definition env_second_image : Env :=
  env_server (inr (object_info_of [JStr "flux.safetensors"]))
    (inl FileNotFoundError)
    (fun _ => inr (record_of [("7", JObj [("images",
                      JArr [image_info "a.png"; image_info "b.png"])])]))
    (fun f => match f with
              | JStr "b.png" => inr [x89; x50]%byte
              | _ => inl URLError
              end).

(** A running server with the template above on disk; the job is done at
    the first poll with one image. *)
Definition env_template : Env :=
  env_server (inr (object_info_of [JStr "flux.safetensors"]))
    (inr template_flux)
    (fun _ => inr (record_of [("66", JObj [("images", JArr [image_info "block_00001_.png"])])]))
    (fun _ => inr [x89; x50]%byte).

(** A running server that refuses every job. *)
Definition env_submit_fails : Env :=
  {| cwd := "/work";
     uuid4 := "6f1c";
     os_mkdir := fun _ _ => inr true;
     http_system_stats := fun _ => inr tt;
     http_object_info := fun _ => inr (object_info_of [JStr "flux.safetensors"]);
     read_template := fun _ => inl FileNotFoundError;
     http_prompt := fun _ _ _ => inl URLError;
     http_history := fun _ _ => inl URLError;
     http_view := fun _ _ _ => inl URLError;
     os_write := fun _ _ _ => inr tt;
     latency := fun _ => 0;
     sorted_other := fun _ => inl TypeError |}.

(** The server of [env_never_ready] on a machine whose clock is being set
    back: every interaction ends half a second earlier on the clock than it
    would have, so a request followed by a sleep of one second leaves
    [time.time()] where it was. *)
Definition env_clock_back : Env :=
  {| cwd := "/work";
     uuid4 := "6f1c";
     os_mkdir := fun _ _ => inr true;
     http_system_stats := fun _ => inr tt;
     http_object_info := fun _ => inr (object_info_of [JStr "flux.safetensors"]);
     read_template := fun _ => inl FileNotFoundError;
     http_prompt := fun _ _ _ => inr (JObj [("prompt_id", JStr "abc123")]);
     http_history := fun _ _ => inr (JObj []);
     http_view := fun _ _ _ => inl URLError;
     os_write := fun _ _ _ => inr tt;
     latency := fun _ => -500;
     sorted_other := fun _ => inl TypeError |}.

(* ================================================================== *)
(** ** Health check (lines 203-205) *)

(** C6.  When the health check answers false, [generate_asset] returns
    [None] at once: the run consists of the request to [/system_stats] and
    the message that the server is not running, so nothing is submitted,
    polled or written. *)
Theorem generate_asset_server_down :
  forall env fuel c prompt asset_name o st,
    fst (is_server_running env st) = Val false ->
    exists st',
      generate_asset env fuel c prompt asset_name o st = (Val None, st') /\
      since st st' [EvPrint (MsgServerNotRunning (base_url c)); EvSystemStats] /\
      submitted (trace st') = submitted (trace st) /\
      writes (trace st') = writes (trace st).
Proof.
  intros env fuel c prompt asset_name o st Hdown.
  unfold generate_asset, bind.
  destruct (is_server_running env st) as [r st1] eqn:Hrun.
  simpl in Hdown; subst r.
  assert (Hst1 : trace st1 = EvSystemStats :: trace st).
  { revert Hrun. unfold is_server_running, try_catch, bind, interact, ret.
    simpl. destruct (http_system_stats env (tick st)); simpl; intro H;
      inversion H; reflexivity. }
  simpl. eexists; split; [reflexivity|].
  unfold since; simpl. rewrite Hst1. repeat split.
Qed.

Lemma generate_asset_server_down_witness :
  exists st',
    generate_asset env_offline 5 sample_client "a red block" (Some "block")
      default_options (initial_state 0) = (Val None, st') /\
    since (initial_state 0) st'
      [EvPrint (MsgServerNotRunning "http://127.0.0.1:8188"); EvSystemStats] /\
    submitted (trace st') = submitted (trace (initial_state 0)) /\
    writes (trace st') = writes (trace (initial_state 0)).
Proof.
  apply (generate_asset_server_down env_offline 5 sample_client "a red block"
           (Some "block") default_options (initial_state 0)).
  reflexivity.
Defined.

(* ================================================================== *)
(** ** The fallback builder (lines 93-162) *)

Lemma string_compare_le_trans :
  forall a b c,
    String.compare a b <> Gt -> String.compare b c <> Gt ->
    String.compare a c <> Gt.
Proof.
  induction a as [|x a IH]; destruct b as [|y b], c as [|z c]; simpl;
    try congruence.
  unfold Ascii.compare.
  destruct (N.compare_spec (N_of_ascii x) (N_of_ascii y));
    destruct (N.compare_spec (N_of_ascii y) (N_of_ascii z));
    destruct (N.compare_spec (N_of_ascii x) (N_of_ascii z));
    try congruence; try lia; eauto.
Qed.

Lemma string_leb_trans :
  forall a b c,
    String.leb a b = true -> String.leb b c = true -> String.leb a c = true.
Proof.
  unfold String.leb. intros a b c Hab Hbc.
  pose proof (string_compare_le_trans a b c) as H.
  destruct (String.compare a b), (String.compare b c), (String.compare a c);
    try reflexivity; try discriminate; exfalso; apply H; congruence.
Qed.


Lemma insert_sorted_perm :
  forall x l, Permutation (x :: l) (insert_sorted x l).
Proof.
  intros x l. induction l as [|y r IH]; simpl.
  - apply Permutation_refl.
  - destruct (String.leb x y).
    + apply Permutation_refl.
    + eapply perm_trans; [apply perm_swap|]. apply perm_skip, IH.
Qed.

Lemma sort_strings_perm : forall l, Permutation l (sort_strings l).
Proof.
  induction l as [|x r IH]; simpl.
  - constructor.
  - eapply perm_trans; [apply perm_skip, IH|]. apply insert_sorted_perm.
Qed.

Lemma insert_sorted_sorted :
  forall x l, StronglySorted str_le l -> StronglySorted str_le (insert_sorted x l).
Proof.
  intros x l Hs. induction Hs as [|y r Hr IH Hall]; simpl.
  - repeat constructor.
  - destruct (String.leb x y) eqn:Hxy.
    + constructor; [constructor; assumption|].
      constructor; [exact Hxy|].
      eapply Forall_impl; [|exact Hall].
      intros z Hz. eapply string_leb_trans; eassumption.
    + constructor; [exact IH|].
      assert (Hyx : str_le y x).
      { destruct (String.leb_total x y) as [H|H]; [congruence|exact H]. }
      eapply Permutation_Forall; [apply insert_sorted_perm|].
      constructor; assumption.
Qed.

Lemma sort_strings_sorted : forall l, StronglySorted str_le (sort_strings l).
Proof.
  induction l as [|x r IH]; simpl.
  - constructor.
  - apply insert_sorted_sorted, IH.
Qed.


Lemma res_bind_finished :
  forall A B (r : res A) (k : A -> res B),
    finished r -> (forall a, finished (k a)) -> finished (res_bind r k).
Proof.
  intros A B [a|e|] k Hr Hk; simpl; [apply Hk | discriminate | exfalso; apply Hr; reflexivity].
Qed.

Lemma of_reply_finished : forall A (r : exn + A), finished (of_reply r).
Proof. intros A [e|a]; discriminate. Qed.

Lemma py_get_finished : forall j k d, finished (py_get j k d).
Proof. intros j k dflt; destruct j; discriminate. Qed.

Lemma subscript_finished : forall j k, finished (subscript j k).
Proof.
  intros j k; destruct j as [| | | | | |d]; simpl; try discriminate.
  destruct (dict_get k d); discriminate.
Qed.

Lemma store_finished : forall j k v, finished (store j k v).
Proof. intros j k v; destruct j; discriminate. Qed.

Lemma index0_finished : forall j, finished (index0 j).
Proof.
  intros j; destruct j as [| | | |s|l|]; simpl; try discriminate.
  - destruct (chars s); discriminate.
  - destruct l; discriminate.
Qed.

Lemma py_keys_finished : forall j, finished (py_keys j).
Proof. intros []; discriminate. Qed.

Lemma py_items_finished : forall j, finished (py_items j).
Proof. intros []; discriminate. Qed.

Lemma py_len_finished : forall j, finished (py_len j).
Proof. intros []; discriminate. Qed.

Lemma py_iter_finished : forall j, finished (py_iter j).
Proof. intros []; discriminate. Qed.

Lemma slice8_finished : forall j, finished (slice8 j).
Proof. intros []; discriminate. Qed.

Lemma ckpt_names_finished : forall data, finished (ckpt_names data).
Proof.
  intros data. unfold ckpt_names.
  repeat (apply res_bind_finished; [apply py_get_finished|intros ?]).
  apply index0_finished.
Qed.

Lemma py_sorted_finished : forall env j, finished (py_sorted env j).
Proof.
  intros env j. unfold py_sorted.
  destruct j as [| | | | |l|]; try apply of_reply_finished.
  destruct (all_strings l); [discriminate|].
  destruct l as [|x [|y r]]; try apply of_reply_finished. discriminate.
Qed.

Lemma assign_input_finished : forall w node key v, finished (assign_input w node key v).
Proof.
  intros w node key v. unfold assign_input.
  apply res_bind_finished; [apply subscript_finished|intros x].
  apply res_bind_finished; [apply subscript_finished|intros y].
  apply res_bind_finished; [apply store_finished|intros y'].
  apply res_bind_finished; [apply store_finished|intros x'].
  discriminate.
Qed.

Lemma local_name_finished : forall a f, finished (local_name a f).
Proof.
  intros a f; destruct f; simpl; try discriminate.
  destruct (truthy_opt a); discriminate.
Qed.

Lemma get_models_returns :
  forall env st, exists st1,
    get_models env st = (Val (models_of env (http_object_info env (tick st))), st1) /\
    now st1 = now st + 0 + latency env (tick st) /\
    tick st1 = S (tick st) /\
    exists evs, since st st1 evs /\ submitted evs = [] /\ writes evs = [].
Proof.
  intros env st.
  unfold get_models, try_catch, bind, interact, lift, ret, print, models_of.
  simpl.
  destruct (http_object_info env (tick st)) as [e|data]; simpl.
  { eexists; repeat split; simpl. exists [EvPrint (MsgErrorFetchingModels e); EvObjectInfo].
    repeat split. }
  pose proof (ckpt_names_finished data) as Hc.
  destruct (ckpt_names data) as [j|e|]; simpl; [| |contradiction].
  - destruct (truthy j).
    + pose proof (py_sorted_finished env j) as Hs.
      destruct (py_sorted env j) as [l|e|]; simpl; [| |contradiction].
      * eexists; repeat split. exists [EvObjectInfo]. repeat split.
      * eexists; repeat split; simpl.
        exists [EvPrint (MsgErrorFetchingModels e); EvObjectInfo]. repeat split.
    + eexists; repeat split. exists [EvObjectInfo]. repeat split.
  - eexists; repeat split; simpl.
    exists [EvPrint (MsgErrorFetchingModels e); EvObjectInfo]. repeat split.
Qed.

(** C9.  With a model name supplied (a non-empty string) and a seed other
    than -1, the fallback builder asks nothing of the outside: whatever the
    world and its state, it returns the same graph, the dict literal filled
    with the request. *)
Theorem fallback_graph_deterministic :
  forall env1 env2 st1 st2 prompt o m,
    model o = Some m -> m <> "" -> seed o <> -1 ->
    create_fallback_workflow env1 prompt o st1 =
      (Val (fallback_graph prompt (JStr m) o (seed o)), st1) /\
    fst (create_fallback_workflow env1 prompt o st1) =
      fst (create_fallback_workflow env2 prompt o st2).
Proof.
  intros env1 env2 st1 st2 prompt o m Hm Hne Hseed.
  assert (Ht : truthy_opt (model o) = true).
  { rewrite Hm. simpl. destruct (String.eqb_spec m ""); [contradiction|reflexivity]. }
  assert (Hs : (seed o =? -1) = false) by (apply Z.eqb_neq; exact Hseed).
  assert (H : forall env st,
             create_fallback_workflow env prompt o st =
               (Val (fallback_graph prompt (JStr m) o (seed o)), st)).
  { intros env st. unfold create_fallback_workflow, pick_seed, bind, ret.
    rewrite Ht, Hs, Hm. reflexivity. }
  split; [apply H|]. rewrite !H. reflexivity.
Qed.

Lemma fallback_graph_deterministic_witness :
  create_fallback_workflow env_offline "a red block"
    {| model := Some "flux.safetensors"; steps := 20; cfg := 7.0%float;
       width := 512; height := 512; seed := 42 |} (initial_state 0) =
    (Val (fallback_graph "a red block" (JStr "flux.safetensors")
            {| model := Some "flux.safetensors"; steps := 20; cfg := 7.0%float;
               width := 512; height := 512; seed := 42 |} 42),
     initial_state 0) /\
  fst (create_fallback_workflow env_offline "a red block"
         {| model := Some "flux.safetensors"; steps := 20; cfg := 7.0%float;
            width := 512; height := 512; seed := 42 |} (initial_state 0)) =
  fst (create_fallback_workflow env_no_models "a red block"
         {| model := Some "flux.safetensors"; steps := 20; cfg := 7.0%float;
            width := 512; height := 512; seed := 42 |} (initial_state 7)).
Proof.
  apply (fallback_graph_deterministic env_offline env_no_models
           (initial_state 0) (initial_state 7) "a red block"
           {| model := Some "flux.safetensors"; steps := 20; cfg := 7.0%float;
              width := 512; height := 512; seed := 42 |} "flux.safetensors").
  - reflexivity.
  - discriminate.
  - discriminate.
Defined.

Lemma pick_seed_returns :
  forall seed_ st, exists s, pick_seed seed_ st = (Val s, st).
Proof.
  intros seed_ st. unfold pick_seed, bind, time_time, ret.
  destruct (seed_ =? -1); eauto.
Qed.

Lemma models_of_sorted :
  forall env data l cs,
    ckpt_names data = Val (JArr l) -> all_strings l = Some cs ->
    models_of env (inr data) = map JStr (sort_strings cs).
Proof.
  intros env data l cs Hc Hall. unfold models_of. rewrite Hc.
  destruct l as [|x r].
  - simpl in Hall. inversion Hall. reflexivity.
  - simpl truthy. cbv iota. unfold py_sorted. rewrite Hall. reflexivity.
Qed.

(** C1, as the code has it.  With no model name (absent or empty) the
    fallback builder asks [get_models] and never fails: an empty list makes
    it write the literal ["model.safetensors"] into the checkpoint loader,
    a non-empty list its first element.  When the server lists strings the
    list is those strings sorted, so the first element is the least name. *)
Theorem fallback_model_choice :
  forall env prompt o st,
    truthy_opt (model o) = false ->
    exists models st1 seed_,
      get_models env st = (Val models, st1) /\
      create_fallback_workflow env prompt o st =
        (Val (fallback_graph prompt
                (match models with
                 | m :: _ => m
                 | [] => JStr "model.safetensors"
                 end) o seed_), st1) /\
      (forall data l cs,
          http_object_info env (tick st) = inr data ->
          ckpt_names data = Val (JArr l) ->
          all_strings l = Some cs ->
          models = map JStr (sort_strings cs) /\
          Permutation cs (sort_strings cs) /\
          StronglySorted str_le (sort_strings cs)).
Proof.
  intros env prompt o st Hm.
  destruct (get_models_returns env st) as (st1 & Hget & _).
  destruct (pick_seed_returns (seed o) st1) as (s & Hseed).
  exists (models_of env (http_object_info env (tick st))), st1, s.
  split; [exact Hget|]. split.
  - unfold create_fallback_workflow. rewrite Hm. simpl negb. cbv iota.
    unfold bind at 1. unfold bind at 1. rewrite Hget. unfold ret at 1.
    unfold bind. rewrite Hseed. reflexivity.
  - intros data l cs Hreply Hc Hall. rewrite Hreply. split; [|split].
    + eapply models_of_sorted; eassumption.
    + apply sort_strings_perm.
    + apply sort_strings_sorted.
Qed.

Lemma fallback_model_choice_witness :
  exists models st1 seed_,
    get_models env_bad_template (initial_state 0) = (Val models, st1) /\
    create_fallback_workflow env_bad_template "a red block" default_options
      (initial_state 0) =
      (Val (fallback_graph "a red block"
              (match models with
               | m :: _ => m
               | [] => JStr "model.safetensors"
               end) default_options seed_), st1) /\
    (forall data l cs,
        http_object_info env_bad_template (tick (initial_state 0)) = inr data ->
        ckpt_names data = Val (JArr l) ->
        all_strings l = Some cs ->
        models = map JStr (sort_strings cs) /\
        Permutation cs (sort_strings cs) /\
        StronglySorted str_le (sort_strings cs)).
Proof.
  apply (fallback_model_choice env_bad_template "a red block" default_options
           (initial_state 0)).
  reflexivity.
Defined.

(** C1 as stated fails: the server lists no checkpoint, no model is asked
    for, and the builder returns a graph that names ["model.safetensors"]
    instead of failing. *)
Lemma no_model_available_counterexample :
  fst (get_models env_no_models (initial_state 0)) = Val [] /\
  fst (create_fallback_workflow env_no_models "a red block" default_options
         (initial_state 0)) =
    Val (fallback_graph "a red block" (JStr "model.safetensors")
           default_options 0).
Proof. split; reflexivity. Qed.

Lemma create_fallback_returns :
  forall env prompt o st,
    exists m s st1 evs,
      create_fallback_workflow env prompt o st =
        (Val (fallback_graph prompt m o s), st1) /\
      since st st1 evs /\ submitted evs = [] /\ writes evs = [].
Proof.
  intros env prompt o st. unfold create_fallback_workflow.
  destruct (truthy_opt (model o)); simpl negb; cbv iota.
  - destruct (pick_seed_returns (seed o) st) as (s & Hs).
    unfold bind, ret. rewrite Hs.
    do 2 eexists. exists st, []. repeat split.
  - destruct (get_models_returns env st)
      as (st1 & Hget & _ & _ & evs & Hev & Hsub & Hwr).
    destruct (pick_seed_returns (seed o) st1) as (s & Hs).
    unfold bind at 1. unfold bind at 1. rewrite Hget. unfold ret at 1.
    unfold bind, ret. rewrite Hs.
    do 2 eexists. exists st1, evs. repeat split; assumption.
Qed.

(* ================================================================== *)
(** ** The template (lines 52-91) *)

Lemma load_template_unusable :
  forall env st,
    template_unusable (read_template env (tick st)) = true ->
    exists j st1 evs,
      load_workflow_template env st = (Val j, st1) /\ truthy j = false /\
      since st st1 evs /\ submitted evs = [] /\ writes evs = [].
Proof.
  intros env st H.
  unfold load_workflow_template, try_catch, interact, bind, print, ret, lift.
  destruct (read_template env (tick st)) as [e|j]; simpl in *.
  - destruct e; try discriminate.
    + exists JNull. eexists. exists [EvPrint MsgTemplateNotFound; EvReadTemplate].
      repeat split.
    + exists JNull. eexists. exists [EvPrint MsgTemplateInvalidJSON; EvReadTemplate].
      repeat split.
  - exists j. eexists. exists [EvReadTemplate]. repeat split.
    destruct (truthy j); [discriminate|reflexivity].
Qed.

(** A missing, unparseable or empty template makes [create_workflow] build
    the fallback graph; it does not raise. *)
Lemma create_workflow_falls_back :
  forall env prompt o st,
    template_unusable (read_template env (tick st)) = true ->
    exists m s st1 evs,
      create_workflow env prompt o st =
        (Val (fallback_graph prompt m o s), st1) /\
      since st st1 evs /\ submitted evs = [] /\ writes evs = [].
Proof.
  intros env prompt o st H.
  destruct (load_template_unusable env st H)
    as (j & st0 & evs0 & Hload & Hj & Hev0 & Hsub0 & Hwr0).
  destruct (create_fallback_returns env prompt o st0)
    as (m & s & st1 & evs1 & Hfb & Hev1 & Hsub1 & Hwr1).
  exists m, s, st1, (evs1 ++ evs0)%list.
  unfold create_workflow, bind. rewrite Hload, Hj. simpl negb. cbv iota.
  split; [exact Hfb|]. unfold since in *. split; [|split].
  - rewrite Hev1, Hev0. apply app_assoc.
  - unfold submitted in *. rewrite flat_map_app, Hsub0, Hsub1. reflexivity.
  - unfold writes in *. rewrite filter_app, Hwr0, Hwr1. reflexivity.
Qed.

(** C3, the failing run.  The template parses and is a non-empty dict, so
    it is used; it has no node 47, and the [KeyError] of line 80 leaves
    [create_workflow], [generate_asset] and [main] uncaught: the process
    ends with a traceback. *)
Theorem malformed_template_escapes :
  forall fuel,
    fst (load_workflow_template env_bad_template (initial_state 0)) =
      Val template_without_47 /\
    fst (create_workflow env_bad_template "a red block" default_options
           (initial_state 0)) = Exc KeyError /\
    fst (generate_asset env_bad_template fuel sample_client "a red block"
           (Some "block") default_options (initial_state 0)) = Exc KeyError /\
    fst (main env_bad_template fuel (sample_args "512x512") (initial_state 0)) =
      Exc KeyError.
Proof. intro fuel. repeat split. Qed.

(* ================================================================== *)
(** ** The command line (lines 309-339) *)

(** A size that does not parse is reported before anything else happens,
    and [main] returns: the exit status is 0. *)
Lemma invalid_size_no_io :
  forall env fuel a st e,
    parse_size (arg_size a) = Exc e ->
    main env fuel a st =
      (Val 0, {| now := now st; tick := tick st;
                 trace := EvPrint MsgInvalidSize :: trace st |}).
Proof.
  intros env fuel a st e H. unfold main. rewrite H. reflexivity.
Qed.

Lemma digits_value_uint :
  forall d acc,
    digits_value true acc
      (list_ascii_of_string (DecimalString.NilEmpty.string_of_uint d)) =
    Some (uint_value d acc).
Proof.
  induction d; intro acc; simpl; try apply IHd. reflexivity.
Qed.

Lemma digits_value_uint_start :
  forall d,
    d <> Decimal.Nil ->
    digits_value false 0
      (list_ascii_of_string (DecimalString.NilEmpty.string_of_uint d)) =
    Some (uint_value d 0).
Proof.
  intros d Hd. destruct d; [contradiction| ..]; simpl; apply digits_value_uint.
Qed.

Lemma of_uint_acc_value :
  forall d p, Z.pos (Pos.of_uint_acc d p) = uint_value d (Z.pos p).
Proof.
  induction d; intro p; cbn [Pos.of_uint_acc uint_value];
    try rewrite IHd; try reflexivity; f_equal; lia.
Qed.

Lemma of_uint_value : forall d, Z.of_N (Pos.of_uint d) = uint_value d 0.
Proof.
  induction d; simpl; try reflexivity; try exact IHd;
    apply of_uint_acc_value.
Qed.

Lemma uint_value_to_uint : forall p, uint_value (Pos.to_uint p) 0 = Z.pos p.
Proof.
  intro p. rewrite <- of_uint_value, DecimalPos.Unsigned.of_to. reflexivity.
Qed.

Lemma string_of_uint_plain :
  forall d, all_plain (DecimalString.NilEmpty.string_of_uint d) = true.
Proof. induction d; simpl; auto. Qed.

Lemma nilzero_nonnil :
  forall d,
    d <> Decimal.Nil ->
    DecimalString.NilZero.string_of_uint d =
    DecimalString.NilEmpty.string_of_uint d.
Proof. intros d Hd. destruct d; [contradiction| ..]; reflexivity. Qed.

Lemma str_of_int_plain : forall n, all_plain (str_of_int n) = true.
Proof.
  intros [|p|p]; unfold str_of_int; simpl; try reflexivity;
    rewrite (nilzero_nonnil _ (DecimalPos.Unsigned.to_uint_nonnil p));
    apply string_of_uint_plain.
Qed.

Lemma all_plain_forall :
  forall s,
    all_plain s = true ->
    Forall (fun c => plain_char c = true) (list_ascii_of_string s).
Proof.
  induction s as [|c r IH]; simpl; intro H; [constructor|].
  apply andb_true_iff in H. destruct H. constructor; auto.
Qed.

Lemma lstrip_plain :
  forall l, Forall (fun c => plain_char c = true) l -> lstrip l = l.
Proof.
  intros l H. destruct H as [|c r Hc _]; [reflexivity|]. simpl.
  unfold plain_char in Hc. apply andb_true_iff in Hc. destruct Hc as [Hc _].
  destruct (is_space c); [discriminate|reflexivity].
Qed.

Lemma strip_plain :
  forall l, Forall (fun c => plain_char c = true) l -> strip l = l.
Proof.
  intros l H. unfold strip. rewrite (lstrip_plain l H).
  rewrite lstrip_plain; [apply rev_involutive|].
  apply Forall_rev. exact H.
Qed.

(** [int(str(n))] is [n]. *)
Lemma py_int_str_of_int : forall n, py_int (str_of_int n) = Some n.
Proof.
  intro n. unfold py_int.
  rewrite (strip_plain _ (all_plain_forall _ (str_of_int_plain n))).
  destruct n as [|p|p]; unfold str_of_int; simpl Z.to_int; cbn iota beta.
  - reflexivity.
  - unfold DecimalString.NilZero.string_of_int.
    pose proof (DecimalPos.Unsigned.to_uint_nonnil p) as Hnil.
    rewrite (nilzero_nonnil _ Hnil).
    pose proof (digits_value_uint_start _ Hnil) as Hv.
    rewrite uint_value_to_uint in Hv.
    destruct (Pos.to_uint p); [contradiction| ..]; exact Hv.
  - change (DecimalString.NilZero.string_of_int (Decimal.Neg (Pos.to_uint p)))
      with (String "-" (DecimalString.NilZero.string_of_uint (Pos.to_uint p))).
    pose proof (DecimalPos.Unsigned.to_uint_nonnil p) as Hnil.
    rewrite (nilzero_nonnil _ Hnil). cbn [list_ascii_of_string].
    rewrite (digits_value_uint_start _ Hnil), uint_value_to_uint. reflexivity.
Qed.

Lemma split_on_plain :
  forall s, all_plain s = true -> split_on "x" s = [s].
Proof.
  induction s as [|c r IH]; simpl; intro H; [reflexivity|].
  apply andb_true_iff in H. destruct H as [Hc Hr].
  unfold plain_char in Hc. apply andb_true_iff in Hc. destruct Hc as [_ Hx].
  destruct (Ascii.eqb c "x"); [discriminate|]. rewrite (IH Hr). reflexivity.
Qed.

Lemma split_on_plain_app :
  forall a b,
    all_plain a = true -> all_plain b = true ->
    split_on "x" (a ++ String "x" b) = [a; b].
Proof.
  induction a as [|c r IH]; simpl; intros b Ha Hb.
  - rewrite (split_on_plain b Hb). reflexivity.
  - apply andb_true_iff in Ha. destruct Ha as [Hc Hr].
    unfold plain_char in Hc. apply andb_true_iff in Hc. destruct Hc as [_ Hx].
    destruct (Ascii.eqb c "x"); [discriminate|].
    rewrite (IH b Hr Hb). reflexivity.
Qed.

(** The valid half of C4: the size printed as [WxH] parses to [(W, H)]. *)
Lemma parse_size_printed :
  forall w h, parse_size (str_of_int w ++ "x" ++ str_of_int h) = Val (w, h).
Proof.
  intros w h. unfold parse_size.
  change (str_of_int w ++ "x" ++ str_of_int h)
    with (str_of_int w ++ String "x" (str_of_int h)).
  rewrite (split_on_plain_app _ _ (str_of_int_plain w) (str_of_int_plain h)).
  rewrite !py_int_str_of_int. reflexivity.
Qed.

(** The other half: a size is accepted only when it splits at ['x'] in two
    parts that [int] reads. *)
Lemma parse_size_accepts :
  forall size w h,
    parse_size size = Val (w, h) <->
    exists a b,
      split_on "x" size = [a; b] /\ py_int a = Some w /\ py_int b = Some h.
Proof.
  intros size w h. unfold parse_size. split.
  - destruct (split_on "x" size) as [|a [|b [|c r]]]; try discriminate.
    destruct (py_int a) as [w'|] eqn:Ha; [|discriminate].
    destruct (py_int b) as [h'|] eqn:Hb; [|discriminate].
    intro H. inversion H; subst. exists a, b. auto.
  - intros (a & b & -> & -> & ->). reflexivity.
Qed.

(** C4, the failing run.  [--size abc] is rejected with the message and
    nothing else happens (no directory, no request), but [main] leaves by
    [return]: the exit status is 0, where every other failure exits 1. *)
Theorem invalid_size_exits_zero :
  forall env fuel st,
    parse_size "abc" = Exc ValueError /\
    main env fuel (sample_args "abc") st =
      (Val 0, {| now := now st; tick := tick st;
                 trace := EvPrint MsgInvalidSize :: trace st |}) /\
    exit_status (fst (main env fuel (sample_args "abc") st)) = Some 0.
Proof. intros env fuel st. repeat split. Qed.

(* ================================================================== *)
(** ** The poll loop (lines 225-289) *)

Lemma get_history_run :
  forall env id st,
    exists j, get_history env id st = (Val j, advance env st 0 (EvHistory id)).
Proof.
  intros env id st.
  unfold get_history, try_catch, bind, interact, lift, ret. simpl.
  destruct (http_history env (tick st) id) as [e|h]; simpl; eauto.
  destruct h as [| | | | | |d]; simpl; eauto.
  destruct id; simpl; eauto.
Qed.

Lemma forallb_polling_no_write :
  forall evs, forallb polling_event evs = true -> writes evs = [].
Proof.
  induction evs as [|ev r IH]; simpl; intro H; [reflexivity|].
  apply andb_true_iff in H. destruct H as [Hev Hr].
  destruct ev; simpl in *; try discriminate; auto.
Qed.

Lemma lag_snoc :
  forall env n t, lag env t (S n) = lag env t n + latency env (t + n)%nat.
Proof.
  intro env. induction n as [|n IH]; intro t.
  - simpl. rewrite Nat.add_0_r. lia.
  - change (lag env t (S (S n))) with (latency env t + lag env (S t) (S n)).
    rewrite IH. simpl. rewrite <- plus_n_Sm. lia.
Qed.

Lemma waiting_no_write :
  forall env id start st k, writes (waiting env id start st k) = [].
Proof. intros env id start st k. induction k as [|k IH]; simpl; auto. Qed.

Lemma waiting_polls :
  forall env id start st k,
    List.length (polls (waiting env id start st k)) = k.
Proof.
  intros env id start st k. induction k as [|k IH]; simpl; [reflexivity|].
  f_equal. exact IH.
Qed.

Section Timeout.

Variable env : Env.
Variables (c : Client) (asset_name : option string) (id : json) (start : Z).
Variable st : State.

Hypothesis latency_nonneg : forall n, 0 <= latency env n.
Hypothesis never_ready :
  forall st0, exists j, fst (get_history env id st0) = Val j /\ truthy j = false.

(** The loop after [j] rounds of the wait that began in [st]: with [n] more
    seconds to go before the ceiling, at most [n + 1] more rounds follow. *)
Lemma poll_loop_rounds :
  forall n fuel j stj,
    (n < fuel)%nat ->
    now stj = now st + 1000 * Z.of_nat j + lag env (tick st) (2 * j) ->
    tick stj = (tick st + 2 * j)%nat ->
    trace stj = (waiting env id start st j ++ trace st)%list ->
    (forall i, (i < j)%nat -> reading env start st i <= 120000) ->
    start + 1000 * (121 - Z.of_nat n) <= now stj ->
    exists k st',
      (j < k <= j + S n)%nat /\
      poll_loop env fuel c asset_name id start stj = (Val None, st') /\
      trace st' = (EvPrint MsgTimedOut :: waiting env id start st k ++ trace st)%list /\
      120000 < reading env start st (k - 1) /\
      (forall i, (i < k - 1)%nat -> reading env start st i <= 120000) /\
      now st' = now st + 1000 * Z.of_nat k + lag env (tick st) (2 * k) /\
      tick st' = (tick st + 2 * k)%nat.
Proof.
  induction n as [|n IH]; intros fuel j stj Hfuel Hnow Htick Htrace Hbelow Hleft;
    (destruct fuel as [|fuel]; [lia|]).
  all: destruct (never_ready stj) as (h & Hh & Hfalse).
  all: destruct (get_history_run env id stj) as (h' & Hrun).
  all: rewrite Hrun in Hh; simpl in Hh; inversion Hh; subst h'; clear Hh.
  all: pose proof (latency_nonneg (tick stj)) as Hl0.
  all: pose proof (latency_nonneg (S (tick stj))) as Hl1.
  all: assert (Hread : now stj + 0 + latency env (tick stj) - start =
                       reading env start st j)
         by (unfold reading;
             replace (2 * j + 1)%nat with (S (2 * j)) by lia;
             rewrite lag_snoc, Htick, Hnow; lia).
  all: assert (Hnow' : now stj + 0 + latency env (tick stj) + 1000 +
                       latency env (S (tick stj)) =
                       now st + 1000 * Z.of_nat (S j) +
                       lag env (tick st) (2 * S j))
         by (replace (2 * S j)%nat with (S (S (2 * j))) by lia;
             rewrite !lag_snoc, Hnow, Htick;
             replace (tick st + S (2 * j))%nat with (S (tick st + 2 * j)) by lia;
             lia).
  all: cbn [poll_loop]; unfold bind at 1; rewrite Hrun, Hfalse.
  all: unfold bind, time_time, print, time_sleep, ret, advance; cbn [now tick trace].
  all: rewrite Hread.
  all: destruct (reading env start st j >? 120000) eqn:Hgt.
  1, 3: exists (S j); eexists; (split; [lia|]); (split; [reflexivity|]);
    cbn [now tick trace]; rewrite Htrace, Hnow';
    replace (S j - 1)%nat with j by lia;
    rewrite Z.gtb_ltb, Z.ltb_lt in Hgt;
    (split; [reflexivity|]); (split; [exact Hgt|]);
    (split; [exact Hbelow|]); (split; [reflexivity|lia]).
  - exfalso. rewrite Z.gtb_ltb, Z.ltb_ge in Hgt. simpl in Hleft. lia.
  - rewrite Z.gtb_ltb, Z.ltb_ge in Hgt.
    match goal with
    | |- context [poll_loop env fuel c asset_name id start ?s] =>
        destruct (IH fuel (S j) s)
          as (k & st' & Hk & Hloop & Htr & Hlast & Hearlier & Hclock & Hticks)
    end.
    + lia.
    + cbn [now]. exact Hnow'.
    + cbn [tick]. lia.
    + cbn [trace]. rewrite Htrace. reflexivity.
    + intros i Hi. destruct (Nat.eq_dec i j) as [->|Hne];
        [exact Hgt|apply Hbelow; lia].
    + cbn [now]. lia.
    + exists k, st'. split; [lia|]. repeat split; assumption.
Qed.

End Timeout.



Lemma poll_loop_clock_back :
  forall fuel st,
    now st <= 120000 ->
    fst (poll_loop env_clock_back fuel sample_client None (JStr "abc123") 0 st)
      = OutOfFuel.
Proof.
  induction fuel as [|fuel IH]; intros st Hnow; [reflexivity|].
  destruct (get_history_run env_clock_back (JStr "abc123") st) as (h & Hrun).
  assert (Hh : fst (get_history env_clock_back (JStr "abc123") st) = Val JNull)
    by reflexivity.
  rewrite Hrun in Hh. simpl in Hh. inversion Hh. subst h. clear Hh.
  cbn [poll_loop]. unfold bind at 1. rewrite Hrun. cbn [truthy].
  unfold bind, time_time, print, time_sleep, ret, advance. cbn [now tick trace].
  change (latency env_clock_back (tick st)) with (-500).
  change (latency env_clock_back (S (tick st))) with (-500).
  destruct (now st + 0 + -500 - 0 >? 120000) eqn:Hgt.
  - exfalso. rewrite Z.gtb_ltb, Z.ltb_lt in Hgt. lia.
  - apply IH. cbn [now]. lia.
Qed.


(* ================================================================== *)
(** ** Retrieving the result (lines 233-278) *)

Lemma download_image_run :
  forall env f s st,
    download_image env f s st =
      match http_view env (tick st) f s with
      | inr d => (Val (Some d), advance env st 0 (EvView f s))
      | inl e =>
          (Val None,
           {| now := now st + 0 + latency env (tick st);
              tick := S (tick st);
              trace := EvPrint (MsgErrorDownloading e) :: EvView f s :: trace st |})
      end.
Proof.
  intros env f s st.
  unfold download_image, try_catch, bind, interact, ret, print. simpl.
  destruct (http_view env (tick st) f s); reflexivity.
Qed.

Lemma writes_app : forall a b, writes (a ++ b) = (writes a ++ writes b)%list.
Proof. intros a b. apply filter_app. Qed.

Lemma views_app : forall a b, views (a ++ b) = (views a ++ views b)%list.
Proof. intros a b. apply flat_map_app. Qed.

Lemma submitted_app :
  forall a b, submitted (a ++ b) = (submitted a ++ submitted b)%list.
Proof. intros a b. apply flat_map_app. Qed.

Lemma writes_prints : forall msgs, writes (map EvPrint msgs) = [].
Proof. induction msgs; simpl; auto. Qed.

Lemma views_prints : forall msgs, views (map EvPrint msgs) = [].
Proof. induction msgs; simpl; auto. Qed.

Lemma dict_get_some_truthy :
  forall k d v, dict_get k d = Some v -> truthy (JObj d) = true.
Proof. intros k [|kv d] v H; [discriminate|reflexivity]. Qed.

(** Nodes without images only make the loop print. *)
Lemma nodes_loop_no_images :
  forall env c asset_name items st,
    Forall (fun kv => exists n, snd kv = JObj n /\
                                dict_get "images" n = Some (JArr [])) items ->
    exists msgs,
      nodes_loop env c asset_name items st =
        (Val None, {| now := now st; tick := tick st;
                      trace := (map EvPrint msgs ++ trace st)%list |}).
Proof.
  intros env c asset_name items st H. revert st.
  induction H as [|[node_id node_output] rest (n & Hn & Himg) _ IH]; intro st.
  - exists []. destruct st; reflexivity.
  - simpl in Hn. subst node_output.
    destruct (IH {| now := now st; tick := tick st;
                    trace := EvPrint (MsgDebugFound 0)
                               :: EvPrint (MsgDebugNode node_id) :: trace st |})
      as (msgs & Hrest).
    exists (msgs ++ [MsgDebugFound 0; MsgDebugNode node_id])%list.
    cbn [nodes_loop]. unfold bind, lift, print, ret. simpl py_get.
    rewrite Himg. simpl. unfold bind in Hrest. rewrite Hrest. simpl.
    rewrite map_app, <- app_assoc. reflexivity.
Qed.

(** C8.  When the history shows a record in which every output node has an
    empty [images] list, the loop stops at that poll and returns [None]
    after the message that no image was found: besides the request to the
    history there are only messages, so nothing is downloaded or written. *)
Theorem empty_outputs_no_file :
  forall env c asset_name id start fuel st h outs,
    fst (get_history env id st) = Val (JObj h) ->
    dict_get "outputs" h = Some (JObj outs) ->
    Forall (fun kv => exists n, snd kv = JObj n /\
                                dict_get "images" n = Some (JArr [])) outs ->
    exists st' msgs,
      poll_loop env (S fuel) c asset_name id start st = (Val None, st') /\
      since st st' (EvPrint MsgNoImages :: map EvPrint msgs ++ [EvHistory id]) /\
      writes (EvPrint MsgNoImages :: map EvPrint msgs ++ [EvHistory id]) = [] /\
      views (EvPrint MsgNoImages :: map EvPrint msgs ++ [EvHistory id]) = [].
Proof.
  intros env c asset_name id start fuel st h outs Hget Hout Hall.
  destruct (get_history_run env id st) as (j & Hrun).
  rewrite Hrun in Hget. simpl in Hget. inversion Hget; subst j; clear Hget.
  set (st1 := advance env st 0 (EvHistory id)) in *.
  set (st2 := {| now := now st1; tick := tick st1;
                 trace := EvPrint MsgDebugOutputNodes
                            :: EvPrint MsgDebugHistoryKeys
                            :: EvPrint (MsgGenerated (now st1 - start))
                            :: trace st1 |}).
  destruct (nodes_loop_no_images env c asset_name outs st2 Hall) as (msgs & Hloop).
  eexists.
  exists (msgs ++ [MsgDebugOutputNodes; MsgDebugHistoryKeys;
                   MsgGenerated (now st1 - start)])%list.
  split; [|split; [|split]].
  - cbn [poll_loop]. unfold bind at 1. rewrite Hrun.
    rewrite (dict_get_some_truthy _ _ _ Hout).
    unfold bind at 1. unfold time_time at 1. unfold bind at 1. unfold print at 1.
    unfold handle_completion, try_catch, bind, lift, print, ret.
    simpl py_keys. simpl py_get. rewrite Hout. simpl py_keys. simpl py_items.
    cbn [now tick trace]. fold st2.
    rewrite Hloop. reflexivity.
  - unfold since. simpl. rewrite map_app, <- !app_assoc. reflexivity.
  - unfold writes. simpl. rewrite filter_app. simpl. rewrite app_nil_r.
    apply writes_prints.
  - unfold views. simpl. rewrite flat_map_app. simpl. rewrite app_nil_r.
    apply views_prints.
Qed.

Lemma empty_outputs_no_file_witness :
  exists st' msgs,
    poll_loop env_empty_outputs 1 sample_client (Some "block") (JStr "abc123") 0
      (initial_state 0) = (Val None, st') /\
    since (initial_state 0) st'
      (EvPrint MsgNoImages :: map EvPrint msgs ++ [EvHistory (JStr "abc123")]) /\
    writes (EvPrint MsgNoImages :: map EvPrint msgs ++ [EvHistory (JStr "abc123")])
      = [] /\
    views (EvPrint MsgNoImages :: map EvPrint msgs ++ [EvHistory (JStr "abc123")])
      = [].
Proof.
  apply (empty_outputs_no_file env_empty_outputs sample_client (Some "block")
           (JStr "abc123") 0 0 (initial_state 0)
           [("outputs", JObj [("7", JObj [("images", JArr [])])])]
           [("7", JObj [("images", JArr [])])]).
  - reflexivity.
  - reflexivity.
  - constructor; [|constructor].
    exists [("images", JArr [])]. split; reflexivity.
Defined.

Section Retrieval.

Variable env : Env.
Variables (c : Client) (asset_name : option string).

Lemma image_ref_inv :
  forall i f s,
    image_ref i = Some (f, s) ->
    exists d, i = JObj d /\ subscript i "filename" = Val f /\
              py_get i "subfolder" (JStr "") = Val s.
Proof.
  intros i f s H. destruct i as [| | | | | |d]; try discriminate.
  exists d. simpl in *. destruct (dict_get "filename" d); [|discriminate].
  inversion H; subst. repeat split.
Qed.

(** A failed download moves the loop to the next image. *)
Lemma images_loop_skip :
  forall i rest f s st,
    image_ref i = Some (f, s) ->
    download_fails (http_view env (tick st) f s) = true ->
    exists st1 evs,
      images_loop env c asset_name (i :: rest) st =
        images_loop env c asset_name rest st1 /\
      since st st1 evs /\ views evs = [(f, s)] /\ writes evs = [].
Proof.
  intros i rest f s st Href Hfail.
  destruct (image_ref_inv i f s Href) as (d & -> & Hf & Hs).
  cbn [images_loop]. unfold bind at 1. unfold print at 1.
  unfold bind at 1. unfold lift at 1. rewrite Hf.
  unfold bind at 1. unfold lift at 1. rewrite Hs.
  unfold bind at 1. unfold print at 1.
  unfold bind at 1. rewrite download_image_run. cbn [now tick trace].
  destruct (http_view env (tick st) f s) as [e|[|b data]]; try discriminate;
    cbn [no_data]; unfold bind at 1; unfold print at 1; cbn [now tick trace advance];
    eexists; eexists; (split; [reflexivity|]); unfold since; cbn [trace].
  - instantiate (1 := [EvPrint (MsgDownloadFailed f);
                       EvPrint (MsgErrorDownloading e); EvView f s;
                       EvPrint (MsgDownloading f s); EvPrint MsgDebugImageInfo]).
    repeat split.
  - instantiate (1 := [EvPrint (MsgDownloadFailed f); EvView f s;
                       EvPrint (MsgDownloading f s); EvPrint MsgDebugImageInfo]).
    repeat split.
Qed.

(** A download that brings data ends the loop: the data are written and
    the path returned, unless the write raises. *)
Lemma images_loop_hit :
  forall i rest f s st data,
    image_ref i = Some (JStr f, s) ->
    http_view env (tick st) (JStr f) s = inr data -> data <> [] ->
    exists name (reply : exn + unit) r st' evs,
      local_name asset_name (JStr f) = Val name /\
      images_loop env c asset_name (i :: rest) st = (r, st') /\
      since st st' evs /\ views evs = [(JStr f, s)] /\
      writes evs = [EvWrite (path_join (output_dir c) name) data (is_ok reply)] /\
      r = match reply with
          | inr _ => Val (Some (path_absolute (cwd env)
                                  (path_join (output_dir c) name)))
          | inl e => Exc e
          end.
Proof.
  intros i rest f s st data Href Hview Hdata.
  destruct (image_ref_inv i (JStr f) s Href) as (d & -> & Hf & Hs).
  assert (Hname : exists name, local_name asset_name (JStr f) = Val name).
  { simpl. destruct (truthy_opt asset_name); eauto. }
  destruct Hname as (name & Hname). exists name.
  exists (os_write env (S (tick st)) (path_join (output_dir c) name) data).
  cbn [images_loop]. unfold bind at 1. unfold print at 1.
  unfold bind at 1. unfold lift at 1. rewrite Hf.
  unfold bind at 1. unfold lift at 1. rewrite Hs.
  unfold bind at 1. unfold print at 1.
  unfold bind at 1. rewrite download_image_run. cbn [now tick trace].
  rewrite Hview. destruct data as [|b data]; [contradiction|].
  cbn [no_data]. unfold bind at 1. unfold lift at 1. rewrite Hname.
  unfold bind at 1. unfold write_file. cbn [now tick trace advance].
  destruct (os_write env (S (tick st)) (path_join (output_dir c) name) (b :: data))
    as [e|[]]; cbn [of_reply is_ok]; unfold bind, print, ret; cbn [now tick trace];
    eexists; eexists; eexists; (split; [reflexivity|split; [reflexivity|]]);
    unfold since; cbn [trace].
  - instantiate (1 := [EvWrite (path_join (output_dir c) name) (b :: data) false;
                       EvView (JStr f) s; EvPrint (MsgDownloading (JStr f) s);
                       EvPrint MsgDebugImageInfo]).
    repeat split.
  - instantiate (1 := [EvPrint (MsgLocation (path_absolute (cwd env)
                                   (path_join (output_dir c) name)));
                       EvPrint (MsgSaved name (List.length (b :: data)));
                       EvWrite (path_join (output_dir c) name) (b :: data) true;
                       EvView (JStr f) s; EvPrint (MsgDownloading (JStr f) s);
                       EvPrint MsgDebugImageInfo]).
    repeat split.
Qed.

Lemma image_refs_cons :
  forall i r refs,
    image_refs (i :: r) = Some refs ->
    exists x xs, image_ref i = Some x /\ image_refs r = Some xs /\ refs = x :: xs.
Proof.
  intros i r refs H. simpl in H.
  destruct (image_ref i) as [x|]; [|discriminate].
  destruct (image_refs r) as [xs|]; [|discriminate].
  inversion H. eauto.
Qed.

Lemma since_trans :
  forall st0 st1 st2 e1 e2,
    since st0 st1 e1 -> since st1 st2 e2 -> since st0 st2 (e2 ++ e1).
Proof.
  unfold since. intros st0 st1 st2 e1 e2 H1 H2.
  rewrite H2, H1. apply app_assoc.
Qed.

Lemma images_loop_all_fail :
  forall imgs refs st,
    image_refs imgs = Some refs ->
    Forall (always_fails env) refs ->
    exists st' evs,
      images_loop env c asset_name imgs st = (Val None, st') /\
      since st st' evs /\ rev (views evs) = refs /\ writes evs = [].
Proof.
  induction imgs as [|i r IH]; intros refs st Hrefs Hfail.
  - simpl in Hrefs. inversion Hrefs. exists st, []. repeat split.
  - destruct (image_refs_cons i r refs Hrefs) as ([f s] & xs & Hi & Hr & ->).
    inversion Hfail as [|? ? Hhd Htl]; subst.
    destruct (images_loop_skip i r f s st Hi (Hhd (tick st)))
      as (st1 & evs1 & Hstep & Hs1 & Hv1 & Hw1).
    destruct (IH xs st1 Hr Htl) as (st' & evs & Hloop & Hs & Hv & Hw).
    exists st', (evs ++ evs1)%list. rewrite Hstep. split; [exact Hloop|].
    split; [eapply since_trans; eassumption|]. split.
    + rewrite views_app, rev_app_distr, Hv1, Hv. reflexivity.
    + rewrite writes_app, Hw1, Hw. reflexivity.
Qed.

Lemma images_loop_first :
  forall pre imgs f s post data st,
    image_refs imgs = Some (pre ++ (JStr f, s) :: post)%list ->
    Forall (always_fails env) pre ->
    (forall n, http_view env n (JStr f) s = inr data) -> data <> [] ->
    exists r st' evs,
      images_loop env c asset_name imgs st = (r, st') /\
      since st st' evs /\
      saved_after env c asset_name (fun e => Exc e) pre f s data r evs.
Proof.
  induction pre as [|[f0 s0] pre IH]; intros imgs f s post data st Hrefs Hfail Hok Hdata;
    (destruct imgs as [|i rest]; [discriminate Hrefs|]);
    destruct (image_refs_cons i rest _ Hrefs) as (x & xs & Hi & Hr & Heq);
    simpl in Heq; inversion Heq; subst; clear Heq.
  - destruct (images_loop_hit i rest f s st data Hi (Hok (tick st)) Hdata)
      as (name & reply & r & st' & evs & Hname & Hrun & Hs & Hv & Hw & Hres).
    exists r, st', evs. split; [exact Hrun|]. split; [exact Hs|].
    exists name, reply. rewrite Hv. repeat split; assumption.
  - inversion Hfail as [|? ? Hhd Htl]; subst.
    destruct (images_loop_skip i rest f0 s0 st Hi (Hhd (tick st)))
      as (st1 & evs1 & Hstep & Hs1 & Hv1 & Hw1).
    destruct (IH rest f s post data st1 Hr Htl Hok Hdata)
      as (r & st' & evs & Hrun & Hs & name & reply & Hname & Hv & Hw & Hres).
    exists r, st', (evs ++ evs1)%list. rewrite Hstep. split; [exact Hrun|].
    split; [eapply since_trans; eassumption|].
    exists name, reply. split; [exact Hname|]. split; [|split].
    + rewrite views_app, rev_app_distr, Hv1, Hv. reflexivity.
    + rewrite writes_app, Hw1, Hw. reflexivity.
    + exact Hres.
Qed.

(** Entering a node: two debug lines, then the loop over its images. *)
Lemma nodes_loop_step :
  forall node_id n rest x st,
    node_refs n = Some x ->
    exists imgs st0,
      image_refs imgs = Some x /\
      since st st0 [EvPrint (MsgDebugFound (List.length imgs));
                    EvPrint (MsgDebugNode node_id)] /\
      nodes_loop env c asset_name ((node_id, n) :: rest) st =
        bind (images_loop env c asset_name imgs)
             (fun r => match r with
                       | Some path => ret (Some path)
                       | None => nodes_loop env c asset_name rest
                       end) st0.
Proof.
  intros node_id n rest x st Hn.
  destruct n as [| | | | | |d]; try discriminate. simpl in Hn.
  destruct (dict_get "images" d) as [images|] eqn:Himg.
  - destruct images as [| | | | |imgs|]; try discriminate.
    exists imgs. eexists. split; [exact Hn|]. split; [|].
    2:{ cbn [nodes_loop]. unfold bind at 1. unfold lift at 1. cbn [py_keys].
        unfold bind at 1. unfold print at 1.
        unfold bind at 1. unfold lift at 1. cbn [py_get]. rewrite Himg.
        unfold bind at 1. unfold lift at 1. cbn [py_len].
        unfold bind at 1. unfold print at 1.
        unfold bind at 1. unfold lift at 1. cbn [py_iter].
        cbn [now tick trace]. reflexivity. }
    unfold since. reflexivity.
  - inversion Hn; subst x.
    exists []. eexists. split; [reflexivity|]. split; [|].
    2:{ cbn [nodes_loop]. unfold bind at 1. unfold lift at 1. cbn [py_keys].
        unfold bind at 1. unfold print at 1.
        unfold bind at 1. unfold lift at 1. cbn [py_get]. rewrite Himg.
        unfold bind at 1. unfold lift at 1. cbn [py_len].
        unfold bind at 1. unfold print at 1.
        unfold bind at 1. unfold lift at 1. cbn [py_iter].
        cbn [now tick trace]. reflexivity. }
    unfold since. reflexivity.
Qed.

Lemma nodes_refs_cons :
  forall node_id n rest refs,
    nodes_refs ((node_id, n) :: rest) = Some refs ->
    exists x xs, node_refs n = Some x /\ nodes_refs rest = Some xs /\
                 refs = (x ++ xs)%list.
Proof.
  intros node_id n rest refs H. simpl in H.
  destruct (node_refs n) as [x|]; [|discriminate].
  destruct (nodes_refs rest) as [xs|]; [|discriminate].
  inversion H. eauto.
Qed.

Lemma nodes_loop_all_fail :
  forall items refs st,
    nodes_refs items = Some refs ->
    Forall (always_fails env) refs ->
    exists st' evs,
      nodes_loop env c asset_name items st = (Val None, st') /\
      since st st' evs /\ rev (views evs) = refs /\ writes evs = [].
Proof.
  induction items as [|[node_id n] rest IH]; intros refs st Hrefs Hfail.
  - simpl in Hrefs. inversion Hrefs. exists st, []. repeat split.
  - destruct (nodes_refs_cons _ _ _ _ Hrefs) as (x & xs & Hn & Hrest & ->).
    apply Forall_app in Hfail. destruct Hfail as [Hx Hxs].
    destruct (nodes_loop_step node_id n rest x st Hn)
      as (imgs & st0 & Himgs & Hs0 & Hstep).
    destruct (images_loop_all_fail imgs x st0 Himgs Hx)
      as (st1 & evs1 & Hrun1 & Hs1 & Hv1 & Hw1).
    destruct (IH xs st1 Hrest Hxs) as (st' & evs & Hrun & Hs & Hv & Hw).
    exists st', (evs ++ evs1 ++ [EvPrint (MsgDebugFound (List.length imgs));
                                 EvPrint (MsgDebugNode node_id)])%list.
    rewrite Hstep. unfold bind. rewrite Hrun1. split; [exact Hrun|].
    split; [eapply since_trans; [eapply since_trans|]; eassumption|]. split.
    + rewrite !views_app, !rev_app_distr, Hv1, Hv. reflexivity.
    + rewrite !writes_app, Hw1, Hw. reflexivity.
Qed.

Lemma nodes_loop_first :
  forall items pre f s post data st,
    nodes_refs items = Some (pre ++ (JStr f, s) :: post)%list ->
    Forall (always_fails env) pre ->
    (forall n, http_view env n (JStr f) s = inr data) -> data <> [] ->
    exists r st' evs,
      nodes_loop env c asset_name items st = (r, st') /\
      since st st' evs /\
      saved_after env c asset_name (fun e => Exc e) pre f s data r evs.
Proof.
  induction items as [|[node_id n] rest IH];
    intros pre f s post data st Hrefs Hfail Hok Hdata.
  - destruct pre; discriminate.
  - destruct (nodes_refs_cons _ _ _ _ Hrefs) as (x & xs & Hn & Hrest & Heq).
    destruct (nodes_loop_step node_id n rest x st Hn)
      as (imgs & st0 & Himgs & Hs0 & Hstep).
    rewrite Hstep. unfold bind.
    apply app_eq_app in Heq.
    destruct Heq as (l & [[Hpre Hxs] | [Hx Hpost]]).
    + (* every image of this node fails *)
      subst pre xs. apply Forall_app in Hfail. destruct Hfail as [Hx Hl].
      destruct (images_loop_all_fail imgs x st0 Himgs Hx)
        as (st1 & evs1 & Hrun1 & Hs1 & Hv1 & Hw1).
      destruct (IH l f s post data st1 Hrest Hl Hok Hdata)
        as (r & st' & evs & Hrun & Hs & name & reply & Hname & Hv & Hw & Hres).
      exists r, st'.
      exists (evs ++ evs1 ++ [EvPrint (MsgDebugFound (List.length imgs));
                              EvPrint (MsgDebugNode node_id)])%list.
      rewrite Hrun1. split; [exact Hrun|].
      split; [eapply since_trans; [eapply since_trans|]; eassumption|].
      exists name, reply. split; [exact Hname|]. split; [|split].
      * rewrite !views_app, !rev_app_distr, Hv1, Hv. simpl.
        apply app_assoc.
      * rewrite !writes_app, Hw1, Hw. reflexivity.
      * exact Hres.
    + (* the image is in this node *)
      destruct l as [|y l].
      * (* the node ends before it: same as above with nothing left over *)
        rewrite app_nil_r in Hx. subst x. simpl in Hpost. subst xs.
        destruct (images_loop_all_fail imgs pre st0 Himgs Hfail)
          as (st1 & evs1 & Hrun1 & Hs1 & Hv1 & Hw1).
        destruct (IH [] f s post data st1 Hrest (Forall_nil _) Hok Hdata)
          as (r & st' & evs & Hrun & Hs & name & reply & Hname & Hv & Hw & Hres).
        exists r, st'.
        exists (evs ++ evs1 ++ [EvPrint (MsgDebugFound (List.length imgs));
                                EvPrint (MsgDebugNode node_id)])%list.
        rewrite Hrun1. split; [exact Hrun|].
        split; [eapply since_trans; [eapply since_trans|]; eassumption|].
        exists name, reply. split; [exact Hname|]. split; [|split].
        -- rewrite !views_app, !rev_app_distr, Hv1, Hv. reflexivity.
        -- rewrite !writes_app, Hw1, Hw. reflexivity.
        -- exact Hres.
      * simpl in Hpost. inversion Hpost; subst y post. subst x.
        destruct (images_loop_first pre imgs f s l data st0 Himgs Hfail Hok Hdata)
          as (r & st1 & evs1 & Hrun1 & Hs1 & name & reply & Hname & Hv & Hw & Hres).
        rewrite Hrun1.
        exists r. destruct reply as [e|u]; subst r.
        -- exists st1, (evs1 ++ [EvPrint (MsgDebugFound (List.length imgs));
                                 EvPrint (MsgDebugNode node_id)])%list.
           split; [reflexivity|]. split; [eapply since_trans; eassumption|].
           exists name, (inl e). split; [exact Hname|]. split; [|split].
           ++ rewrite views_app, rev_app_distr, Hv. reflexivity.
           ++ rewrite writes_app, Hw. reflexivity.
           ++ reflexivity.
        -- exists st1, (evs1 ++ [EvPrint (MsgDebugFound (List.length imgs));
                                 EvPrint (MsgDebugNode node_id)])%list.
           split; [reflexivity|]. split; [eapply since_trans; eassumption|].
           exists name, (inr u). split; [exact Hname|]. split; [|split].
           ++ rewrite views_app, rev_app_distr, Hv. reflexivity.
           ++ rewrite writes_app, Hw. reflexivity.
           ++ reflexivity.
Qed.

End Retrieval.

Lemma record_refs_inv :
  forall history refs,
    record_refs history = Some refs ->
    exists outs,
      py_keys history = Val (match history with JObj h => map fst h | _ => [] end) /\
      py_get history "outputs" (JObj []) = Val (JObj outs) /\
      nodes_refs outs = Some refs.
Proof.
  intros history refs H. destruct history as [| | | | | |h]; try discriminate.
  simpl in H. simpl py_get.
  destruct (dict_get "outputs" h) as [o|].
  - destruct o as [| | | | | |outs]; try discriminate. exists outs. auto.
  - exists []. auto.
Qed.




(* ================================================================== *)
(** ** Footprints *)

Section Footprint.

Variable env : Env.
Variable p : event -> bool.

Lemma emits_ret : forall A (a : A), emits p (ret a).
Proof. intros A a st. exists []. split; reflexivity. Qed.

Lemma emits_lift : forall A (r : res A), emits p (lift r).
Proof. intros A r st. exists []. split; reflexivity. Qed.

Lemma emits_time_time : emits p time_time.
Proof. intros st. exists []. split; reflexivity. Qed.

Lemma emits_print : forall m, p (EvPrint m) = true -> emits p (print m).
Proof.
  intros m H st. exists [EvPrint m]. split; [reflexivity|].
  simpl. rewrite H. reflexivity.
Qed.

Lemma emits_interact :
  forall A (ask : nat -> exn + A) ev,
    p ev = true -> emits p (interact env ask ev).
Proof.
  intros A ask ev H st. exists [ev]. split; [reflexivity|].
  simpl. rewrite H. reflexivity.
Qed.

Lemma emits_time_sleep :
  forall ms, p (EvSleep ms) = true -> emits p (time_sleep env ms).
Proof.
  intros ms H st. exists [EvSleep ms]. split; [reflexivity|].
  simpl. rewrite H. reflexivity.
Qed.

Lemma emits_write_file :
  forall path data,
    (forall b, p (EvWrite path data b) = true) ->
    emits p (write_file env path data).
Proof.
  intros path data H st. eexists [_]. split; [reflexivity|].
  simpl. rewrite H. reflexivity.
Qed.

Lemma emits_bind :
  forall A B (m : M A) (k : A -> M B),
    emits p m -> (forall a, emits p (k a)) -> emits p (bind m k).
Proof.
  intros A B m k Hm Hk st. unfold bind.
  destruct (Hm st) as (e1 & Hs1 & Hp1).
  destruct (m st) as [[a|e|] st1]; simpl in Hs1.
  - destruct (Hk a st1) as (e2 & Hs2 & Hp2).
    exists (e2 ++ e1)%list. split.
    + eapply since_trans; eassumption.
    + rewrite forallb_app, Hp1, Hp2. reflexivity.
  - exists e1. auto.
  - exists e1. auto.
Qed.

Lemma emits_try_catch :
  forall A (m : M A) (h : exn -> M A),
    emits p m -> (forall e, emits p (h e)) -> emits p (try_catch m h).
Proof.
  intros A m h Hm Hh st. unfold try_catch.
  destruct (Hm st) as (e1 & Hs1 & Hp1).
  destruct (m st) as [[a|e|] st1]; simpl in Hs1.
  - exists e1. auto.
  - destruct (Hh e st1) as (e2 & Hs2 & Hp2).
    exists (e2 ++ e1)%list. split.
    + eapply since_trans; eassumption.
    + rewrite forallb_app, Hp1, Hp2. reflexivity.
  - exists e1. auto.
Qed.

End Footprint.

Lemma emits_weaken :
  forall (p q : event -> bool) A (m : M A),
    (forall ev, p ev = true -> q ev = true) -> emits p m -> emits q m.
Proof.
  intros p q A m Hpq Hm st. destruct (Hm st) as (evs & Hs & Hp).
  exists evs. split; [exact Hs|].
  rewrite forallb_forall in *. auto.
Qed.

Ltac emits_tac :=
  repeat first
    [ assumption
    | match goal with
      | H : forall _, emits _ _ |- emits _ _ => apply H
      | H : forall _ _, emits _ _ |- emits _ _ => apply H
      end
    | apply emits_ret
    | apply emits_lift
    | apply emits_time_time
    | apply emits_print; reflexivity
    | apply emits_interact; reflexivity
    | apply emits_time_sleep; reflexivity
    | apply emits_write_file; intro; reflexivity
    | apply emits_bind; [|intro]
    | apply emits_try_catch; [|intro]
    | progress cbv zeta
    | match goal with
      | |- emits _ (if ?b then _ else _) => destruct b
      | |- emits _ (match ?x with _ => _ end) => destruct x
      end ].

Lemma emits_is_server_running :
  forall env, emits health_event (is_server_running env).
Proof. intro env. unfold is_server_running. emits_tac. Qed.

Lemma emits_get_models : forall env, emits build_event (get_models env).
Proof. intro env. unfold get_models. emits_tac. Qed.

Lemma emits_create_fallback :
  forall env prompt o, emits build_event (create_fallback_workflow env prompt o).
Proof.
  intros env prompt o. unfold create_fallback_workflow, pick_seed.
  pose proof (emits_get_models env). emits_tac.
Qed.

Lemma emits_create_workflow :
  forall env prompt o, emits build_event (create_workflow env prompt o).
Proof.
  intros env prompt o. unfold create_workflow, load_workflow_template, pick_seed.
  pose proof (emits_create_fallback env prompt o). emits_tac.
Qed.

Lemma emits_queue_prompt :
  forall env c w, emits prompt_event (queue_prompt env c w).
Proof. intros env c w. unfold queue_prompt. emits_tac. Qed.

Lemma emits_get_history :
  forall env id, emits loop_event (get_history env id).
Proof. intros env id. unfold get_history. emits_tac. Qed.

Lemma emits_download_image :
  forall env f s, emits loop_event (download_image env f s).
Proof. intros env f s. unfold download_image. emits_tac. Qed.

Lemma emits_images_loop :
  forall env c asset_name imgs,
    emits loop_event (images_loop env c asset_name imgs).
Proof.
  intros env c asset_name imgs. induction imgs as [|i rest IH]; cbn [images_loop].
  - emits_tac.
  - pose proof (emits_download_image env). emits_tac.
Qed.

Lemma emits_nodes_loop :
  forall env c asset_name items,
    emits loop_event (nodes_loop env c asset_name items).
Proof.
  intros env c asset_name items.
  induction items as [|[node_id n] rest IH]; cbn [nodes_loop].
  - emits_tac.
  - pose proof (emits_images_loop env c asset_name). emits_tac.
Qed.

Lemma emits_handle_completion :
  forall env c asset_name history,
    emits loop_event (handle_completion env c asset_name history).
Proof.
  intros env c asset_name history. unfold handle_completion.
  pose proof (emits_nodes_loop env c asset_name). emits_tac.
Qed.

Lemma emits_poll_loop :
  forall env fuel c asset_name id start,
    emits loop_event (poll_loop env fuel c asset_name id start).
Proof.
  intros env fuel c asset_name id start.
  induction fuel as [|fuel IH]; cbn [poll_loop].
  - emits_tac.
  - pose proof (emits_get_history env id).
    pose proof (emits_handle_completion env c asset_name). emits_tac.
Qed.

(* ================================================================== *)
(** ** Writes and results *)

Lemma no_write_writes :
  forall evs, forallb no_write evs = true -> writes evs = [].
Proof.
  induction evs as [|ev r IH]; simpl; intro H; [reflexivity|].
  apply andb_true_iff in H. destruct H as [Hev Hr].
  unfold no_write in Hev. destruct (is_write ev); [discriminate|]. auto.
Qed.

Section Outcomes.

Variable env : Env.

Lemma inner_outcome_app :
  forall r e1 e2,
    writes e1 = [] -> inner_outcome env r e2 -> inner_outcome env r (e2 ++ e1).
Proof.
  intros r e1 e2 H1 H. unfold inner_outcome in *.
  rewrite writes_app, H1, app_nil_r. exact H.
Qed.

Lemma write_outcome_app :
  forall r e1 e2,
    writes e1 = [] -> write_outcome env r e2 -> write_outcome env r (e2 ++ e1).
Proof.
  intros r e1 e2 H1 H. unfold write_outcome in *.
  rewrite writes_app, H1, app_nil_r. exact H.
Qed.

Lemma inner_ret_none : inner_spec env (ret None).
Proof.
  intro st. exists []. split; [reflexivity|]. left. split; [reflexivity|].
  discriminate.
Qed.

Lemma outcome_ret_none : outcome_spec env (ret None).
Proof.
  intro st. exists []. split; [reflexivity|]. left. split; [reflexivity|].
  discriminate.
Qed.

Lemma outcome_out_of_fuel : outcome_spec env (lift OutOfFuel).
Proof.
  intro st. exists []. split; [reflexivity|]. left. split; [reflexivity|].
  discriminate.
Qed.

Lemma inner_bind :
  forall A (m : M A) (k : A -> M (option string)),
    emits no_write m -> (forall a, inner_spec env (k a)) ->
    inner_spec env (bind m k).
Proof.
  intros A m k Hm Hk st. unfold bind.
  destruct (Hm st) as (e1 & Hs1 & Hp1). apply no_write_writes in Hp1.
  destruct (m st) as [[a|e|] st1]; simpl in Hs1.
  - destruct (Hk a st1) as (e2 & Hs2 & Ho).
    exists (e2 ++ e1)%list. split; [eapply since_trans; eassumption|].
    apply inner_outcome_app; assumption.
  - exists e1. split; [exact Hs1|]. left. split; [exact Hp1|]. discriminate.
  - exists e1. split; [exact Hs1|]. left. split; [exact Hp1|]. discriminate.
Qed.

Lemma outcome_bind :
  forall A (m : M A) (k : A -> M (option string)),
    emits no_write m -> (forall a, outcome_spec env (k a)) ->
    outcome_spec env (bind m k).
Proof.
  intros A m k Hm Hk st. unfold bind.
  destruct (Hm st) as (e1 & Hs1 & Hp1). apply no_write_writes in Hp1.
  destruct (m st) as [[a|e|] st1]; simpl in Hs1.
  - destruct (Hk a st1) as (e2 & Hs2 & Ho).
    exists (e2 ++ e1)%list. split; [eapply since_trans; eassumption|].
    apply write_outcome_app; assumption.
  - exists e1. split; [exact Hs1|]. left. split; [exact Hp1|]. discriminate.
  - exists e1. split; [exact Hs1|]. left. split; [exact Hp1|]. discriminate.
Qed.

(** A loop body that returns what the inner loop returned, or goes on. *)
Lemma inner_then :
  forall (m next : M (option string)),
    inner_spec env m -> inner_spec env next ->
    inner_spec env
      (bind m (fun r => match r with
                        | Some path => ret (Some path)
                        | None => next
                        end)).
Proof.
  intros m next Hm Hnext st. unfold bind.
  destruct (Hm st) as (e1 & Hs1 & Ho1).
  destruct (m st) as [[[path|]|e|] st1]; simpl in Hs1, Ho1.
  - exists e1. split; [exact Hs1|exact Ho1].
  - destruct (Hnext st1) as (e2 & Hs2 & Ho2).
    exists (e2 ++ e1)%list. split; [eapply since_trans; eassumption|].
    apply inner_outcome_app; [|exact Ho2].
    destruct Ho1 as [[Hw _]|[(p & d & _ & H)|(p & d & e & _ & H)]];
      [exact Hw|discriminate|discriminate].
  - exists e1. split; [exact Hs1|exact Ho1].
  - exists e1. split; [exact Hs1|exact Ho1].
Qed.

(** The end of the [try] block. *)
Lemma outcome_try_catch :
  forall (m : M (option string)) (report : exn -> msg),
    inner_spec env m ->
    outcome_spec env (try_catch m (fun e => print (report e) ;;; ret None)).
Proof.
  intros m report Hm st. unfold try_catch.
  destruct (Hm st) as (e1 & Hs1 & Ho1).
  destruct (m st) as [[a|e|] st1]; simpl in Hs1, Ho1.
  - exists e1. split; [exact Hs1|].
    destruct Ho1 as [H|[H|(p & d & e & _ & H)]]; [left; exact H|right; left; exact H|discriminate].
  - exists (EvPrint (report e) :: e1). split.
    + unfold since in *. simpl. rewrite Hs1. reflexivity.
    + change (writes (EvPrint (report e) :: e1)) with (writes e1) in *.
      unfold bind, print, ret. simpl.
      destruct Ho1 as [[Hw _]|[(p & d & _ & H)|(p & d & e' & Hw & _)]].
      * left. split; [exact Hw|discriminate].
      * discriminate.
      * right. right. exists p, d. split; [exact Hw|reflexivity].
  - exists e1. split; [exact Hs1|].
    destruct Ho1 as [H|[(p & d & _ & H)|(p & d & e & _ & H)]];
      [left; exact H|discriminate|discriminate].
Qed.

(** The tail of the loop body: write, report, return the path. *)
Lemma inner_write_tail :
  forall path data m1 m2,
    inner_spec env
      (write_file env path data ;;; print m1 ;;; print m2 ;;;
       ret (Some (path_absolute (cwd env) path))).
Proof.
  intros path data m1 m2 st.
  unfold bind, write_file, print, ret. simpl.
  destruct (os_write env (tick st) path data) as [e|[]]; simpl.
  - exists [EvWrite path data false]. split; [reflexivity|].
    right. right. exists path, data, e. split; reflexivity.
  - exists [EvPrint m2; EvPrint m1; EvWrite path data true].
    split; [reflexivity|]. right. left. exists path, data. split; reflexivity.
Qed.

End Outcomes.

Ltac spec_tac :=
  repeat first
    [ assumption
    | match goal with
      | H : forall _, inner_spec _ _ |- inner_spec _ _ => apply H
      | H : forall _, outcome_spec _ _ |- outcome_spec _ _ => apply H
      | H : forall _ _, outcome_spec _ _ |- outcome_spec _ _ => apply H
      end
    | apply inner_ret_none
    | apply outcome_ret_none
    | apply outcome_out_of_fuel
    | apply inner_write_tail
    | apply inner_then
    | apply inner_bind; [solve [emits_tac]|intro]
    | apply outcome_bind; [solve [emits_tac]|intro]
    | progress cbv zeta
    | match goal with
      | |- inner_spec _ (if ?b then _ else _) => destruct b
      | |- inner_spec _ (match ?x with _ => _ end) => destruct x
      | |- outcome_spec _ (if ?b then _ else _) => destruct b
      | |- outcome_spec _ (match ?x with _ => _ end) => destruct x
      end ].

Lemma inner_images_loop :
  forall env c asset_name imgs,
    inner_spec env (images_loop env c asset_name imgs).
Proof.
  intros env c asset_name imgs. induction imgs as [|i rest IH]; cbn [images_loop].
  - spec_tac.
  - spec_tac.
Qed.

Lemma inner_nodes_loop :
  forall env c asset_name items,
    inner_spec env (nodes_loop env c asset_name items).
Proof.
  intros env c asset_name items.
  induction items as [|[node_id n] rest IH]; cbn [nodes_loop].
  - spec_tac.
  - pose proof (inner_images_loop env c asset_name). spec_tac.
Qed.

Lemma outcome_handle_completion :
  forall env c asset_name history,
    outcome_spec env (handle_completion env c asset_name history).
Proof.
  intros env c asset_name history. unfold handle_completion.
  pose proof (inner_nodes_loop env c asset_name).
  apply outcome_try_catch. spec_tac.
Qed.

Lemma outcome_poll_loop :
  forall env fuel c asset_name id start,
    outcome_spec env (poll_loop env fuel c asset_name id start).
Proof.
  intros env fuel c asset_name id start.
  induction fuel as [|fuel IH]; cbn [poll_loop].
  - spec_tac.
  - pose proof (outcome_handle_completion env c asset_name). spec_tac.
Qed.

Lemma health_no_write : forall ev, health_event ev = true -> no_write ev = true.
Proof. intros []; simpl; auto. Qed.

Lemma build_no_write : forall ev, build_event ev = true -> no_write ev = true.
Proof. intros []; simpl; auto. Qed.

Lemma prompt_no_write : forall ev, prompt_event ev = true -> no_write ev = true.
Proof. intros []; simpl; auto. Qed.

Lemma outcome_generate_asset :
  forall env fuel c prompt asset_name o,
    outcome_spec env (generate_asset env fuel c prompt asset_name o).
Proof.
  intros env fuel c prompt asset_name o. unfold generate_asset.
  pose proof (outcome_poll_loop env fuel c asset_name).
  pose proof (emits_weaken _ _ _ _ health_no_write (emits_is_server_running env)).
  pose proof (emits_weaken _ _ _ _ build_no_write
                (emits_create_workflow env prompt o)).
  pose proof (fun w => emits_weaken _ _ _ _ prompt_no_write
                         (emits_queue_prompt env c w)).
  spec_tac.
Qed.

(* ================================================================== *)
(** ** What the client does to the file system *)

Lemma emits_generate_asset :
  forall env fuel c prompt asset_name o,
    emits asset_event (generate_asset env fuel c prompt asset_name o).
Proof.
  intros env fuel c prompt asset_name o. unfold generate_asset.
  assert (Hh : emits asset_event (is_server_running env)).
  { eapply emits_weaken; [|apply emits_is_server_running]. intros []; auto. }
  assert (Hb : emits asset_event (create_workflow env prompt o)).
  { eapply emits_weaken; [|apply emits_create_workflow]. intros []; auto. }
  assert (Hq : forall w, emits asset_event (queue_prompt env c w)).
  { intro w. eapply emits_weaken; [|apply emits_queue_prompt]. intros []; auto. }
  assert (Hl : forall id start,
             emits asset_event (poll_loop env fuel c asset_name id start)).
  { intros id start. eapply emits_weaken; [|apply emits_poll_loop].
    intros []; auto. }
  emits_tac.
Qed.

Lemma since_unique :
  forall st st' e1 e2, since st st' e1 -> since st st' e2 -> e1 = e2.
Proof.
  unfold since. intros st st' e1 e2 H1 H2. rewrite H1 in H2.
  eapply app_inv_tail. exact H2.
Qed.



(* ================================================================== *)
(** ** The asset name and the submitted graph (lines 212-214) *)

Lemma health_no_submit :
  forall evs, forallb health_event evs = true -> submitted evs = [].
Proof.
  induction evs as [|ev r IH]; simpl; intro H; [reflexivity|].
  apply andb_true_iff in H. destruct H as [Hev Hr].
  destruct ev; simpl in *; try discriminate; auto.
Qed.

Lemma loop_no_submit :
  forall evs, forallb loop_event evs = true -> submitted evs = [].
Proof.
  induction evs as [|ev r IH]; simpl; intro H; [reflexivity|].
  apply andb_true_iff in H. destruct H as [Hev Hr].
  destruct ev; simpl in *; try discriminate; auto.
Qed.

Lemma queue_prompt_submitted :
  forall env c w st,
    exists evs,
      since st (snd (queue_prompt env c w st)) evs /\ submitted evs = [w].
Proof.
  intros env c w st.
  unfold queue_prompt, try_catch, bind, interact, lift, print, ret. simpl.
  destruct (http_prompt env (tick st) w (client_id c)) as [e|result]; simpl.
  - exists [EvPrint (MsgErrorQueuing e); EvPrompt w (client_id c)].
    split; reflexivity.
  - pose proof (py_get_finished result "prompt_id" JNull) as Hf.
    destruct (py_get result "prompt_id" JNull) as [j|e|]; simpl;
      [| |contradiction].
    + exists [EvPrompt w (client_id c)]. split; reflexivity.
    + exists [EvPrint (MsgErrorQueuing e); EvPrompt w (client_id c)].
      split; reflexivity.
Qed.

Lemma name_save_node_without_66 :
  forall asset_name w,
    dict_mem "66" w = false -> name_save_node asset_name w = Val w.
Proof.
  intros asset_name w H. unfold name_save_node.
  rewrite H, andb_false_r. reflexivity.
Qed.

Section Steady.

Variable env : Env.

Lemma steady_ret : forall A (a : A), steady (ret a).
Proof. intros A a st1 st2 H. auto. Qed.

Lemma steady_lift : forall A (r : res A), steady (lift r).
Proof. intros A r st1 st2 H. auto. Qed.

Lemma steady_time_time : steady time_time.
Proof. intros st1 st2 (Hn & Ht & Hr). simpl. rewrite Hn. repeat split; auto. Qed.

Lemma steady_print : forall m, steady (print m).
Proof. intros m st1 st2 (Hn & Ht & Hr). simpl. repeat split; auto. Qed.

Lemma steady_interact :
  forall A (ask : nat -> exn + A) ev, steady (interact env ask ev).
Proof.
  intros A ask ev st1 st2 (Hn & Ht & Hr). unfold interact, advance. simpl.
  rewrite Hn, Ht. repeat split. unfold requests in *. simpl.
  destruct (is_request ev); rewrite Hr; reflexivity.
Qed.

Lemma steady_time_sleep : forall ms, steady (time_sleep env ms).
Proof.
  intros ms st1 st2 (Hn & Ht & Hr). unfold time_sleep, advance. simpl.
  rewrite Hn, Ht. repeat split. unfold requests in *. simpl.
  rewrite Hr. reflexivity.
Qed.

Lemma steady_bind :
  forall A B (m : M A) (k : A -> M B),
    steady m -> (forall a, steady (k a)) -> steady (bind m k).
Proof.
  intros A B m k Hm Hk st1 st2 H. unfold bind.
  destruct (Hm st1 st2 H) as (Hres & Hst).
  destruct (m st1) as [r1 st1'], (m st2) as [r2 st2']. simpl in *. subst r2.
  destruct r1 as [a|e|]; [apply Hk; exact Hst|auto|auto].
Qed.

Lemma steady_try_catch :
  forall A (m : M A) (h : exn -> M A),
    steady m -> (forall e, steady (h e)) -> steady (try_catch m h).
Proof.
  intros A m h Hm Hh st1 st2 H. unfold try_catch.
  destruct (Hm st1 st2 H) as (Hres & Hst).
  destruct (m st1) as [r1 st1'], (m st2) as [r2 st2']. simpl in *. subst r2.
  destruct r1 as [a|e|]; [auto|apply Hh; exact Hst|auto].
Qed.

End Steady.

Ltac steady_tac :=
  repeat first
    [ assumption
    | apply steady_ret
    | apply steady_lift
    | apply steady_time_time
    | apply steady_print
    | apply steady_interact
    | apply steady_time_sleep
    | apply steady_bind; [|intro]
    | apply steady_try_catch; [|intro]
    | progress cbv zeta
    | match goal with
      | |- steady (if ?b then _ else _) => destruct b
      | |- steady (match ?x with _ => _ end) => destruct x
      end ].

Lemma steady_is_server_running : forall env, steady (is_server_running env).
Proof. intro env. unfold is_server_running. steady_tac. Qed.

Lemma steady_get_models : forall env, steady (get_models env).
Proof. intro env. unfold get_models. steady_tac. Qed.

Lemma steady_create_workflow :
  forall env prompt o, steady (create_workflow env prompt o).
Proof.
  intros env prompt o.
  unfold create_workflow, load_workflow_template, create_fallback_workflow,
    pick_seed.
  pose proof (steady_get_models env). steady_tac.
Qed.

Lemma steady_queue_prompt :
  forall env c w, steady (queue_prompt env c w).
Proof. intros env c w. unfold queue_prompt. steady_tac. Qed.

Lemma steady_get_history : forall env id, steady (get_history env id).
Proof. intros env id. unfold get_history. steady_tac. Qed.

Lemma steady_download_image :
  forall env f s, steady (download_image env f s).
Proof. intros env f s. unfold download_image. steady_tac. Qed.

Section Paired.

Variable env : Env.

Lemma paired_ret_none : paired (ret None) (ret None).
Proof. intros st1 st2 H. split; [reflexivity|exact H]. Qed.

Lemma paired_bind :
  forall A (m : M A) (k1 k2 : A -> M (option string)),
    steady m -> (forall a, paired (k1 a) (k2 a)) ->
    paired (bind m k1) (bind m k2).
Proof.
  intros A m k1 k2 Hm Hk st1 st2 H. unfold bind.
  destruct (Hm st1 st2 H) as (Hres & Hst).
  destruct (m st1) as [r1 st1'], (m st2) as [r2 st2']. simpl in *. subst r2.
  destruct r1 as [a|e|]; [apply Hk; exact Hst| |];
    (split; [split; discriminate|exact Hst]).
Qed.

Lemma paired_then :
  forall m1 m2 next1 next2,
    paired m1 m2 -> paired next1 next2 ->
    paired
      (bind m1 (fun r => match r with
                         | Some path => ret (Some path)
                         | None => next1
                         end))
      (bind m2 (fun r => match r with
                         | Some path => ret (Some path)
                         | None => next2
                         end)).
Proof.
  intros m1 m2 next1 next2 Hm Hnext st1 st2 H. unfold bind.
  destruct (Hm st1 st2 H) as (Hres & Hst).
  destruct (m1 st1) as [r1 st1'], (m2 st2) as [r2 st2']. simpl in *.
  destruct r1 as [[p1|]|e1|], r2 as [[p2|]|e2|];
    try (apply Hnext; exact Hst);
    try (split; [split; discriminate|exact Hst]);
    exfalso; destruct Hres as [H1 H2];
    first [ discriminate (H1 eq_refl) | discriminate (H2 eq_refl) ].
Qed.

(** The tail of the loop body under two asset names: the local names
    differ, and with them the writes and what they answer, nothing else. *)
Lemma paired_tail :
  forall c a1 a2 filename data,
    paired
      (local_filename <- lift (local_name a1 filename) ;;
       write_file env (path_join (output_dir c) local_filename) data ;;;
       print (MsgSaved local_filename (List.length data)) ;;;
       print (MsgLocation (path_absolute (cwd env)
                             (path_join (output_dir c) local_filename))) ;;;
       ret (Some (path_absolute (cwd env)
                    (path_join (output_dir c) local_filename))))
      (local_filename <- lift (local_name a2 filename) ;;
       write_file env (path_join (output_dir c) local_filename) data ;;;
       print (MsgSaved local_filename (List.length data)) ;;;
       print (MsgLocation (path_absolute (cwd env)
                             (path_join (output_dir c) local_filename))) ;;;
       ret (Some (path_absolute (cwd env)
                    (path_join (output_dir c) local_filename)))).
Proof.
  intros c a1 a2 filename data st1 st2 (Hn & Ht & Hr).
  destruct filename as [| | | |f| |];
    try (split; [split; discriminate|repeat split; assumption]).
  unfold bind, lift, local_name, write_file, print, ret, advance.
  destruct (truthy_opt a1), (truthy_opt a2); cbn [now tick trace];
    repeat match goal with
           | |- context [os_write ?e ?n ?p ?d] => destruct (os_write e n p d) as [?|[]]
           end;
    cbn [of_reply fst snd now tick trace];
    (split; [split; discriminate|]);
    unfold same_requests, requests; cbn [now tick trace filter is_request];
    rewrite Hn, Ht; repeat split; exact Hr.
Qed.

Lemma paired_images_loop :
  forall c a1 a2 imgs,
    paired (images_loop env c a1 imgs) (images_loop env c a2 imgs).
Proof.
  intros c a1 a2 imgs. induction imgs as [|i rest IH]; cbn [images_loop].
  - apply paired_ret_none.
  - apply paired_bind; [apply steady_print|intros _].
    apply paired_bind; [apply steady_lift|intro filename].
    apply paired_bind; [apply steady_lift|intro subfolder].
    apply paired_bind; [apply steady_print|intros _].
    apply paired_bind; [apply steady_download_image|intro image_data].
    destruct (no_data image_data).
    + apply paired_bind; [apply steady_print|intros _]. exact IH.
    + cbv zeta. apply paired_tail.
Qed.

Lemma paired_nodes_loop :
  forall c a1 a2 items,
    paired (nodes_loop env c a1 items) (nodes_loop env c a2 items).
Proof.
  intros c a1 a2 items.
  induction items as [|[node_id n] rest IH]; cbn [nodes_loop].
  - apply paired_ret_none.
  - apply paired_bind; [apply steady_lift|intros _].
    apply paired_bind; [apply steady_print|intros _].
    apply paired_bind; [apply steady_lift|intro images].
    apply paired_bind; [apply steady_lift|intro len].
    apply paired_bind; [apply steady_print|intros _].
    apply paired_bind; [apply steady_lift|intro elems].
    apply paired_then; [apply paired_images_loop|exact IH].
Qed.

Lemma trailing_of_paired :
  forall m1 m2, paired m1 m2 -> trailing m1 m2.
Proof. intros m1 m2 H st1 st2 Hs. apply H. exact Hs. Qed.

Lemma trailing_bind :
  forall A (m : M A) (k1 k2 : A -> M (option string)),
    steady m -> (forall a, trailing (k1 a) (k2 a)) ->
    trailing (bind m k1) (bind m k2).
Proof.
  intros A m k1 k2 Hm Hk st1 st2 H. unfold bind.
  destruct (Hm st1 st2 H) as (Hres & Hst).
  destruct (m st1) as [r1 st1'], (m st2) as [r2 st2']. simpl in *. subst r2.
  destruct r1 as [a|e|]; [apply Hk; exact Hst|exact Hst|exact Hst].
Qed.

Lemma trailing_try_catch :
  forall m1 m2 (report : exn -> msg),
    trailing m1 m2 ->
    trailing (try_catch m1 (fun e => print (report e) ;;; ret None))
             (try_catch m2 (fun e => print (report e) ;;; ret None)).
Proof.
  intros m1 m2 report Hm st1 st2 H. unfold try_catch.
  pose proof (Hm st1 st2 H) as Hst.
  destruct (m1 st1) as [r1 st1'], (m2 st2) as [r2 st2']. simpl in Hst.
  destruct Hst as (Hn & Ht & Hr).
  destruct r1 as [x1|e1|], r2 as [x2|e2|]; unfold bind, print, ret;
    cbn [fst snd now tick trace]; repeat split; assumption.
Qed.

Lemma trailing_handle_completion :
  forall c a1 a2 history,
    trailing (handle_completion env c a1 history)
             (handle_completion env c a2 history).
Proof.
  intros c a1 a2 history. unfold handle_completion.
  apply trailing_try_catch. apply trailing_of_paired.
  apply paired_bind; [apply steady_lift|intros _].
  apply paired_bind; [apply steady_print|intros _].
  apply paired_bind; [apply steady_lift|intro outputs].
  apply paired_bind; [apply steady_lift|intros _].
  apply paired_bind; [apply steady_print|intros _].
  apply paired_bind; [apply steady_lift|intro items].
  apply paired_then; [apply paired_nodes_loop|].
  apply paired_bind; [apply steady_print|intros _]. apply paired_ret_none.
Qed.

Lemma trailing_steady : forall m, steady m -> trailing m m.
Proof. intros m H st1 st2 Hs. apply H. exact Hs. Qed.

Lemma trailing_poll_loop :
  forall fuel c a1 a2 id start,
    trailing (poll_loop env fuel c a1 id start) (poll_loop env fuel c a2 id start).
Proof.
  intros fuel c a1 a2 id start. induction fuel as [|fuel IH]; cbn [poll_loop].
  - apply trailing_steady, steady_lift.
  - apply trailing_bind; [apply steady_get_history|intro history].
    destruct (truthy history).
    + apply trailing_bind; [apply steady_time_time|intro t].
      apply trailing_bind; [apply steady_print|intros _].
      apply trailing_handle_completion.
    + apply trailing_bind; [apply steady_time_time|intro t]. cbv zeta.
      apply trailing_bind; [apply steady_print|intros _].
      apply trailing_bind; [apply steady_time_sleep|intros _].
      destruct (t - start >? 120000); [|exact IH].
      apply trailing_steady. steady_tac.
Qed.

End Paired.

Lemma trailing_bind_post :
  forall A (m : M A) (Q : A -> Prop) (k1 k2 : A -> M (option string)),
    steady m ->
    (forall st a, fst (m st) = Val a -> Q a) ->
    (forall a, Q a -> trailing (k1 a) (k2 a)) ->
    trailing (bind m k1) (bind m k2).
Proof.
  intros A m Q k1 k2 Hm HQ Hk st1 st2 H. unfold bind.
  destruct (Hm st1 st2 H) as (Hres & Hst).
  pose proof (HQ st1) as HQ1.
  destruct (m st1) as [r1 st1'], (m st2) as [r2 st2']. simpl in *. subst r2.
  destruct r1 as [a|e|]; [apply Hk; auto|exact Hst|exact Hst].
Qed.

(** With the fallback graph, two runs that differ in the asset name make
    the same requests. *)
Lemma trailing_generate_asset :
  forall env fuel c prompt o a1 a2,
    (forall n, template_unusable (read_template env n) = true) ->
    trailing (generate_asset env fuel c prompt a1 o)
             (generate_asset env fuel c prompt a2 o).
Proof.
  intros env fuel c prompt o a1 a2 Htpl. unfold generate_asset.
  apply trailing_bind; [apply steady_is_server_running|intro up].
  destruct (negb up); [apply trailing_steady; steady_tac|].
  apply trailing_bind; [apply steady_print|intros _].
  apply trailing_bind_post with (Q := fun w => dict_mem "66" w = false);
    [apply steady_create_workflow| |].
  - intros st w Hw.
    destruct (create_workflow_falls_back env prompt o st (Htpl (tick st)))
      as (m & s & st' & evs & Hcw & _).
    rewrite Hcw in Hw. simpl in Hw. inversion Hw. reflexivity.
  - intros w Hw. rewrite !(name_save_node_without_66 _ w Hw).
    apply trailing_bind; [apply steady_lift|intro w'].
    apply trailing_bind; [apply steady_queue_prompt|intro prompt_id].
    destruct (negb (truthy prompt_id)); [apply trailing_steady; steady_tac|].
    apply trailing_bind; [apply steady_lift|intro id8].
    apply trailing_bind; [apply steady_print|intros _].
    apply trailing_bind; [apply steady_time_time|intro start].
    apply trailing_poll_loop.
Qed.



(* ================================================================== *)
(** ** End-to-end runs *)

(** The first poll finds the job done; the first image cannot be fetched,
    the second is saved under the asset name, and the process exits 0. *)
Example main_saves_second_image :
  fst (main env_second_image 1 (sample_args "512x512") (initial_state 0)) = Val 0 /\
  writes (trace (snd (main env_second_image 1 (sample_args "512x512")
                        (initial_state 0)))) =
    [EvWrite "assets/block.png" [x89; x50]%byte true].
Proof. split; reflexivity. Qed.

(** Nothing is ever ready: after 122 polls the run gives up and the process
    exits 1, having written nothing. *)
Example main_times_out :
  fst (main env_never_ready 122 (sample_args "512x512") (initial_state 0)) = Val 1 /\
  writes (trace (snd (main env_never_ready 122 (sample_args "512x512")
                        (initial_state 0)))) = [] /\
  List.length (polls (trace (snd (main env_never_ready 122 (sample_args "512x512")
                                    (initial_state 0))))) = 122%nat.
Proof. repeat split; vm_compute; reflexivity. Qed.

(** With one poll less the model runs out of fuel, which is not a result of
    the script. *)
Example main_needs_fuel :
  fst (main env_never_ready 121 (sample_args "512x512") (initial_state 0)) =
    OutOfFuel.
Proof. vm_compute. reflexivity. Qed.

(** The server is down: the process exits 1 after the health check. *)
Example main_server_down :
  main env_offline 5 (sample_args "512x512") (initial_state 0) =
    (Val 1, {| now := 0; tick := 2;
               trace := [EvPrint MsgFailed;
                         EvPrint (MsgServerNotRunning "http://127.0.0.1:8188");
                         EvSystemStats; EvMkdir "assets" true] |}).
Proof. reflexivity. Qed.

(* ================================================================== *)
(** ** Dicts: item assignment and lookup *)

Lemma dict_get_set_same :
  forall k v d, dict_get k (dict_set k v d) = Some v.
Proof.
  intros k v d. induction d as [|[k' v'] r IH]; simpl.
  - rewrite String.eqb_refl. reflexivity.
  - destruct (String.eqb k' k) eqn:E; simpl; rewrite E; auto.
Qed.

Lemma dict_get_set_other :
  forall k k' v d, k' <> k -> dict_get k' (dict_set k v d) = dict_get k' d.
Proof.
  intros k k' v d Hne. induction d as [|[k0 v0] r IH]; simpl.
  - destruct (String.eqb_spec k k'); [congruence|reflexivity].
  - destruct (String.eqb_spec k0 k) as [->|Hk]; simpl.
    + destruct (String.eqb_spec k k'); [congruence|reflexivity].
    + destruct (String.eqb k0 k'); auto.
Qed.

Lemma dict_set_keys_present :
  forall k v d, dict_mem k d = true -> map fst (dict_set k v d) = map fst d.
Proof.
  intros k v d. unfold dict_mem. induction d as [|[k0 v0] r IH]; simpl.
  - discriminate.
  - destruct (String.eqb k0 k); simpl; intro H; [reflexivity|].
    rewrite IH; auto.
Qed.

Lemma dict_set_keys_absent :
  forall k v d,
    dict_mem k d = false -> map fst (dict_set k v d) = (map fst d ++ [k])%list.
Proof.
  intros k v d. unfold dict_mem. induction d as [|[k0 v0] r IH]; simpl.
  - reflexivity.
  - destruct (String.eqb k0 k); simpl; intro H; [discriminate|].
    rewrite IH; auto.
Qed.

(** X1.  [d[k] = v] followed by [d[k]] gives [v]; the other keys keep their
    values; a key that was there keeps its place in the iteration order and
    a new key goes last. *)
Theorem dict_set_then_get :
  forall k v d,
    dict_get k (dict_set k v d) = Some v /\
    (forall k', k' <> k -> dict_get k' (dict_set k v d) = dict_get k' d) /\
    map fst (dict_set k v d) =
      (if dict_mem k d then map fst d else map fst d ++ [k])%list.
Proof.
  intros k v d. split; [apply dict_get_set_same|]. split.
  - intros k' H. apply dict_get_set_other. exact H.
  - destruct (dict_mem k d) eqn:E.
    + apply dict_set_keys_present. exact E.
    + apply dict_set_keys_absent. exact E.
Qed.

Lemma dict_mem_in_keys :
  forall k d, dict_mem k d = false -> ~ In k (map fst d).
Proof.
  intros k d. unfold dict_mem. induction d as [|[k0 v0] r IH]; simpl; intro H.
  - tauto.
  - destruct (String.eqb_spec k0 k); [discriminate|].
    intros [Heq|Hin]; [contradiction|]. apply IH; assumption.
Qed.

(** X2.  A dict whose keys are all different keeps that after an item
    assignment. *)
Theorem dict_set_keeps_keys_unique :
  forall k v d,
    NoDup (map fst d) -> NoDup (map fst (dict_set k v d)).
Proof.
  intros k v d H. destruct (dict_mem k d) eqn:E.
  - rewrite dict_set_keys_present; assumption.
  - rewrite dict_set_keys_absent by assumption.
    apply NoDup_app; [exact H|repeat constructor; simpl; tauto|].
    intros x Hx [<-|[]]. exact (dict_mem_in_keys _ _ E Hx).
Qed.

Lemma dict_set_keeps_keys_unique_witness :
  NoDup (map fst (dict_set "66" (JStr "block")
                    (fallback_graph "a red block" (JStr "flux.safetensors")
                       default_options 42))).
Proof.
  apply (dict_set_keeps_keys_unique "66" (JStr "block")
           (fallback_graph "a red block" (JStr "flux.safetensors")
              default_options 42)).
  simpl. repeat constructor; simpl; intuition discriminate.
Defined.

(* ================================================================== *)
(** ** Filling the template (lines 79-89) *)

Lemma has_inputs_inv :
  forall w node,
    has_inputs w node = true ->
    exists n i, dict_get node w = Some (JObj n) /\
                dict_get "inputs" n = Some (JObj i).
Proof.
  intros w node H. unfold has_inputs in H.
  destruct (dict_get node w) as [[| | | | | |n]|]; try discriminate.
  destruct (dict_get "inputs" n) as [[| | | | | |i]|] eqn:Hi; try discriminate.
  exists n, i. split; [reflexivity|exact Hi].
Qed.

Lemma input_of_set :
  forall w node n i key v,
    dict_get node w = Some (JObj n) ->
    dict_get "inputs" n = Some (JObj i) ->
    forall node' key',
      input_of (dict_set node (JObj (dict_set "inputs" (JObj (dict_set key v i)) n)) w)
        node' key' =
      if (String.eqb node' node && String.eqb key' key)%bool then Some v
      else input_of w node' key'.
Proof.
  intros w node n i key v Hn Hi node' key'. unfold input_of.
  destruct (String.eqb_spec node' node) as [->|Hne]; simpl.
  - rewrite dict_get_set_same, dict_get_set_same, Hn, Hi.
    destruct (String.eqb_spec key' key) as [->|Hk].
    + apply dict_get_set_same.
    + apply dict_get_set_other. exact Hk.
  - rewrite dict_get_set_other by exact Hne. reflexivity.
Qed.

(** One assignment that finds its node. *)
Lemma assign_input_ok :
  forall w node key v,
    has_inputs w node = true ->
    exists w',
      assign_input w node key v = Val w' /\
      map fst w' = map fst w /\
      (forall n, has_inputs w' n = has_inputs w n) /\
      (forall node' key',
          input_of w' node' key' =
          if (String.eqb node' node && String.eqb key' key)%bool then Some v
          else input_of w node' key') /\
      (forall n, n <> node -> dict_get n w' = dict_get n w).
Proof.
  intros w node key v H.
  destruct (has_inputs_inv w node H) as (n & i & Hn & Hi).
  eexists. split.
  { unfold assign_input. simpl. rewrite Hn. simpl. rewrite Hi. simpl. reflexivity. }
  split; [|split; [|split]].
  - apply dict_set_keys_present. unfold dict_mem. rewrite Hn. reflexivity.
  - intro m. unfold has_inputs.
    destruct (String.eqb_spec m node) as [->|Hne].
    + rewrite dict_get_set_same, dict_get_set_same, Hn, Hi. reflexivity.
    + rewrite dict_get_set_other by exact Hne. reflexivity.
  - apply input_of_set; assumption.
  - intros m Hne. apply dict_get_set_other. exact Hne.
Qed.

(** One assignment that does not: the exception of the subscript. *)
Lemma assign_input_raises :
  forall w node key v,
    has_inputs w node = false ->
    assign_input w node key v = Exc KeyError \/
    assign_input w node key v = Exc TypeError.
Proof.
  intros w node key v H. unfold assign_input, has_inputs in *. simpl.
  destruct (dict_get node w) as [x|]; simpl; [|auto].
  destruct x as [| | | | | |n]; simpl; auto.
  destruct (dict_get "inputs" n) as [y|]; simpl; [|auto].
  destruct y; simpl; auto. discriminate.
Qed.

Lemma assign_inputs_ok :
  forall edits w,
    forallb (fun e => has_inputs w (fst (fst e))) edits = true ->
    exists w',
      assign_inputs w edits = Val w' /\
      map fst w' = map fst w /\
      (forall n, has_inputs w' n = has_inputs w n) /\
      (forall node key,
          ~ In (node, key) (map edit_slot edits) ->
          input_of w' node key = input_of w node key) /\
      (NoDup (map edit_slot edits) ->
       forall node key v, In (node, key, v) edits ->
                          input_of w' node key = Some v) /\
      (forall n, ~ In n (map (fun e => fst (fst e)) edits) ->
                 dict_get n w' = dict_get n w).
Proof.
  induction edits as [|[[node key] v] rest IH]; intros w Hall.
  - exists w. repeat split; auto. intros _ node key v [].
  - simpl in Hall. apply andb_true_iff in Hall. destruct Hall as [Hn Hrest].
    destruct (assign_input_ok w node key v Hn)
      as (w1 & Hrun & Hkeys & Hhas & Hin & Hother).
    assert (Hrest1 : forallb (fun e => has_inputs w1 (fst (fst e))) rest = true).
    { rewrite forallb_forall in *. intros e He. rewrite Hhas. auto. }
    destruct (IH w1 Hrest1) as (w' & Hrun' & Hkeys' & Hhas' & Hframe & Hread & Hother').
    exists w'. cbn [assign_inputs]. rewrite Hrun. cbn [res_bind].
    split; [exact Hrun'|]. split; [congruence|]. split.
    { intro n. rewrite Hhas'. apply Hhas. }
    split; [|split].
    + intros node' key' Hnot.
      rewrite Hframe by (intro Hx; apply Hnot; right; exact Hx). rewrite Hin.
      destruct (String.eqb_spec node' node) as [->|]; [|reflexivity].
      destruct (String.eqb_spec key' key) as [->|]; [|reflexivity].
      exfalso. apply Hnot. left. reflexivity.
    + intros Hnd node' key' v' [Heq|Hin'].
      * inversion Heq; subst. simpl in Hnd. inversion Hnd; subst.
        rewrite Hframe by assumption. rewrite Hin.
        rewrite !String.eqb_refl. reflexivity.
      * simpl in Hnd. inversion Hnd; subst. eapply Hread; eassumption.
    + intros n Hnot.
      rewrite Hother' by (intro Hx; apply Hnot; right; exact Hx).
      apply Hother. intros ->. apply Hnot. left. reflexivity.
Qed.

Lemma forallb_pointwise :
  forall A (f g : A -> bool) l,
    (forall x, f x = g x) -> forallb f l = forallb g l.
Proof.
  intros A f g l H. induction l as [|x r IH]; simpl; [reflexivity|].
  rewrite H, IH. reflexivity.
Qed.

Lemma assign_inputs_raises :
  forall edits w,
    forallb (fun e => has_inputs w (fst (fst e))) edits = false ->
    assign_inputs w edits = Exc KeyError \/ assign_inputs w edits = Exc TypeError.
Proof.
  induction edits as [|[[node key] v] rest IH]; intros w Hall.
  - discriminate.
  - simpl in Hall. cbn [assign_inputs].
    destruct (has_inputs w node) eqn:Hn.
    + destruct (assign_input_ok w node key v Hn) as (w1 & Hrun & _ & Hhas & _).
      rewrite Hrun. cbn [res_bind]. apply IH.
      simpl in Hall. rewrite <- Hall.
      apply forallb_pointwise. intro e. apply Hhas.
    + destruct (assign_input_raises w node key v Hn) as [H|H]; rewrite H; auto.
Qed.

Lemma bind_lift :
  forall A B (r : res A) (k : A -> M B) st,
    bind (lift r) k st =
    match r with
    | Val a => k a st
    | Exc e => (Exc e, st)
    | OutOfFuel => (OutOfFuel, st)
    end.
Proof. intros A B [a|e|] k st; reflexivity. Qed.

(** What [create_workflow] does with a template that is a non-empty dict:
    the seed is picked, then the assignments are made in order. *)
Lemma create_workflow_with_template :
  forall env prompt o st w,
    read_template env (tick st) = inr (JObj w) -> w <> [] ->
    exists seed_,
      pick_seed (seed o) (advance env st 0 EvReadTemplate) =
        (Val seed_, advance env st 0 EvReadTemplate) /\
      create_workflow env prompt o st =
        (assign_inputs w (template_edits prompt o seed_),
         advance env st 0 EvReadTemplate).
Proof.
  intros env prompt o st w Hread Hw.
  destruct (pick_seed_returns (seed o) (advance env st 0 EvReadTemplate))
    as (s & Hseed).
  exists s. split; [exact Hseed|].
  unfold create_workflow. unfold bind at 1.
  unfold load_workflow_template, try_catch, interact. rewrite Hread.
  cbn [of_reply]. destruct w as [|kv w]; [contradiction|].
  cbn [truthy negb]. unfold bind at 1. rewrite Hseed.
  unfold template_edits.
  repeat (rewrite bind_lift; cbn [assign_inputs app res_bind];
          match goal with
          | |- context [assign_input ?a ?b ?c ?d] =>
              destruct (assign_input a b c d); cbn [res_bind]; try reflexivity
          end).
  destruct (truthy_opt (model o)); cbn [assign_inputs app res_bind].
  - unfold lift.
    match goal with
    | |- context [assign_input ?a ?b ?c ?d] =>
        destruct (assign_input a b c d); reflexivity
    end.
  - reflexivity.
Qed.

Lemma pick_seed_value :
  forall seed_ st s st',
    pick_seed seed_ st = (Val s, st') ->
    st' = st /\
    (seed_ <> -1 -> s = seed_) /\
    (seed_ = -1 -> s = now st mod 2147483647 /\ 0 <= s < 2147483647).
Proof.
  intros seed_ st s st'. unfold pick_seed, bind, time_time, ret.
  destruct (Z.eqb_spec seed_ (-1)) as [->|Hne]; intro H; inversion H; subst.
  - split; [reflexivity|]. split; [congruence|]. intros _. split; [reflexivity|].
    apply Z.mod_pos_bound. lia.
  - split; [reflexivity|]. split; [reflexivity|]. contradiction.
Qed.

Lemma template_edits_nodes :
  forall w prompt o s,
    forallb (fun e => has_inputs w (fst (fst e))) (template_edits prompt o s) =
    forallb (has_inputs w) (required_nodes o).
Proof.
  intros w prompt o s. unfold template_edits, required_nodes.
  destruct (truthy_opt (model o)); simpl;
    destruct (has_inputs w "47"), (has_inputs w "42"), (has_inputs w "45"),
      (has_inputs w "49"), (has_inputs w "46"); reflexivity.
Qed.

Lemma template_edits_slots :
  forall prompt o s, NoDup (map edit_slot (template_edits prompt o s)).
Proof.
  intros prompt o s. unfold template_edits.
  destruct (truthy_opt (model o)); simpl;
    repeat constructor; simpl; intuition discriminate.
Qed.

(** X3.  A template that is a non-empty dict is accepted exactly when each
    node written to (47, 42, 45, 49, 46, and 4 when a model is given) is a
    dict with a dict of inputs; otherwise [create_workflow] raises the
    [KeyError] or [TypeError] of the failing subscript. *)
Theorem template_accepted_iff :
  forall env prompt o st w,
    read_template env (tick st) = inr (JObj w) -> w <> [] ->
    ((exists w', fst (create_workflow env prompt o st) = Val w') <->
     forallb (has_inputs w) (required_nodes o) = true) /\
    (forallb (has_inputs w) (required_nodes o) = false ->
     fst (create_workflow env prompt o st) = Exc KeyError \/
     fst (create_workflow env prompt o st) = Exc TypeError).
Proof.
  intros env prompt o st w Hread Hw.
  destruct (create_workflow_with_template env prompt o st w Hread Hw)
    as (s & _ & Hrun).
  rewrite Hrun. cbn [fst]. rewrite <- (template_edits_nodes w prompt o s).
  split; [split|].
  - intros (w' & Hval).
    destruct (forallb (fun e => has_inputs w (fst (fst e)))
                (template_edits prompt o s)) eqn:E; [reflexivity|].
    destruct (assign_inputs_raises _ w E) as [H|H]; rewrite H in Hval;
      discriminate.
  - intro Hall. destruct (assign_inputs_ok _ w Hall) as (w' & Hval & _).
    exists w'. exact Hval.
  - apply assign_inputs_raises.
Qed.

Lemma template_accepted_iff_witness :
  ((exists w', fst (create_workflow env_template "a red block" default_options
                      (initial_state 0)) = Val w') <->
   forallb (has_inputs template_flux_nodes) (required_nodes default_options) = true) /\
  (forallb (has_inputs template_flux_nodes) (required_nodes default_options) = false ->
   fst (create_workflow env_template "a red block" default_options
          (initial_state 0)) = Exc KeyError \/
   fst (create_workflow env_template "a red block" default_options
          (initial_state 0)) = Exc TypeError).
Proof.
  apply (template_accepted_iff env_template "a red block" default_options
           (initial_state 0) template_flux_nodes).
  - reflexivity.
  - discriminate.
Defined.

(** X4.  When the template has those nodes, the workflow returned is the
    template with the request written into it: the prompt, the seed (the
    one given, or one in [0, 2147483647) when -1 is given), the steps, the
    guidance, the width and the height, and the model when one is given.
    The node ids and their order are those of the template, and the nodes
    not written to are unchanged. *)
Theorem template_filled_with_request :
  forall env prompt o st w,
    read_template env (tick st) = inr (JObj w) -> w <> [] ->
    forallb (has_inputs w) (required_nodes o) = true ->
    exists w' seed_,
      fst (create_workflow env prompt o st) = Val w' /\
      input_of w' "47" "text" = Some (JStr prompt) /\
      input_of w' "42" "noise_seed" = Some (JInt seed_) /\
      (seed o <> -1 -> seed_ = seed o) /\
      (seed o = -1 -> 0 <= seed_ < 2147483647) /\
      input_of w' "45" "steps" = Some (JInt (steps o)) /\
      input_of w' "49" "guidance" = Some (JFloat (cfg o)) /\
      input_of w' "46" "width" = Some (JInt (width o)) /\
      input_of w' "46" "height" = Some (JInt (height o)) /\
      input_of w' "4" "ckpt_name" =
        (if truthy_opt (model o)
         then Some (match model o with Some m => JStr m | None => JNull end)
         else input_of w "4" "ckpt_name") /\
      map fst w' = map fst w /\
      (forall n, ~ In n (required_nodes o) -> dict_get n w' = dict_get n w).
Proof.
  intros env prompt o st w Hread Hw Hall.
  destruct (create_workflow_with_template env prompt o st w Hread Hw)
    as (s & Hseed & Hrun).
  destruct (pick_seed_value _ _ _ _ Hseed) as (_ & Hgiven & Hrandom).
  rewrite <- (template_edits_nodes w prompt o s) in Hall.
  destruct (assign_inputs_ok _ w Hall)
    as (w' & Hval & Hkeys & _ & Hframe & Hread' & Hother).
  specialize (Hread' (template_edits_slots prompt o s)).
  exists w', s. rewrite Hrun. cbn [fst].
  split; [exact Hval|].
  assert (Hin : forall node key v,
             In (node, key, v)
                [("47", "text", JStr prompt); ("42", "noise_seed", JInt s);
                 ("45", "steps", JInt (steps o));
                 ("49", "guidance", JFloat (cfg o));
                 ("46", "width", JInt (width o));
                 ("46", "height", JInt (height o))] ->
             input_of w' node key = Some v).
  { intros node key v H. apply Hread'. unfold template_edits.
    apply in_or_app. left. exact H. }
  split; [apply Hin; simpl; auto|].
  split; [apply Hin; simpl; auto|].
  split; [exact Hgiven|].
  split; [intro H; apply Hrandom; exact H|].
  split; [apply Hin; simpl; auto|].
  split; [apply Hin; simpl; auto|].
  split; [apply Hin; simpl; auto 6|].
  split; [apply Hin; simpl; auto 7|].
  split; [|split].
  - destruct (truthy_opt (model o)) eqn:Hm.
    + apply Hread'. unfold template_edits. rewrite Hm.
      apply in_or_app. right. left. reflexivity.
    + apply Hframe. unfold template_edits. rewrite Hm. simpl.
      intuition discriminate.
  - exact Hkeys.
  - intros n Hn. apply Hother. intro Hx. apply Hn.
    unfold template_edits, required_nodes in *.
    rewrite map_app in Hx. apply in_app_or in Hx. apply in_or_app.
    destruct Hx as [Hx|Hx].
    + left. simpl in Hx. simpl. intuition.
    + right. destruct (truthy_opt (model o)); simpl in *; exact Hx.
Qed.

Lemma template_filled_with_request_witness :
  exists w' seed_,
    fst (create_workflow env_template "a red block" default_options
           (initial_state 0)) = Val w' /\
    input_of w' "47" "text" = Some (JStr "a red block") /\
    input_of w' "42" "noise_seed" = Some (JInt seed_) /\
    (seed default_options <> -1 -> seed_ = seed default_options) /\
    (seed default_options = -1 -> 0 <= seed_ < 2147483647) /\
    input_of w' "45" "steps" = Some (JInt (steps default_options)) /\
    input_of w' "49" "guidance" = Some (JFloat (cfg default_options)) /\
    input_of w' "46" "width" = Some (JInt (width default_options)) /\
    input_of w' "46" "height" = Some (JInt (height default_options)) /\
    input_of w' "4" "ckpt_name" =
      (if truthy_opt (model default_options)
       then Some (match model default_options with
                  | Some m => JStr m
                  | None => JNull
                  end)
       else input_of template_flux_nodes "4" "ckpt_name") /\
    map fst w' = map fst template_flux_nodes /\
    (forall n, ~ In n (required_nodes default_options) ->
               dict_get n w' = dict_get n template_flux_nodes).
Proof.
  apply (template_filled_with_request env_template "a red block"
           default_options (initial_state 0) template_flux_nodes).
  - reflexivity.
  - discriminate.
  - reflexivity.
Defined.

(* ================================================================== *)
(** ** The fallback graph (lines 102-162) *)

(** X5.  With seed -1 the fallback builder never fails and puts into the
    sampler a seed derived from the clock, the time in milliseconds modulo
    2147483647, hence in [0, 2147483647). *)
Theorem derived_seed_in_range :
  forall env prompt o st,
    seed o = -1 ->
    exists m s st',
      create_fallback_workflow env prompt o st =
        (Val (fallback_graph prompt m o s), st') /\
      input_of (fallback_graph prompt m o s) "5" "seed" = Some (JInt s) /\
      s = now st' mod 2147483647 /\
      0 <= s < 2147483647.
Proof.
  intros env prompt o st Hseed. unfold create_fallback_workflow.
  destruct (truthy_opt (model o)); simpl negb; cbv iota.
  - destruct (pick_seed_returns (seed o) st) as (s & Hs).
    destruct (pick_seed_value _ _ _ _ Hs) as (_ & _ & Hr).
    destruct (Hr Hseed) as [Heq Hrange].
    unfold bind, ret. rewrite Hs. do 2 eexists. exists st.
    repeat split; try reflexivity; try exact Heq; apply Hrange.
  - destruct (get_models_returns env st) as (st1 & Hget & _).
    destruct (pick_seed_returns (seed o) st1) as (s & Hs).
    destruct (pick_seed_value _ _ _ _ Hs) as (_ & _ & Hr).
    destruct (Hr Hseed) as [Heq Hrange].
    unfold bind at 1. unfold bind at 1. rewrite Hget. unfold ret at 1.
    unfold bind, ret. rewrite Hs. do 2 eexists. exists st1.
    repeat split; try reflexivity; try exact Heq; apply Hrange.
Qed.

Lemma derived_seed_in_range_witness :
  exists m s st',
    create_fallback_workflow env_no_models "a red block" default_options
      (initial_state 1700000000123) =
      (Val (fallback_graph "a red block" m default_options s), st') /\
    input_of (fallback_graph "a red block" m default_options s) "5" "seed" =
      Some (JInt s) /\
    s = now st' mod 2147483647 /\
    0 <= s < 2147483647.
Proof.
  apply (derived_seed_in_range env_no_models "a red block" default_options
           (initial_state 1700000000123)).
  reflexivity.
Defined.

(** X6.  When the model name is not itself shaped like a link (a string,
    as the command line gives and as a server that lists names gives, is
    not), the fallback graph has the seven nodes 1 to 7 in that order, and
    every link of a node goes to a node before it: all links resolve inside
    the graph and there is no cycle. *)
Theorem fallback_graph_links_resolve :
  forall prompt m o s,
    link_target m = None ->
    map fst (fallback_graph prompt m o s) = ["1"; "2"; "3"; "4"; "5"; "6"; "7"] /\
    links_backward [] (fallback_graph prompt m o s) = true.
Proof.
  intros prompt m o s Hm. split; [reflexivity|].
  simpl. rewrite Hm. reflexivity.
Qed.

Lemma fallback_graph_links_resolve_witness :
  map fst (fallback_graph "a red block" (JStr "flux.safetensors")
             default_options 42) = ["1"; "2"; "3"; "4"; "5"; "6"; "7"] /\
  links_backward [] (fallback_graph "a red block" (JStr "flux.safetensors")
                       default_options 42) = true.
Proof.
  apply (fallback_graph_links_resolve "a red block" (JStr "flux.safetensors")
           default_options 42).
  reflexivity.
Defined.

(* ================================================================== *)
(** ** The protocol client (lines 33-50, 164-198) *)

(** X7.  None of the five requests raises, whatever the server answers:
    each makes one request and turns a failure into its sentinel ([False],
    the empty list, [None]). *)
Theorem protocol_client_never_raises :
  forall env c st w id f s,
    is_server_running env st =
      (Val (is_ok (http_system_stats env (tick st))),
       advance env st 0 EvSystemStats) /\
    (exists l st',
        get_models env st = (Val l, st') /\ tick st' = S (tick st) /\
        (is_ok (http_object_info env (tick st)) = false -> l = [])) /\
    (exists j st',
        queue_prompt env c w st = (Val j, st') /\ tick st' = S (tick st) /\
        (is_ok (http_prompt env (tick st) w (client_id c)) = false -> j = JNull)) /\
    (exists j,
        get_history env id st = (Val j, advance env st 0 (EvHistory id)) /\
        (is_ok (http_history env (tick st) id) = false -> j = JNull)) /\
    (exists st',
        download_image env f s st =
          (Val (match http_view env (tick st) f s with
                | inr data => Some data
                | inl _ => None
                end), st') /\
        tick st' = S (tick st)).
Proof.
  intros env c st w id f s. split; [|split; [|split; [|split]]].
  - unfold is_server_running, try_catch, bind, interact, ret.
    destruct (http_system_stats env (tick st)) as [e|[]]; reflexivity.
  - destruct (get_models_returns env st) as (st' & Hrun & _ & Htick & _).
    exists (models_of env (http_object_info env (tick st))), st'.
    split; [exact Hrun|]. split; [exact Htick|].
    destruct (http_object_info env (tick st)); [reflexivity|discriminate].
  - unfold queue_prompt, try_catch, bind, interact, lift, print, ret. simpl.
    destruct (http_prompt env (tick st) w (client_id c)) as [e|result]; simpl.
    + do 2 eexists. repeat split.
    + pose proof (py_get_finished result "prompt_id" JNull) as Hf.
      destruct (py_get result "prompt_id" JNull) as [j|e|]; simpl;
        [| |contradiction]; do 2 eexists; repeat split; discriminate.
  - unfold get_history, try_catch, bind, interact, lift, ret. simpl.
    destruct (http_history env (tick st) id) as [e|h]; simpl.
    + eexists. split; reflexivity.
    + destruct h as [| | | | | |d]; simpl;
        try (eexists; split; [reflexivity|discriminate]).
      destruct id; simpl; eexists; (split; [reflexivity|discriminate]).
  - rewrite download_image_run.
    destruct (http_view env (tick st) f s); eexists; split; reflexivity.
Qed.

Lemma all_strings_map :
  forall cs, all_strings (map JStr cs) = Some cs.
Proof.
  induction cs as [|c r IH]; simpl; [reflexivity|]. rewrite IH. reflexivity.
Qed.

Lemma str_le_refl : forall a, str_le a a.
Proof. intro a. destruct (String.leb_total a a); assumption. Qed.

(** X8.  When the object-info document lists the checkpoint names [cs],
    [get_models] returns exactly those names, sorted: the same names with
    the same multiplicities, in ascending order, so that the first one is
    below every name of the list. *)
Theorem get_models_sorted_names :
  forall env st data cs,
    http_object_info env (tick st) = inr data ->
    ckpt_names data = Val (JArr (map JStr cs)) ->
    fst (get_models env st) = Val (map JStr (sort_strings cs)) /\
    Permutation cs (sort_strings cs) /\
    StronglySorted str_le (sort_strings cs) /\
    (forall least rest c,
        sort_strings cs = least :: rest -> In c cs -> str_le least c).
Proof.
  intros env st data cs Hreply Hnames.
  destruct (get_models_returns env st) as (st' & Hrun & _).
  rewrite Hrun, Hreply. cbn [fst].
  rewrite (models_of_sorted env data (map JStr cs) cs Hnames (all_strings_map cs)).
  split; [reflexivity|]. split; [apply sort_strings_perm|].
  split; [apply sort_strings_sorted|].
  intros least rest c Heq Hin.
  pose proof (sort_strings_sorted cs) as Hs. rewrite Heq in Hs.
  apply (Permutation_in c (sort_strings_perm cs)) in Hin. rewrite Heq in Hin.
  inversion Hs as [|? ? _ Hall]; subst.
  destruct Hin as [<-|Hin]; [apply str_le_refl|].
  rewrite Forall_forall in Hall. apply Hall. exact Hin.
Qed.

Lemma get_models_sorted_names_witness :
  fst (get_models
         (env_server (inr (object_info_of
                             (map JStr ["sdxl.safetensors"; "flux.safetensors"])))
            (inl FileNotFoundError) (fun _ => inl URLError)
            (fun _ => inl URLError))
         (initial_state 0)) =
    Val (map JStr (sort_strings ["sdxl.safetensors"; "flux.safetensors"])) /\
  Permutation ["sdxl.safetensors"; "flux.safetensors"]
    (sort_strings ["sdxl.safetensors"; "flux.safetensors"]) /\
  StronglySorted str_le (sort_strings ["sdxl.safetensors"; "flux.safetensors"]) /\
  (forall least rest c,
      sort_strings ["sdxl.safetensors"; "flux.safetensors"] = least :: rest ->
      In c ["sdxl.safetensors"; "flux.safetensors"] -> str_le least c).
Proof.
  apply (get_models_sorted_names
           (env_server (inr (object_info_of
                               (map JStr ["sdxl.safetensors"; "flux.safetensors"])))
              (inl FileNotFoundError) (fun _ => inl URLError)
              (fun _ => inl URLError))
           (initial_state 0)
           (object_info_of (map JStr ["sdxl.safetensors"; "flux.safetensors"]))
           ["sdxl.safetensors"; "flux.safetensors"]).
  - reflexivity.
  - reflexivity.
Defined.

(* ================================================================== *)
(** ** One job per call (lines 200-222) *)

(** What a call posts: nothing, or the one workflow that [create_workflow]
    returned, after the asset name went to node 66. *)
Lemma generate_asset_submits :
  forall env fuel c prompt asset_name o st,
    exists evs,
      since st (snd (generate_asset env fuel c prompt asset_name o st)) evs /\
      (submitted evs = [] \/
       exists st1 w w',
         fst (create_workflow env prompt o st1) = Val w /\
         name_save_node asset_name w = Val w' /\
         submitted evs = [w']).
Proof.
  intros env fuel c prompt asset_name o st.
  destruct (emits_is_server_running env st) as (evs1 & Hs1 & Hp1).
  apply health_no_submit in Hp1.
  unfold generate_asset. unfold bind at 1.
  destruct (is_server_running env st) as [[up|e|] st1]; simpl in Hs1;
    [|exists evs1; auto|exists evs1; auto].
  destruct up; cbn [negb].
  2:{ exists (EvPrint (MsgServerNotRunning (base_url c)) :: evs1). split.
      - unfold bind, print, ret, since in *. simpl. rewrite Hs1. reflexivity.
      - left. exact Hp1. }
  unfold bind at 1. unfold print at 1.
  set (st1' := {| now := now st1; tick := tick st1;
                  trace := EvPrint (MsgGenerating prompt) :: trace st1 |}).
  assert (Hs1' : since st st1' (EvPrint (MsgGenerating prompt) :: evs1)).
  { unfold since in *. simpl. rewrite Hs1. reflexivity. }
  destruct (emits_create_workflow env prompt o st1') as (evs2 & Hs2 & Hp2).
  assert (Hsub2 : submitted evs2 = []).
  { clear - Hp2. induction evs2 as [|ev r IH]; simpl in *; [reflexivity|].
    apply andb_true_iff in Hp2. destruct Hp2 as [Hev Hr].
    destruct ev; simpl in *; try discriminate; auto. }
  unfold bind at 1.
  destruct (create_workflow env prompt o st1') as [[w|e|] st2] eqn:Hcw;
    simpl in Hs2;
    [|exists (evs2 ++ EvPrint (MsgGenerating prompt) :: evs1)%list; split;
      [eapply since_trans; eassumption
      |left; rewrite submitted_app, Hsub2; exact Hp1] ..].
  rewrite bind_lift.
  destruct (name_save_node asset_name w) as [w'|e|] eqn:Hname;
    [|exists (evs2 ++ EvPrint (MsgGenerating prompt) :: evs1)%list; split;
      [eapply since_trans; eassumption
      |left; rewrite submitted_app, Hsub2; exact Hp1] ..].
  destruct (queue_prompt_submitted env c w' st2) as (evs3 & Hs3 & Hsub3).
  unfold bind at 1.
  destruct (queue_prompt env c w' st2) as [[pid|e|] st3]; simpl in Hs3.
  - match goal with
    | |- context [snd (?k st3)] => assert (Hk : emits loop_event k)
    end.
    { pose proof (emits_poll_loop env fuel c asset_name). emits_tac. }
    destruct (Hk st3) as (evs4 & Hs4 & Hp4). apply loop_no_submit in Hp4.
    exists (evs4 ++ evs3 ++ evs2 ++ EvPrint (MsgGenerating prompt) :: evs1)%list.
    split.
    + eapply since_trans; [|exact Hs4]. eapply since_trans; [|exact Hs3].
      eapply since_trans; eassumption.
    + right. exists st1', w, w'. rewrite Hcw. repeat split; [exact Hname|].
      rewrite !submitted_app, Hp4, Hsub3, Hsub2. simpl. rewrite Hp1. reflexivity.
  - exists (evs3 ++ evs2 ++ EvPrint (MsgGenerating prompt) :: evs1)%list. split.
    + eapply since_trans; [|exact Hs3]. eapply since_trans; eassumption.
    + right. exists st1', w, w'. rewrite Hcw. repeat split; [exact Hname|].
      rewrite !submitted_app, Hsub3, Hsub2. simpl. rewrite Hp1. reflexivity.
  - exists (evs3 ++ evs2 ++ EvPrint (MsgGenerating prompt) :: evs1)%list. split.
    + eapply since_trans; [|exact Hs3]. eapply since_trans; eassumption.
    + right. exists st1', w, w'. rewrite Hcw. repeat split; [exact Hname|].
      rewrite !submitted_app, Hsub3, Hsub2. simpl. rewrite Hp1. reflexivity.
Qed.

(** X9.  A call of [generate_asset] posts at most one workflow, whatever
    the server does: nothing is submitted twice and nothing is retried. *)
Theorem generate_asset_submits_once :
  forall env fuel c prompt asset_name o st,
    exists evs,
      since st (snd (generate_asset env fuel c prompt asset_name o st)) evs /\
      (List.length (submitted evs) <= 1)%nat.
Proof.
  intros env fuel c prompt asset_name o st.
  destruct (generate_asset_submits env fuel c prompt asset_name o st)
    as (evs & Hs & [H|(st1 & w & w' & _ & _ & H)]);
    exists evs; (split; [exact Hs|]); rewrite H; simpl; lia.
Qed.

(** X10.  With a template that has the nodes written to and a save node
    66, and an asset name given, the workflow posted carries the asset name
    as the prefix of node 66 and the prompt as the text of node 47. *)
Theorem asset_name_reaches_node_66 :
  forall env fuel c prompt a o st w,
    (forall n, read_template env n = inr (JObj w)) -> w <> [] ->
    forallb (has_inputs w) (required_nodes o) = true ->
    has_inputs w "66" = true ->
    a <> "" ->
    exists evs,
      since st (snd (generate_asset env fuel c prompt (Some a) o st)) evs /\
      Forall (fun g =>
                input_of g "66" "filename_prefix" = Some (JStr a) /\
                input_of g "47" "text" = Some (JStr prompt) /\
                map fst g = map fst w)
             (submitted evs).
Proof.
  intros env fuel c prompt a o st w Htpl Hw Hreq H66 Ha.
  destruct (generate_asset_submits env fuel c prompt (Some a) o st)
    as (evs & Hs & [H|(st1 & g & g' & Hcw & Hname & H)]);
    exists evs; (split; [exact Hs|]); rewrite H; constructor; [|constructor].
  destruct (create_workflow_with_template env prompt o st1 w (Htpl (tick st1)) Hw)
    as (s & _ & Hrun).
  rewrite Hrun in Hcw. cbn [fst] in Hcw.
  rewrite <- (template_edits_nodes w prompt o s) in Hreq.
  destruct (assign_inputs_ok _ w Hreq)
    as (g0 & Hval & Hkeys & Hhas & Hframe & Hread & _).
  rewrite Hval in Hcw. inversion Hcw; subst g0; clear Hcw.
  assert (Htext : input_of g "47" "text" = Some (JStr prompt)).
  { apply (Hread (template_edits_slots prompt o s)).
    unfold template_edits. apply in_or_app. left. left. reflexivity. }
  assert (Hg66 : has_inputs g "66" = true) by (rewrite Hhas; exact H66).
  assert (Hmem : dict_mem "66" g = true).
  { unfold dict_mem. destruct (has_inputs_inv g "66" Hg66) as (n & i & Hn & _).
    rewrite Hn. reflexivity. }
  unfold name_save_node in Hname.
  assert (Ht : truthy_opt (Some a) = true).
  { simpl. destruct (String.eqb_spec a ""); [contradiction|reflexivity]. }
  rewrite Ht, Hmem in Hname. cbn [andb] in Hname.
  destruct (assign_input_ok g "66" "filename_prefix" (JStr a) Hg66)
    as (g1 & Hrun1 & Hkeys1 & _ & Hin1 & _).
  rewrite Hrun1 in Hname. inversion Hname; subst g1; clear Hname.
  split; [|split].
  - rewrite Hin1. rewrite !String.eqb_refl. reflexivity.
  - rewrite Hin1. simpl. exact Htext.
  - congruence.
Qed.

Lemma asset_name_reaches_node_66_witness :
  exists evs,
    since (initial_state 0)
      (snd (generate_asset env_template 1 sample_client "a red block"
              (Some "block") default_options (initial_state 0))) evs /\
    Forall (fun g =>
              input_of g "66" "filename_prefix" = Some (JStr "block") /\
              input_of g "47" "text" = Some (JStr "a red block") /\
              map fst g = map fst template_flux_nodes)
           (submitted evs).
Proof.
  apply (asset_name_reaches_node_66 env_template 1 sample_client "a red block"
           "block" default_options (initial_state 0) template_flux_nodes).
  - intro n. reflexivity.
  - discriminate.
  - reflexivity.
  - reflexivity.
  - discriminate.
Defined.

(* ================================================================== *)
(** ** The command line, once the size is read (lines 316-339) *)

(** [main] with a size that parses: the client is made, the asset is
    generated, and the exit status follows the result. *)
Lemma main_with_size :
  forall env fuel a st width_ height_,
    parse_size (arg_size a) = Val (width_, height_) ->
    main env fuel a st =
    match os_mkdir env (tick st) (arg_output a) with
    | inl e => (Exc e, advance env st 0 (EvMkdir (arg_output a) false))
    | inr created =>
        match generate_asset env fuel (client_of env a) (arg_prompt a)
                (arg_name a) (options_of a width_ height_)
                (advance env st 0 (EvMkdir (arg_output a) created)) with
        | (Val result, st') =>
            if truthy_opt result
            then (Val 0, {| now := now st'; tick := tick st';
                            trace := EvPrint (MsgSuccess
                                        (match result with
                                         | Some p => p
                                         | None => ""
                                         end)) :: trace st' |})
            else (Val 1, {| now := now st'; tick := tick st';
                            trace := EvPrint MsgFailed :: trace st' |})
        | (Exc e, st') => (Exc e, st')
        | (OutOfFuel, st') => (OutOfFuel, st')
        end
    end.
Proof.
  intros env fuel a st width_ height_ Hsize.
  unfold main. rewrite Hsize. unfold bind at 1.
  unfold init, bind at 1, mkdir_exist_ok, ret at 1.
  destruct (os_mkdir env (tick st) (arg_output a)) as [e|created];
    cbn [of_reply res_bind]; [reflexivity|].
  fold (client_of env a). fold (options_of a width_ height_).
  assert (Hst : advance env st 0
                  (EvMkdir (arg_output a)
                     (match (inr created : exn + bool) with
                      | inr true => true
                      | _ => false
                      end)) =
                advance env st 0 (EvMkdir (arg_output a) created)).
  { destruct created; reflexivity. }
  cbv beta iota in Hst |- *. rewrite Hst. unfold bind at 1.
  destruct (generate_asset env fuel (client_of env a) (arg_prompt a) (arg_name a)
              (options_of a width_ height_)
              (advance env st 0 (EvMkdir (arg_output a) created)))
    as [[result|e|] st']; try reflexivity.
  destruct (truthy_opt result); reflexivity.
Qed.

Lemma path_absolute_nonempty :
  forall cwd_ p, path_absolute cwd_ p <> "".
Proof.
  intros cwd_ p. unfold path_absolute.
  destruct p as [|ch r]; simpl.
  - destruct cwd_; discriminate.
  - destruct (Ascii.eqb ch "/"); [discriminate|].
    destruct cwd_; discriminate.
Qed.



(** X12.  With a size [WxH] that parses and no usable template, the
    workflow posted is the fallback graph of the command line: width [W]
    and height [H] in the latent node, the steps and the guidance in the
    sampler, the prompt and the fixed negative prompt in the two encoders. *)
Theorem command_line_reaches_graph :
  forall env fuel a st width_ height_,
    parse_size (arg_size a) = Val (width_, height_) ->
    (forall n, template_unusable (read_template env n) = true) ->
    exists evs,
      since st (snd (main env fuel a st)) evs /\
      Forall (fun g =>
                input_of g "4" "width" = Some (JInt width_) /\
                input_of g "4" "height" = Some (JInt height_) /\
                input_of g "5" "steps" = Some (JInt (arg_steps a)) /\
                input_of g "5" "cfg" = Some (JFloat (arg_cfg a)) /\
                input_of g "2" "text" = Some (JStr (arg_prompt a)) /\
                input_of g "3" "text" =
                  Some (JStr "low quality, blurry, artifacts, bad anatomy") /\
                input_of g "7" "filename_prefix" = Some (JStr "TetrisAsset"))
             (submitted evs).
Proof.
  intros env fuel a st width_ height_ Hsize Htpl.
  rewrite (main_with_size env fuel a st width_ height_ Hsize).
  destruct (os_mkdir env (tick st) (arg_output a)) as [e|created].
  { exists [EvMkdir (arg_output a) false]. split; [reflexivity|constructor]. }
  set (st0 := advance env st 0 (EvMkdir (arg_output a) created)).
  assert (Hs0 : since st st0 [EvMkdir (arg_output a) created]) by reflexivity.
  destruct (generate_asset_submits env fuel (client_of env a) (arg_prompt a)
              (arg_name a) (options_of a width_ height_) st0)
    as (evs & Hs & Hsub).
  assert (Hgood :
            Forall (fun g =>
                input_of g "4" "width" = Some (JInt width_) /\
                input_of g "4" "height" = Some (JInt height_) /\
                input_of g "5" "steps" = Some (JInt (arg_steps a)) /\
                input_of g "5" "cfg" = Some (JFloat (arg_cfg a)) /\
                input_of g "2" "text" = Some (JStr (arg_prompt a)) /\
                input_of g "3" "text" =
                  Some (JStr "low quality, blurry, artifacts, bad anatomy") /\
                input_of g "7" "filename_prefix" = Some (JStr "TetrisAsset"))
              (submitted evs)).
  { destruct Hsub as [H|(st1 & g & g' & Hcw & Hname & H)]; rewrite H;
      constructor; [|constructor].
    destruct (create_workflow_falls_back env (arg_prompt a)
                (options_of a width_ height_) st1 (Htpl (tick st1)))
      as (m & s & st2 & evs2 & Hfb & _).
    rewrite Hfb in Hcw. cbn [fst] in Hcw. inversion Hcw; subst g; clear Hcw.
    rewrite (name_save_node_without_66 (arg_name a)
               (fallback_graph (arg_prompt a) m (options_of a width_ height_) s)
               eq_refl) in Hname.
    inversion Hname; subst g'. repeat split. }
  destruct (generate_asset env fuel (client_of env a) (arg_prompt a) (arg_name a)
              (options_of a width_ height_) st0) as [r st'].
  cbn [snd] in Hs.
  assert (Hall : forall pre,
             submitted pre = [] ->
             submitted (pre ++ evs ++ [EvMkdir (arg_output a) created]) =
             submitted evs).
  { intros pre Hpre. rewrite !submitted_app, Hpre. simpl.
    rewrite app_nil_r. reflexivity. }
  destruct r as [result|e|].
  - destruct (truthy_opt result).
    + exists ([EvPrint (MsgSuccess (match result with
                                    | Some p => p
                                    | None => ""
                                    end))] ++ evs ++
              [EvMkdir (arg_output a) created])%list. split.
      { eapply since_trans; [eapply since_trans; eassumption|]. reflexivity. }
      rewrite Hall by reflexivity. exact Hgood.
    + exists ([EvPrint MsgFailed] ++ evs ++
              [EvMkdir (arg_output a) created])%list. split.
      { eapply since_trans; [eapply since_trans; eassumption|]. reflexivity. }
      rewrite Hall by reflexivity. exact Hgood.
  - exists (evs ++ [EvMkdir (arg_output a) created])%list. split.
    { eapply since_trans; eassumption. }
    pose proof (Hall [] eq_refl) as Hx. simpl in Hx. rewrite Hx. exact Hgood.
  - exists (evs ++ [EvMkdir (arg_output a) created])%list. split.
    { eapply since_trans; eassumption. }
    pose proof (Hall [] eq_refl) as Hx. simpl in Hx. rewrite Hx. exact Hgood.
Qed.

Lemma command_line_reaches_graph_witness :
  exists evs,
    since (initial_state 0)
      (snd (main env_second_image 1 (sample_args "640x480") (initial_state 0)))
      evs /\
    Forall (fun g =>
              input_of g "4" "width" = Some (JInt 640) /\
              input_of g "4" "height" = Some (JInt 480) /\
              input_of g "5" "steps" = Some (JInt (arg_steps (sample_args "640x480"))) /\
              input_of g "5" "cfg" = Some (JFloat (arg_cfg (sample_args "640x480"))) /\
              input_of g "2" "text" = Some (JStr (arg_prompt (sample_args "640x480"))) /\
              input_of g "3" "text" =
                Some (JStr "low quality, blurry, artifacts, bad anatomy") /\
              input_of g "7" "filename_prefix" = Some (JStr "TetrisAsset"))
           (submitted evs).
Proof.
  apply (command_line_reaches_graph env_second_image 1 (sample_args "640x480")
           (initial_state 0) 640 480).
  - reflexivity.
  - intro n. reflexivity.
Defined.

(* ================================================================== *)
(** ** What can raise, and what cannot *)

Create HintDb finished.

#[local] Hint Resolve py_get_finished subscript_finished store_finished
  index0_finished py_keys_finished py_items_finished py_len_finished
  py_iter_finished slice8_finished ckpt_names_finished py_sorted_finished
  assign_input_finished local_name_finished of_reply_finished : finished.

Section Raising.

Variable env : Env.

Lemma fuel_free_ret : forall A (a : A), fuel_free (ret a).
Proof. intros A a st. discriminate. Qed.

Lemma fuel_free_lift : forall A (r : res A), finished r -> fuel_free (lift r).
Proof. intros A r H st. exact H. Qed.

Lemma fuel_free_print : forall m, fuel_free (print m).
Proof. intros m st. discriminate. Qed.

Lemma fuel_free_time_time : fuel_free time_time.
Proof. intros st. discriminate. Qed.

Lemma fuel_free_interact :
  forall A (ask : nat -> exn + A) ev, fuel_free (interact env ask ev).
Proof. intros A ask ev st. apply of_reply_finished. Qed.

Lemma fuel_free_write_file :
  forall path data, fuel_free (write_file env path data).
Proof. intros path data st. apply of_reply_finished. Qed.

Lemma fuel_free_bind :
  forall A B (m : M A) (k : A -> M B),
    fuel_free m -> (forall a, fuel_free (k a)) -> fuel_free (bind m k).
Proof.
  intros A B m k Hm Hk st. unfold bind. specialize (Hm st).
  destruct (m st) as [[a|e|] st1]; simpl in *;
    [apply Hk|discriminate|contradiction].
Qed.

Lemma fuel_free_try_catch :
  forall A (m : M A) (h : exn -> M A),
    fuel_free m -> (forall e, fuel_free (h e)) -> fuel_free (try_catch m h).
Proof.
  intros A m h Hm Hh st. unfold try_catch. specialize (Hm st).
  destruct (m st) as [[a|e|] st1]; simpl in *;
    [discriminate|apply Hh|contradiction].
Qed.

Lemma no_raise_ret : forall A (a : A), no_raise (ret a).
Proof. intros A a st e. discriminate. Qed.

Lemma no_raise_print : forall m, no_raise (print m).
Proof. intros m st e. discriminate. Qed.

Lemma no_raise_time_time : no_raise time_time.
Proof. intros st e. discriminate. Qed.

Lemma no_raise_time_sleep : forall ms, no_raise (time_sleep env ms).
Proof. intros ms st e. discriminate. Qed.

Lemma no_raise_out_of_fuel : forall A, no_raise (lift (@OutOfFuel A)).
Proof. intros A st e. discriminate. Qed.

Lemma no_raise_bind :
  forall A B (m : M A) (k : A -> M B),
    no_raise m -> (forall a, no_raise (k a)) -> no_raise (bind m k).
Proof.
  intros A B m k Hm Hk st e. unfold bind. specialize (Hm st).
  destruct (m st) as [[a|e'|] st1]; simpl in *;
    [apply Hk|exfalso; apply (Hm e'); reflexivity|discriminate].
Qed.

(** A [try] whose handler does not raise lets nothing out. *)
Lemma no_raise_try_catch :
  forall A (m : M A) (h : exn -> M A),
    (forall e, no_raise (h e)) -> no_raise (try_catch m h).
Proof.
  intros A m h Hh st e. unfold try_catch.
  destruct (m st) as [[a|e'|] st1]; simpl; [discriminate|apply Hh|discriminate].
Qed.

End Raising.

Ltac fuel_tac :=
  repeat first
    [ assumption
    | match goal with
      | H : forall _, fuel_free _ |- fuel_free _ => apply H
      | H : forall _ _, fuel_free _ |- fuel_free _ => apply H
      end
    | apply fuel_free_ret
    | apply fuel_free_print
    | apply fuel_free_time_time
    | apply fuel_free_interact
    | apply fuel_free_write_file
    | apply fuel_free_lift; solve [auto with finished | discriminate]
    | apply fuel_free_bind; [|intro]
    | apply fuel_free_try_catch; [|intro]
    | progress cbv zeta
    | match goal with
      | |- fuel_free (if ?b then _ else _) => destruct b
      | |- fuel_free (match ?x with _ => _ end) => destruct x
      end ].

Lemma fuel_free_download_image :
  forall env f s, fuel_free (download_image env f s).
Proof. intros env f s. unfold download_image. fuel_tac. Qed.

Lemma fuel_free_images_loop :
  forall env c asset_name imgs, fuel_free (images_loop env c asset_name imgs).
Proof.
  intros env c asset_name imgs. induction imgs as [|i rest IH]; cbn [images_loop].
  - fuel_tac.
  - pose proof (fuel_free_download_image env). fuel_tac.
Qed.

Lemma fuel_free_nodes_loop :
  forall env c asset_name items, fuel_free (nodes_loop env c asset_name items).
Proof.
  intros env c asset_name items.
  induction items as [|[node_id n] rest IH]; cbn [nodes_loop].
  - fuel_tac.
  - pose proof (fuel_free_images_loop env c asset_name). fuel_tac.
Qed.

Lemma fuel_free_handle_completion :
  forall env c asset_name history,
    fuel_free (handle_completion env c asset_name history).
Proof.
  intros env c asset_name history. unfold handle_completion.
  pose proof (fuel_free_nodes_loop env c asset_name). fuel_tac.
Qed.

Lemma no_raise_handle_completion :
  forall env c asset_name history,
    no_raise (handle_completion env c asset_name history).
Proof.
  intros env c asset_name history. unfold handle_completion.
  apply no_raise_try_catch. intro e.
  apply no_raise_bind; [apply no_raise_print|intros _; apply no_raise_ret].
Qed.

Lemma no_raise_get_history :
  forall env id, no_raise (get_history env id).
Proof.
  intros env id. unfold get_history. apply no_raise_try_catch.
  intro e. apply no_raise_ret.
Qed.

Lemma no_raise_poll_loop :
  forall env fuel c asset_name id start,
    no_raise (poll_loop env fuel c asset_name id start).
Proof.
  intros env fuel c asset_name id start.
  induction fuel as [|fuel IH]; cbn [poll_loop].
  - apply no_raise_out_of_fuel.
  - apply no_raise_bind; [apply no_raise_get_history|intro history].
    destruct (truthy history).
    + apply no_raise_bind; [apply no_raise_time_time|intro t].
      apply no_raise_bind; [apply no_raise_print|intros _].
      apply no_raise_handle_completion.
    + apply no_raise_bind; [apply no_raise_time_time|intro t]. cbv zeta.
      apply no_raise_bind; [apply no_raise_print|intros _].
      apply no_raise_bind; [apply no_raise_time_sleep|intros _].
      destruct (t - start >? 120000); [|exact IH].
      apply no_raise_bind; [apply no_raise_print|intros _; apply no_raise_ret].
Qed.

(** X13.  As long as the messages can be printed ([print] is taken to
    succeed), nothing that the server, the record or the disk does makes
    the retrieval raise: whatever the record holds (missing keys, wrong
    types, images without a file name) and whatever the downloads and the
    write do, the retrieval returns, a path or [None]; and neither the
    history requests nor the retrieval make the poll loop raise. *)
Theorem retrieval_never_raises :
  forall env c asset_name,
    (forall history st,
        exists r, fst (handle_completion env c asset_name history st) = Val r) /\
    (forall fuel id start st e,
        fst (poll_loop env fuel c asset_name id start st) <> Exc e).
Proof.
  intros env c asset_name. split.
  - intros history st.
    pose proof (no_raise_handle_completion env c asset_name history st) as Hn.
    pose proof (fuel_free_handle_completion env c asset_name history st) as Hf.
    destruct (fst (handle_completion env c asset_name history st)) as [r|e|].
    + exists r. reflexivity.
    + exfalso. apply (Hn e). reflexivity.
    + contradiction.
  - intros fuel id start st e. apply no_raise_poll_loop.
Qed.

(* ================================================================== *)
(** ** When the job is not accepted (lines 216-220) *)

Lemma emits_bind_post :
  forall (p : event -> bool) A B (m : M A) (Q : A -> Prop) (k : A -> M B),
    emits p m ->
    (forall st a, fst (m st) = Val a -> Q a) ->
    (forall a, Q a -> emits p (k a)) ->
    emits p (bind m k).
Proof.
  intros p A B m Q k Hm HQ Hk st. unfold bind.
  destruct (Hm st) as (e1 & Hs1 & Hp1). specialize (HQ st).
  destruct (m st) as [[a|e|] st1]; simpl in *.
  - destruct (Hk a (HQ a eq_refl) st1) as (e2 & Hs2 & Hp2).
    exists (e2 ++ e1)%list. split.
    + eapply since_trans; eassumption.
    + rewrite forallb_app, Hp1, Hp2. reflexivity.
  - exists e1. auto.
  - exists e1. auto.
Qed.

Lemma before_polling_quiet :
  forall evs,
    forallb before_polling evs = true ->
    polls evs = [] /\ views evs = [] /\ writes evs = [].
Proof.
  induction evs as [|ev r IH]; simpl; intro H; [auto|].
  apply andb_true_iff in H. destruct H as [Hev Hr].
  destruct (IH Hr) as (Hp & Hv & Hw).
  destruct ev; simpl in *; try discriminate; auto.
Qed.



Lemma no_raise_bind_post :
  forall A B (m : M A) (Q : A -> Prop) (k : A -> M B),
    no_raise m ->
    (forall st a, fst (m st) = Val a -> Q a) ->
    (forall a, Q a -> no_raise (k a)) ->
    no_raise (bind m k).
Proof.
  intros A B m Q k Hm HQ Hk st e. unfold bind.
  specialize (Hm st). specialize (HQ st).
  destruct (m st) as [[a|e'|] st1]; simpl in *;
    [apply Hk; apply HQ; reflexivity
    |exfalso; apply (Hm e'); reflexivity|discriminate].
Qed.

(** X15.  When the template file is missing, is not JSON, or holds an empty
    document, and the server names its jobs by strings, then, as long as
    the messages can be printed ([print] is taken to succeed), no exception
    leaves [generate_asset]: every failure of the server, the network or
    the disk ends in a returned [None].  (A template that cannot be read
    for another reason is not covered: its exception leaves the call.) *)
Theorem generate_asset_never_raises :
  forall env fuel c prompt asset_name o st e,
    (forall n, template_unusable (read_template env n) = true) ->
    (forall w st0 j,
        fst (queue_prompt env c w st0) = Val j -> truthy j = true ->
        exists id, j = JStr id) ->
    fst (generate_asset env fuel c prompt asset_name o st) <> Exc e.
Proof.
  intros env fuel c prompt asset_name o st e Htpl Hid. revert e.
  apply (fun H => H st). change (no_raise (generate_asset env fuel c prompt asset_name o)).
  unfold generate_asset.
  apply no_raise_bind.
  { unfold is_server_running. apply no_raise_try_catch.
    intro e. apply no_raise_ret. }
  intro up. destruct (negb up).
  { apply no_raise_bind; [apply no_raise_print|intros _; apply no_raise_ret]. }
  apply no_raise_bind; [apply no_raise_print|intros _].
  apply no_raise_bind_post with (Q := fun w => dict_mem "66" w = false).
  - intros st0 e.
    destruct (create_workflow_falls_back env prompt o st0 (Htpl (tick st0)))
      as (m & s & st' & evs & Hcw & _).
    rewrite Hcw. discriminate.
  - intros st0 w Hw.
    destruct (create_workflow_falls_back env prompt o st0 (Htpl (tick st0)))
      as (m & s & st' & evs & Hcw & _).
    rewrite Hcw in Hw. simpl in Hw. inversion Hw. reflexivity.
  - intros w Hw. rewrite (name_save_node_without_66 asset_name w Hw).
    apply no_raise_bind; [intros st0 e; discriminate|intro w'].
    apply no_raise_bind_post
      with (Q := fun j => truthy j = true -> exists id, j = JStr id).
    + unfold queue_prompt. apply no_raise_try_catch. intro e.
      apply no_raise_bind; [apply no_raise_print|intros _; apply no_raise_ret].
    + intros st0 j Hj. apply (Hid w' st0 j Hj).
    + intros j Hj. destruct (truthy j) eqn:Ht; cbn [negb].
      * destruct (Hj eq_refl) as (id & ->). cbn [slice8].
        apply no_raise_bind; [intros st0 e; discriminate|intro id8].
        apply no_raise_bind; [apply no_raise_print|intros _].
        apply no_raise_bind; [apply no_raise_time_time|intro start].
        apply no_raise_poll_loop.
      * apply no_raise_bind; [apply no_raise_print|intros _; apply no_raise_ret].
Qed.

Lemma generate_asset_never_raises_witness :
  fst (generate_asset env_second_image 1 sample_client "a red block"
         (Some "block") default_options (initial_state 0)) <> Exc TypeError.
Proof.
  apply (generate_asset_never_raises env_second_image 1 sample_client
           "a red block" (Some "block") default_options (initial_state 0)
           TypeError).
  - intro n. reflexivity.
  - intros w st0 j H _. simpl in H. inversion H. exists "abc123". reflexivity.
Defined.

(* ================================================================== *)
(** ** The loop always ends (lines 226-289) *)

Lemma emits_retrieval_download :
  forall env f s, emits retrieval_event (download_image env f s).
Proof. intros env f s. unfold download_image. emits_tac. Qed.

Lemma emits_retrieval_images :
  forall env c asset_name imgs,
    emits retrieval_event (images_loop env c asset_name imgs).
Proof.
  intros env c asset_name imgs. induction imgs as [|i rest IH]; cbn [images_loop].
  - emits_tac.
  - pose proof (emits_retrieval_download env). emits_tac.
Qed.

Lemma emits_retrieval_nodes :
  forall env c asset_name items,
    emits retrieval_event (nodes_loop env c asset_name items).
Proof.
  intros env c asset_name items.
  induction items as [|[node_id n] rest IH]; cbn [nodes_loop].
  - emits_tac.
  - pose proof (emits_retrieval_images env c asset_name). emits_tac.
Qed.

Lemma emits_retrieval :
  forall env c asset_name history,
    emits retrieval_event (handle_completion env c asset_name history).
Proof.
  intros env c asset_name history. unfold handle_completion.
  pose proof (emits_retrieval_nodes env c asset_name). emits_tac.
Qed.

Lemma retrieval_no_poll :
  forall evs, forallb retrieval_event evs = true -> polls evs = [].
Proof.
  induction evs as [|ev r IH]; simpl; intro H; [reflexivity|].
  apply andb_true_iff in H. destruct H as [Hev Hr].
  destruct ev; simpl in *; try discriminate; auto.
Qed.

Lemma not_poll_polls :
  forall evs, forallb not_poll evs = true -> polls evs = [].
Proof.
  induction evs as [|ev r IH]; simpl; intro H; [reflexivity|].
  apply andb_true_iff in H. destruct H as [Hev Hr].
  unfold not_poll in Hev. destruct (is_history ev); [discriminate|]. auto.
Qed.

Lemma polls_app : forall a b, polls (a ++ b) = (polls a ++ polls b)%list.
Proof. intros a b. apply filter_app. Qed.

Section Bounded.

Variable env : Env.
Variables (c : Client) (asset_name : option string) (id : json) (start : Z).

Hypothesis latency_nonneg : forall n, 0 <= latency env n.

(** Whatever the server answers, [n + 1] iterations are enough when [n]
    seconds are left before the ceiling. *)
Lemma poll_loop_bounded :
  forall n fuel st,
    (n < fuel)%nat ->
    start + 1000 * (121 - Z.of_nat n) <= now st ->
    exists r st' evs,
      poll_loop env fuel c asset_name id start st = (r, st') /\
      r <> OutOfFuel /\
      since st st' evs /\
      (List.length (polls evs) <= S n)%nat.
Proof.
  induction n as [|n IH]; intros fuel st Hfuel Hnow;
    (destruct fuel as [|fuel]; [lia|]).
  all: destruct (get_history_run env id st) as (j & Hrun).
  all: pose proof (latency_nonneg (tick st)) as Hl0.
  all: pose proof (latency_nonneg (S (tick st))) as Hl1.
  all: cbn [poll_loop]; unfold bind at 1; rewrite Hrun; cbv beta iota.
  all: destruct (truthy j).
  1, 3: unfold bind, time_time, print; cbv beta iota;
    match goal with
    | |- context [handle_completion env c asset_name ?h ?s] =>
        set (s2 := s);
        destruct (emits_retrieval env c asset_name h s2) as (eh & Hsh & Hph);
        pose proof (fuel_free_handle_completion env c asset_name h s2) as Hfin;
        destruct (handle_completion env c asset_name h s2) as [r st']
    end;
    exists r, st',
      (eh ++ [EvPrint (MsgGenerated (now st + 0 + latency env (tick st) - start));
              EvHistory id])%list;
    (split; [reflexivity|]); (split; [exact Hfin|]);
    (split;
     [unfold since in *; cbn [snd] in Hsh; rewrite Hsh; unfold s2, advance;
      cbn [trace now]; rewrite <- app_assoc; reflexivity
     |rewrite polls_app, (retrieval_no_poll eh Hph); simpl; lia]).
  all: unfold bind, time_time, print, time_sleep, ret, advance; cbn [now tick trace].
  all: destruct (now st + 0 + latency env (tick st) - start >? 120000) eqn:Hgt.
  - eexists. eexists.
    exists [EvPrint MsgTimedOut; EvSleep 1000;
            EvPrint (MsgProgress (now st + 0 + latency env (tick st) - start));
            EvHistory id].
    split; [reflexivity|]. split; [discriminate|].
    split; [reflexivity|]. simpl. lia.
  - exfalso. rewrite Z.gtb_ltb, Z.ltb_ge in Hgt. simpl in Hnow. lia.
  - eexists. eexists.
    exists [EvPrint MsgTimedOut; EvSleep 1000;
            EvPrint (MsgProgress (now st + 0 + latency env (tick st) - start));
            EvHistory id].
    split; [reflexivity|]. split; [discriminate|].
    split; [reflexivity|]. simpl. lia.
  - match goal with
    | |- context [poll_loop env fuel c asset_name id start ?s] =>
        destruct (IH fuel s) as (r & st' & evs & Hloop & Hfin & Hsince & Hlen)
    end.
    + lia.
    + cbn [now]. lia.
    + exists r, st'.
      exists (evs ++ [EvSleep 1000; EvPrint
                (MsgProgress (now st + 0 + latency env (tick st) - start));
                EvHistory id])%list.
      split; [exact Hloop|]. split; [exact Hfin|]. split.
      * unfold since in *. cbn [trace] in Hsince. rewrite Hsince.
        rewrite <- app_assoc. reflexivity.
      * rewrite polls_app, length_app. simpl. lia.
Qed.

End Bounded.

Lemma polls_at_most_polling :
  forall env c asset_name id fuel,
    (forall n, 0 <= latency env n) ->
    (122 <= fuel)%nat ->
    polls_at_most 122
      (start_time <- time_time ;; poll_loop env fuel c asset_name id start_time).
Proof.
  intros env c asset_name id fuel Hlat Hfuel st.
  unfold bind, time_time. cbv beta iota.
  destruct (poll_loop_bounded env c asset_name id (now st) Hlat 121%nat fuel st)
    as (r & st' & evs & Hloop & Hfin & Hs & Hl); [lia|simpl; lia|].
  rewrite Hloop. simpl. split; [exact Hfin|]. exists evs. split; assumption.
Qed.

Lemma polls_at_most_quiet :
  forall A (m : M A), fuel_free m -> emits not_poll m -> polls_at_most 0 m.
Proof.
  intros A m Hf He st. split; [apply Hf|].
  destruct (He st) as (evs & Hs & Hp). exists evs. split; [exact Hs|].
  rewrite (not_poll_polls evs Hp). simpl. lia.
Qed.

Lemma polls_at_most_weaken :
  forall i j A (m : M A),
    (i <= j)%nat -> polls_at_most i m -> polls_at_most j m.
Proof.
  intros i j A m Hij Hm st. destruct (Hm st) as (Hf & evs & Hs & Hl).
  split; [exact Hf|]. exists evs. split; [exact Hs|lia].
Qed.

Lemma polls_at_most_bind :
  forall i j A B (m : M A) (k : A -> M B),
    polls_at_most i m -> (forall a, polls_at_most j (k a)) ->
    polls_at_most (i + j) (bind m k).
Proof.
  intros i j A B m k Hm Hk st. unfold bind.
  destruct (Hm st) as (Hf1 & e1 & Hs1 & Hl1).
  destruct (m st) as [[a|e|] st1]; simpl in *.
  - destruct (Hk a st1) as (Hf2 & e2 & Hs2 & Hl2). split; [exact Hf2|].
    exists (e2 ++ e1)%list. split; [eapply since_trans; eassumption|].
    rewrite polls_app, length_app. lia.
  - split; [discriminate|]. exists e1. split; [exact Hs1|lia].
  - contradiction.
Qed.

Lemma name_save_node_finished :
  forall asset_name w, finished (name_save_node asset_name w).
Proof.
  intros asset_name w. unfold name_save_node.
  destruct (truthy_opt asset_name && dict_mem "66" w)%bool;
    [apply assign_input_finished|discriminate].
Qed.

Lemma fuel_free_create_workflow :
  forall env prompt o, fuel_free (create_workflow env prompt o).
Proof.
  intros env prompt o.
  unfold create_workflow, load_workflow_template, create_fallback_workflow,
    get_models, pick_seed.
  fuel_tac.
Qed.

Lemma polls_at_most_generate_asset :
  forall env fuel c prompt asset_name o,
    (forall n, 0 <= latency env n) ->
    (122 <= fuel)%nat ->
    polls_at_most 122 (generate_asset env fuel c prompt asset_name o).
Proof.
  intros env fuel c prompt asset_name o Hlat Hfuel. unfold generate_asset.
  assert (Hquiet : forall m, polls_at_most 122 (print m ;;; ret (@None string))).
  { intro m. apply (polls_at_most_weaken 0); [lia|].
    apply polls_at_most_quiet; [fuel_tac|emits_tac]. }
  apply (polls_at_most_bind 0 122).
  { apply polls_at_most_quiet; [unfold is_server_running; fuel_tac|].
    eapply emits_weaken; [|apply emits_is_server_running]. intros []; auto. }
  intro up. destruct (negb up); [apply Hquiet|].
  apply (polls_at_most_bind 0 122).
  { apply polls_at_most_quiet; [fuel_tac|emits_tac]. }
  intros _. apply (polls_at_most_bind 0 122).
  { apply polls_at_most_quiet; [apply fuel_free_create_workflow|].
    eapply emits_weaken; [|apply emits_create_workflow]. intros []; auto. }
  intro w. apply (polls_at_most_bind 0 122).
  { apply polls_at_most_quiet;
      [apply fuel_free_lift; apply name_save_node_finished|emits_tac]. }
  intro w'. apply (polls_at_most_bind 0 122).
  { apply polls_at_most_quiet; [unfold queue_prompt; fuel_tac|].
    eapply emits_weaken; [|apply emits_queue_prompt]. intros []; auto. }
  intro id. destruct (negb (truthy id)); [apply Hquiet|].
  apply (polls_at_most_bind 0 122).
  { apply polls_at_most_quiet; [fuel_tac|emits_tac]. }
  intro id8. apply (polls_at_most_bind 0 122).
  { apply polls_at_most_quiet; [fuel_tac|emits_tac]. }
  intros _. apply polls_at_most_polling; assumption.
Qed.

Lemma polls_at_most_init :
  forall env h p d, polls_at_most 0 (init env h p d).
Proof.
  intros env h p d st. unfold init, bind, mkdir_exist_ok, ret. cbv beta iota.
  destruct (os_mkdir env (tick st) d) as [e|[|]]; simpl;
    (split; [discriminate|]); eexists [_]; (split; [reflexivity|simpl; lia]).
Qed.



(* ================================================================== *)
(** ** What a time-out means (lines 282-289) *)

Lemma forallb_polling_no_view :
  forall evs, forallb polling_event evs = true -> views evs = [].
Proof.
  induction evs as [|ev r IH]; simpl; intro H; [reflexivity|].
  apply andb_true_iff in H. destruct H as [Hev Hr].
  destruct ev; simpl in *; try discriminate; auto.
Qed.

Lemma poll_loop_timed_out :
  forall env c asset_name id start fuel st evs,
    since st (snd (poll_loop env fuel c asset_name id start st)) evs ->
    In (EvPrint MsgTimedOut) evs ->
    fst (poll_loop env fuel c asset_name id start st) = Val None /\
    exists e rest,
      evs = EvPrint MsgTimedOut :: EvSleep 1000 :: EvPrint (MsgProgress e) :: rest /\
      120000 < e /\
      forallb polling_event rest = true /\
      forallb within_ceiling rest = true.
Proof.
  intros env c asset_name id start fuel.
  induction fuel as [|fuel IH]; intros st evs Hs Hin.
  - simpl in Hs. rewrite (since_unique st st evs [] Hs eq_refl) in Hin.
    destruct Hin.
  - destruct (get_history_run env id st) as (j & Hrun).
    remember (poll_loop env (S fuel) c asset_name id start st) as run eqn:Hloop.
    cbn [poll_loop] in Hloop. unfold bind at 1 in Hloop.
    rewrite Hrun in Hloop. cbv beta iota in Hloop.
    destruct (truthy j).
    + exfalso.
      unfold bind, time_time, print in Hloop. cbv beta iota in Hloop.
      match type of Hloop with
      | _ = handle_completion env c asset_name j ?s =>
          destruct (emits_retrieval env c asset_name j s) as (eh & Hsh & Hph);
          rewrite <- Hloop in Hsh;
          assert (Hall : since st (snd run)
                           (eh ++ [EvPrint (MsgGenerated
                                     (now st + 0 + latency env (tick st) - start));
                                   EvHistory id]))
            by (unfold since in *; rewrite Hsh; unfold advance; cbn [trace now];
                rewrite <- app_assoc; reflexivity)
      end.
      rewrite (since_unique _ _ _ _ Hs Hall) in Hin.
      apply in_app_or in Hin. destruct Hin as [Hin|[Hin|[Hin|[]]]];
        try discriminate.
      rewrite forallb_forall in Hph. specialize (Hph _ Hin). discriminate.
    + unfold bind, time_time, print, time_sleep, ret, advance in Hloop.
      cbn [now tick trace] in Hloop.
      destruct (now st + 0 + latency env (tick st) - start >? 120000) eqn:Hgt.
      * subst run. cbn [fst snd] in *. split; [reflexivity|].
        exists (now st + 0 + latency env (tick st) - start), [EvHistory id].
        split.
        -- apply (since_unique _ _ _ _ Hs). reflexivity.
        -- rewrite Z.gtb_ltb, Z.ltb_lt in Hgt. repeat split; auto.
      * match type of Hloop with
        | _ = poll_loop env fuel c asset_name id start ?s =>
            destruct (emits_poll_loop env fuel c asset_name id start s)
              as (evs' & Hs' & _);
            specialize (IH s evs' Hs');
            rewrite <- Hloop in IH, Hs'
        end.
        assert (Hall : since st (snd run)
                         (evs' ++ [EvSleep 1000;
                                   EvPrint (MsgProgress
                                     (now st + 0 + latency env (tick st) - start));
                                   EvHistory id])).
        { unfold since in *. rewrite Hs'. cbn [trace].
          rewrite <- app_assoc. reflexivity. }
        rewrite (since_unique _ _ _ _ Hs Hall) in Hin |- *.
        apply in_app_or in Hin. destruct Hin as [Hin|[Hin|[Hin|[Hin|[]]]]];
          try discriminate.
        destruct (IH Hin) as (Hres & e & rest & -> & He & Hp & Hw).
        split; [exact Hres|].
        exists e, (rest ++ [EvSleep 1000;
                            EvPrint (MsgProgress
                              (now st + 0 + latency env (tick st) - start));
                            EvHistory id])%list.
        split; [reflexivity|]. split; [exact He|].
        rewrite !forallb_app, Hp, Hw. simpl.
        rewrite Z.gtb_ltb, Z.ltb_ge in Hgt. rewrite andb_true_r.
        split; [reflexivity|]. apply Z.leb_le. exact Hgt.
Qed.

(** X17.  The time-out message means what it says.  Whatever the server
    does, a run of the poll loop that prints it ends with it, right after a
    one-second sleep and a progress report above 120 seconds, every earlier
    report having been within them; the run returns [None], and it has only
    asked the history, reported and slept: nothing was downloaded or
    written. *)
Theorem time_out_only_after_ceiling :
  forall env c asset_name id start fuel st evs,
    since st (snd (poll_loop env fuel c asset_name id start st)) evs ->
    In (EvPrint MsgTimedOut) evs ->
    fst (poll_loop env fuel c asset_name id start st) = Val None /\
    views evs = [] /\ writes evs = [] /\
    exists e rest,
      evs = EvPrint MsgTimedOut :: EvSleep 1000 :: EvPrint (MsgProgress e) :: rest /\
      120000 < e /\
      forallb polling_event rest = true /\
      forallb within_ceiling rest = true.
Proof.
  intros env c asset_name id start fuel st evs Hs Hin.
  destruct (poll_loop_timed_out env c asset_name id start fuel st evs Hs Hin)
    as (Hres & e & rest & -> & He & Hp & Hw).
  split; [exact Hres|]. split; [|split].
  - simpl. apply forallb_polling_no_view. exact Hp.
  - simpl. apply forallb_polling_no_write. exact Hp.
  - exists e, rest. auto.
Qed.

Lemma time_out_only_after_ceiling_witness :
  fst (poll_loop env_never_ready 122 sample_client None (JStr "abc123") 0
         (initial_state 0)) = Val None /\
  views (trace (snd (poll_loop env_never_ready 122 sample_client None
                       (JStr "abc123") 0 (initial_state 0)))) = [] /\
  writes (trace (snd (poll_loop env_never_ready 122 sample_client None
                        (JStr "abc123") 0 (initial_state 0)))) = [] /\
  exists e rest,
    trace (snd (poll_loop env_never_ready 122 sample_client None
                  (JStr "abc123") 0 (initial_state 0))) =
      EvPrint MsgTimedOut :: EvSleep 1000 :: EvPrint (MsgProgress e) :: rest /\
    120000 < e /\
    forallb polling_event rest = true /\
    forallb within_ceiling rest = true.
Proof.
  apply (time_out_only_after_ceiling env_never_ready sample_client None
           (JStr "abc123") 0 122 (initial_state 0)).
  - unfold since. cbn [initial_state trace]. rewrite app_nil_r. reflexivity.
  - vm_compute. left. reflexivity.
Defined.

(* ================================================================== *)
(** ** The size on the command line (lines 310-314) *)

Lemma py_int_unfold :
  forall s,
    py_int s =
    match strip (list_ascii_of_string s) with
    | [] => None
    | c :: r =>
        if Ascii.eqb c "-" then option_map Z.opp (digits_value false 0 r)
        else if Ascii.eqb c "+" then digits_value false 0 r
        else digits_value false 0 (c :: r)
    end.
Proof.
  intro s. unfold py_int. destruct (strip _) as [|c r]; [reflexivity|].
  destruct c as [[] [] [] [] [] [] [] []]; reflexivity.
Qed.

Lemma digits_value_no_x :
  forall l b acc, In "x"%char l -> digits_value b acc l = None.
Proof.
  induction l as [|c r IH]; intros b acc Hin; [destruct Hin|].
  destruct Hin as [->|Hin].
  - reflexivity.
  - simpl. destruct (digit_val c); [apply IH; exact Hin|].
    destruct (Ascii.eqb c "_" && b)%bool; [apply IH; exact Hin|reflexivity].
Qed.

Lemma lstrip_keeps :
  forall c l, is_space c = false -> In c l -> In c (lstrip l).
Proof.
  intros c l Hc. induction l as [|a r IH]; intro Hin; [destruct Hin|].
  simpl. destruct (is_space a) eqn:Ha; [|exact Hin].
  destruct Hin as [->|Hin]; [congruence|auto].
Qed.

Lemma strip_keeps :
  forall c l, is_space c = false -> In c l -> In c (strip l).
Proof.
  intros c l Hc Hin. unfold strip. rewrite <- in_rev.
  apply lstrip_keeps; [exact Hc|]. rewrite <- in_rev.
  apply lstrip_keeps; assumption.
Qed.

(** [int] reads no ['x']. *)
Lemma py_int_no_x :
  forall s w, py_int s = Some w -> ~ In "x"%char (list_ascii_of_string s).
Proof.
  intros s w H Hin. rewrite py_int_unfold in H.
  pose proof (strip_keeps "x" _ eq_refl Hin) as Hx.
  destruct (strip (list_ascii_of_string s)) as [|c r]; [discriminate|].
  destruct (Ascii.eqb_spec c "-") as [->|Hm].
  - destruct Hx as [Hx|Hx]; [discriminate|].
    rewrite (digits_value_no_x r false 0 Hx) in H. discriminate.
  - destruct (Ascii.eqb_spec c "+") as [->|Hp].
    + destruct Hx as [Hx|Hx]; [discriminate|].
      rewrite (digits_value_no_x r false 0 Hx) in H. discriminate.
    + rewrite (digits_value_no_x (c :: r) false 0 Hx) in H. discriminate.
Qed.

Lemma split_on_nonempty : forall sep s, split_on sep s <> [].
Proof.
  intros sep s. destruct s as [|c r]; simpl; [discriminate|].
  destruct (Ascii.eqb c sep); [discriminate|].
  destruct (split_on sep r); discriminate.
Qed.

Lemma split_on_one :
  forall sep s b, split_on sep s = [b] -> s = b.
Proof.
  intros sep. induction s as [|c r IH]; simpl; intros b H.
  - inversion H. reflexivity.
  - destruct (Ascii.eqb c sep).
    + inversion H as [[Hb Hr]]. destruct (split_on_nonempty sep r Hr).
    + destruct (split_on sep r) as [|h t] eqn:Hsplit.
      * destruct (split_on_nonempty sep r Hsplit).
      * inversion H; subst. rewrite (IH h eq_refl). reflexivity.
Qed.

Lemma split_on_two :
  forall sep s a b, split_on sep s = [a; b] -> s = a ++ String sep b.
Proof.
  intros sep. induction s as [|c r IH]; simpl; intros a b H; [discriminate|].
  destruct (Ascii.eqb_spec c sep) as [->|Hc].
  - inversion H as [[Ha Hr]]. rewrite (split_on_one sep r b Hr). reflexivity.
  - destruct (split_on sep r) as [|h t] eqn:Hsplit.
    + destruct (split_on_nonempty sep r Hsplit).
    + inversion H; subst. rewrite (IH h b eq_refl). reflexivity.
Qed.

Lemma split_on_absent :
  forall sep s, ~ In sep (list_ascii_of_string s) -> split_on sep s = [s].
Proof.
  intros sep. induction s as [|c r IH]; simpl; intro H; [reflexivity|].
  destruct (Ascii.eqb_spec c sep) as [->|Hc]; [exfalso; apply H; left; reflexivity|].
  rewrite IH; [reflexivity|]. intro Hin. apply H. right. exact Hin.
Qed.

Lemma split_on_app :
  forall sep a b,
    ~ In sep (list_ascii_of_string a) ->
    split_on sep (a ++ String sep b) = a :: split_on sep b.
Proof.
  intros sep. induction a as [|c r IH]; simpl; intros b H.
  - rewrite Ascii.eqb_refl. reflexivity.
  - destruct (Ascii.eqb_spec c sep) as [->|Hc];
      [exfalso; apply H; left; reflexivity|].
    rewrite IH; [reflexivity|]. intro Hin. apply H. right. exact Hin.
Qed.

(** X18.  Which sizes are accepted.  An ASCII [--size] of at most 4300
    characters is read as [(w, h)] exactly when it is [a], an ['x'], [b],
    where [int] reads [a] as [w] and [b] as [h]; and the size printed from
    two integers of at most 4300 characters each, whatever their sign, is
    read back as those. *)
Theorem size_accepted_iff :
  forall size w h,
    ascii_only size = true ->
    (String.length size <= 4300)%nat ->
    (parse_size size = Val (w, h) <->
     exists a b, size = a ++ "x" ++ b /\ py_int a = Some w /\ py_int b = Some h) /\
    ((String.length (str_of_int w) <= 4300)%nat ->
     (String.length (str_of_int h) <= 4300)%nat ->
     parse_size (str_of_int w ++ "x" ++ str_of_int h) = Val (w, h)).
Proof.
  intros size w h _ _. split; [split|].
  - intro H. apply parse_size_accepts in H.
    destruct H as (a & b & Hsplit & Ha & Hb). exists a, b.
    split; [|auto]. apply (split_on_two "x" size a b Hsplit).
  - intros (a & b & -> & Ha & Hb). apply parse_size_accepts. exists a, b.
    split; [|auto].
    change (a ++ "x" ++ b) with (a ++ String "x" b).
    rewrite (split_on_app "x" a b (py_int_no_x a w Ha)).
    rewrite (split_on_absent "x" b (py_int_no_x b h Hb)). reflexivity.
  - intros _ _. apply parse_size_accepts. exists (str_of_int w), (str_of_int h).
    split; [|split; apply py_int_str_of_int].
    change (str_of_int w ++ "x" ++ str_of_int h)
      with (str_of_int w ++ String "x" (str_of_int h)).
    rewrite (split_on_app "x" _ _
               (py_int_no_x _ w (py_int_str_of_int w))).
    rewrite (split_on_absent "x" _ (py_int_no_x _ h (py_int_str_of_int h))).
    reflexivity.
Qed.

Lemma size_accepted_iff_witness :
  (parse_size " 64x-32" = Val (64, -32) <->
   exists a b,
     " 64x-32" = a ++ "x" ++ b /\ py_int a = Some 64 /\ py_int b = Some (-32)) /\
  ((String.length (str_of_int 64) <= 4300)%nat ->
   (String.length (str_of_int (-32)) <= 4300)%nat ->
   parse_size (str_of_int 64 ++ "x" ++ str_of_int (-32)) = Val (64, -32)).
Proof.
  apply (size_accepted_iff " 64x-32" 64 (-32)).
  - reflexivity.
  - simpl. lia.
Defined.

(* ================================================================== *)
(** ** The name of the saved file (lines 256-262) *)

Lemma list_ascii_of_string_app :
  forall a b,
    list_ascii_of_string (a ++ b) =
    (list_ascii_of_string a ++ list_ascii_of_string b)%list.
Proof.
  induction a as [|c r IH]; intro b; simpl; [reflexivity|].
  rewrite IH. reflexivity.
Qed.

Lemma rsplit_dot_plain :
  forall rl acc rest,
    forallb name_char rl = true ->
    rsplit_dot (rl ++ "."%char :: rest) acc =
    Some (rest, ("."%char :: rev rl ++ acc)%list).
Proof.
  induction rl as [|c r IH]; intros acc rest H; simpl in *; [reflexivity|].
  apply andb_true_iff in H. destruct H as [Hc Hr].
  unfold name_char in Hc. apply andb_true_iff in Hc. destruct Hc as [Hd Hs].
  destruct (Ascii.eqb c "/"); [discriminate|].
  destruct (Ascii.eqb c "."); [discriminate|].
  rewrite (IH (c :: acc) rest Hr). rewrite <- app_assoc. reflexivity.
Qed.

Lemma rsplit_dot_none :
  forall rl acc, ~ In "."%char rl -> rsplit_dot rl acc = None.
Proof.
  induction rl as [|c r IH]; intros acc H; simpl; [reflexivity|].
  destruct (Ascii.eqb c "/"); [reflexivity|].
  destruct (Ascii.eqb_spec c ".") as [->|Hc];
    [exfalso; apply H; left; reflexivity|].
  apply IH. intro Hin. apply H. right. exact Hin.
Qed.

(** X19.  The saved file keeps the extension of the server's file.  With an
    asset name [a], an image called [<stem>.<ext>], where the stem does not
    end in a dot or a slash and the extension holds neither, is saved as
    [<a>.<ext>]; an image whose name has no dot is saved as [a] alone. *)
Theorem saved_name_keeps_extension :
  forall a stem c ext plain,
    a <> "" ->
    name_char c = true ->
    forallb name_char (list_ascii_of_string ext) = true ->
    ~ In "."%char (list_ascii_of_string plain) ->
    local_name (Some a) (JStr (stem ++ String c ("." ++ ext))) =
      Val (a ++ "." ++ ext) /\
    local_name (Some a) (JStr plain) = Val a.
Proof.
  intros a stem c ext plain Ha Hc Hext Hplain.
  assert (Ht : truthy_opt (Some a) = true).
  { destruct a; [contradiction|reflexivity]. }
  unfold local_name. rewrite Ht. split; f_equal.
  - f_equal. unfold splitext_ext.
    rewrite list_ascii_of_string_app. cbn [list_ascii_of_string append].
    rewrite rev_app_distr. cbn [rev]. rewrite <- !app_assoc. cbn [app].
    rewrite rsplit_dot_plain.
    + cbn [has_name_char]. unfold name_char in Hc.
      apply andb_true_iff in Hc. destruct Hc as [Hd Hs].
      destruct (Ascii.eqb c "/"); [discriminate|].
      destruct (Ascii.eqb c "."); [discriminate|].
      rewrite rev_involutive, app_nil_r. cbn [string_of_list_ascii].
      rewrite string_of_list_ascii_of_string. reflexivity.
    + rewrite forallb_forall in *. intros x Hx. apply Hext.
      apply in_rev. exact Hx.
  - unfold splitext_ext. rewrite rsplit_dot_none.
    + symmetry. clear. induction a as [|x r IH]; simpl; [reflexivity|].
      rewrite <- IH. reflexivity.
    + intro Hin. apply Hplain. apply in_rev. exact Hin.
Qed.

Lemma saved_name_keeps_extension_witness :
  local_name (Some "block") (JStr ("TetrisAsset_00001" ++ String "_" ("." ++ "png")))
    = Val ("block" ++ "." ++ "png") /\
  local_name (Some "block") (JStr "README") = Val "block".
Proof.
  apply (saved_name_keeps_extension "block" "TetrisAsset_00001" "_" "png" "README").
  - discriminate.
  - reflexivity.
  - reflexivity.
  - vm_compute. intuition discriminate.
Defined.

(* ================================================================== *)
(** ** Where the file goes (lines 256-264) *)

Lemma emitsP_quiet :
  forall dir a A (m : M A),
    emits no_write m -> emitsP (written_as dir a) m.
Proof.
  intros dir a A m H st. destruct (H st) as (evs & Hs & Hp).
  exists evs. split; [exact Hs|].
  rewrite forallb_forall in Hp. apply Forall_forall. intros ev Hin.
  specialize (Hp ev Hin). destruct ev; try exact I. discriminate.
Qed.

Lemma emitsP_bind_post :
  forall (P : event -> Prop) A B (m : M A) (Q : A -> Prop) (k : A -> M B),
    emitsP P m ->
    (forall st a, fst (m st) = Val a -> Q a) ->
    (forall a, Q a -> emitsP P (k a)) ->
    emitsP P (bind m k).
Proof.
  intros P A B m Q k Hm HQ Hk st. unfold bind.
  destruct (Hm st) as (e1 & Hs1 & Hp1). specialize (HQ st).
  destruct (m st) as [[a|e|] st1]; simpl in *.
  - destruct (Hk a (HQ a eq_refl) st1) as (e2 & Hs2 & Hp2).
    exists (e2 ++ e1)%list. split.
    + eapply since_trans; eassumption.
    + apply Forall_app. split; assumption.
  - exists e1. auto.
  - exists e1. auto.
Qed.

Lemma emitsP_bind :
  forall (P : event -> Prop) A B (m : M A) (k : A -> M B),
    emitsP P m -> (forall a, emitsP P (k a)) -> emitsP P (bind m k).
Proof.
  intros P A B m k Hm Hk.
  apply emitsP_bind_post with (Q := fun _ => True); auto.
Qed.

Lemma emitsP_try_catch :
  forall (P : event -> Prop) A (m : M A) (h : exn -> M A),
    emitsP P m -> (forall e, emitsP P (h e)) -> emitsP P (try_catch m h).
Proof.
  intros P A m h Hm Hh st. unfold try_catch.
  destruct (Hm st) as (e1 & Hs1 & Hp1).
  destruct (m st) as [[a|e|] st1]; simpl in Hs1.
  - exists e1. auto.
  - destruct (Hh e st1) as (e2 & Hs2 & Hp2).
    exists (e2 ++ e1)%list. split.
    + eapply since_trans; eassumption.
    + apply Forall_app. split; assumption.
  - exists e1. auto.
Qed.

Ltac written_tac :=
  repeat first
    [ assumption
    | match goal with
      | H : forall _, emitsP _ _ |- emitsP _ _ => apply H
      | H : forall _ _, emitsP _ _ |- emitsP _ _ => apply H
      end
    | apply emitsP_quiet; solve [emits_tac]
    | apply emitsP_bind; [|intro]
    | apply emitsP_try_catch; [|intro]
    | progress cbv zeta
    | match goal with
      | |- emitsP _ (if ?b then _ else _) => destruct b
      | |- emitsP _ (match ?x with _ => _ end) => destruct x
      end ].

Lemma emits_quiet_download :
  forall env f s, emits no_write (download_image env f s).
Proof. intros env f s. unfold download_image. emits_tac. Qed.

Lemma emits_quiet_history :
  forall env id, emits no_write (get_history env id).
Proof. intros env id. unfold get_history. emits_tac. Qed.

Section Named.

Variable env : Env.
Variables (c : Client) (a : string).

Hypothesis named : a <> "".
Hypothesis relative : is_absolute a = false.

Lemma path_join_named :
  forall ext, path_join (output_dir c) (a ++ ext) = output_dir c ++ "/" ++ a ++ ext.
Proof.
  intro ext. unfold path_join. destruct a as [|x r]; [contradiction|].
  simpl in *. rewrite relative. reflexivity.
Qed.

Lemma written_images_loop :
  forall imgs,
    emitsP (written_as (output_dir c) a) (images_loop env c (Some a) imgs).
Proof.
  pose proof (emits_quiet_download env) as Hd.
  induction imgs as [|i rest IH]; cbn [images_loop]; [written_tac|].
  apply emitsP_bind; [written_tac|intros _].
  apply emitsP_bind; [written_tac|intro filename].
  apply emitsP_bind; [written_tac|intro subfolder].
  apply emitsP_bind; [written_tac|intros _].
  apply emitsP_bind; [written_tac|intro image_data].
  destruct (no_data image_data); [written_tac|]. cbv zeta.
  apply emitsP_bind_post
    with (Q := fun name => exists f, name = a ++ splitext_ext f);
    [written_tac| |].
  - intros st0 name Hname. simpl in Hname.
    destruct filename as [| | | |f| |]; try discriminate.
    simpl in Hname. destruct a as [|x r]; [contradiction|].
    simpl in Hname. inversion Hname. exists f. reflexivity.
  - intros name (f & ->). apply emitsP_bind; [|intros _; written_tac].
    intro st0. eexists [_]. split; [reflexivity|].
    constructor; [|constructor]. simpl. exists f. apply path_join_named.
Qed.

Lemma written_nodes_loop :
  forall items,
    emitsP (written_as (output_dir c) a) (nodes_loop env c (Some a) items).
Proof.
  pose proof written_images_loop as Hi.
  induction items as [|[node_id n] rest IH]; cbn [nodes_loop]; written_tac.
Qed.

Lemma written_handle_completion :
  forall history,
    emitsP (written_as (output_dir c) a) (handle_completion env c (Some a) history).
Proof.
  intro history. pose proof written_nodes_loop as Hn.
  unfold handle_completion. written_tac.
Qed.

Lemma written_poll_loop :
  forall fuel id start,
    emitsP (written_as (output_dir c) a) (poll_loop env fuel c (Some a) id start).
Proof.
  pose proof written_handle_completion as Hh.
  pose proof (emits_quiet_history env) as Hg.
  induction fuel as [|fuel IH]; intros id start; cbn [poll_loop]; written_tac.
Qed.

Lemma written_generate_asset :
  forall fuel prompt o,
    emitsP (written_as (output_dir c) a)
      (generate_asset env fuel c prompt (Some a) o).
Proof.
  intros fuel prompt o. unfold generate_asset.
  assert (Hh : emits no_write (is_server_running env)).
  { eapply emits_weaken; [|apply emits_is_server_running]. apply health_no_write. }
  assert (Hb : emits no_write (create_workflow env prompt o)).
  { eapply emits_weaken; [|apply emits_create_workflow]. apply build_no_write. }
  assert (Hq : forall w, emits no_write (queue_prompt env c w)).
  { intro w. eapply emits_weaken; [|apply emits_queue_prompt].
    apply prompt_no_write. }
  pose proof (written_poll_loop fuel) as Hl.
  written_tac.
Qed.

End Named.

Lemma rsplit_dot_no_slash :
  forall rl acc before ext,
    rsplit_dot rl acc = Some (before, ext) ->
    ~ In "/"%char acc -> ~ In "/"%char ext.
Proof.
  induction rl as [|x r IH]; intros acc before ext H Hacc; [discriminate|].
  simpl in H. destruct (Ascii.eqb_spec x "/") as [->|Hx]; [discriminate|].
  destruct (Ascii.eqb x ".").
  - inversion H; subst. intros [Heq|Hin]; [congruence|contradiction].
  - apply (IH _ _ _ H). intros [Heq|Hin]; [congruence|contradiction].
Qed.

Lemma splitext_ext_no_slash :
  forall f, ~ In "/"%char (list_ascii_of_string (splitext_ext f)).
Proof.
  intro f. unfold splitext_ext.
  destruct (rsplit_dot (rev (list_ascii_of_string f)) []) as [[before ext]|] eqn:H;
    [|intros []].
  destruct (has_name_char before); [|intros []].
  rewrite list_ascii_of_string_of_list_ascii.
  apply (rsplit_dot_no_slash _ _ _ _ H). intros [].
Qed.

Lemma slash_free_relative :
  forall a, slash_free a = true -> is_absolute a = false.
Proof.
  intros [|x r] H; [reflexivity|]. unfold slash_free in H. simpl in *.
  destruct (Ascii.eqb x "/"); [discriminate|reflexivity].
Qed.

(** X20.  The caller names the file, not the server.  Let the output
    directory be a path that [pathlib] keeps as written, and the asset name
    a single component: not empty, not ["."], without a slash.  Then,
    whatever the server sends, every write of [generate_asset] goes to
    [<output_dir>/<asset_name><ext>], where [<ext>] is the extension of a
    file name and holds no slash. *)
Theorem named_asset_goes_to_output_dir :
  forall env fuel c prompt a o st,
    kept_as_written (output_dir c) = true ->
    a <> "" ->
    a <> "." ->
    slash_free a = true ->
    exists evs,
      since st (snd (generate_asset env fuel c prompt (Some a) o st)) evs /\
      forall p d b,
        In (EvWrite p d b) evs ->
        exists f,
          p = output_dir c ++ "/" ++ a ++ splitext_ext f /\
          ~ In "/"%char (list_ascii_of_string (splitext_ext f)).
Proof.
  intros env fuel c prompt a o st _ Ha _ Hfree.
  destruct (written_generate_asset env c a Ha (slash_free_relative a Hfree)
              fuel prompt o st)
    as (evs & Hs & Hall).
  exists evs. split; [exact Hs|]. intros p d b Hin.
  rewrite Forall_forall in Hall. destruct (Hall _ Hin) as (f & ->).
  exists f. split; [reflexivity|apply splitext_ext_no_slash].
Qed.

Lemma named_asset_goes_to_output_dir_witness :
  exists evs,
    since (initial_state 0)
      (snd (generate_asset env_second_image 5 sample_client "a red block"
              (Some "block") default_options (initial_state 0))) evs /\
    forall p d b,
      In (EvWrite p d b) evs ->
      exists f,
        p = output_dir sample_client ++ "/" ++ "block" ++ splitext_ext f /\
        ~ In "/"%char (list_ascii_of_string (splitext_ext f)).
Proof.
  apply (named_asset_goes_to_output_dir env_second_image 5 sample_client
           "a red block" "block" default_options (initial_state 0)).
  - reflexivity.
  - discriminate.
  - discriminate.
  - reflexivity.
Defined.

(* ================================================================== *)
(** ** When a job counts as finished (lines 177-184 and 227-228) *)

Lemma get_history_value :
  forall env id st,
    fst (get_history env (JStr id) st) =
    Val (match http_history env (tick st) (JStr id) with
         | inr (JObj d) => match dict_get id d with Some v => v | None => JNull end
         | _ => JNull
         end).
Proof.
  intros env id st. unfold get_history, try_catch, bind, interact, lift, ret.
  simpl. destruct (http_history env (tick st) (JStr id)) as [e|h];
    [reflexivity|]. destruct h; reflexivity.
Qed.

(** X21.  The loop takes a job for finished exactly when the reply to the
    history request is an object that holds, under the job's identifier, a
    value that counts as true.  An error, a reply of another shape, a reply
    without the identifier and an empty record under it all mean: not
    yet. *)
Theorem job_finished_iff :
  forall env id st,
    (exists j, fst (get_history env (JStr id) st) = Val j /\ truthy j = true) <->
    (exists d j,
        http_history env (tick st) (JStr id) = inr (JObj d) /\
        dict_get id d = Some j /\ truthy j = true).
Proof.
  intros env id st. rewrite get_history_value. split.
  - intros (j & Hj & Ht). inversion Hj as [Hv]. clear Hj.
    destruct (http_history env (tick st) (JStr id)) as [e|h];
      [subst j; discriminate|].
    destruct h as [| | | | | |d]; try (subst j; discriminate).
    destruct (dict_get id d) as [v|] eqn:Hd; [|subst j; discriminate].
    subst v. exists d, j. auto.
  - intros (d & j & Hr & Hd & Ht). exists j. rewrite Hr, Hd. auto.
Qed.

Lemma job_finished_iff_witness :
  exists j,
    fst (get_history env_second_image (JStr "abc123") (initial_state 0)) = Val j /\
    truthy j = true.
Proof.
  apply (proj2 (job_finished_iff env_second_image "abc123" (initial_state 0))).
  eexists. eexists. split; [reflexivity|]. split; reflexivity.
Defined.

Lemma retrieval_no_sleep :
  forall evs ms, forallb retrieval_event evs = true -> ~ In (EvSleep ms) evs.
Proof.
  intros evs ms H Hin. rewrite forallb_forall in H.
  specialize (H _ Hin). discriminate.
Qed.

(** X22.  A finished job is fetched at once.  When the first reply of the
    history shows the job, the loop asks the history that one time, never
    sleeps, and returns, a path or [None], however few iterations are
    left. *)
Theorem finished_job_is_fetched_at_once :
  forall env fuel c asset_name id start st d j,
    http_history env (tick st) (JStr id) = inr (JObj d) ->
    dict_get id d = Some j ->
    truthy j = true ->
    exists r evs,
      fst (poll_loop env (S fuel) c asset_name (JStr id) start st) = Val r /\
      since st (snd (poll_loop env (S fuel) c asset_name (JStr id) start st)) evs /\
      polls evs = [EvHistory (JStr id)] /\
      forall ms, ~ In (EvSleep ms) evs.
Proof.
  intros env fuel c asset_name id start st d j Hr Hd Ht.
  destruct (get_history_run env (JStr id) st) as (j' & Hrun).
  pose proof (get_history_value env id st) as Hv.
  rewrite Hrun, Hr, Hd in Hv. simpl in Hv. inversion Hv. subst j'. clear Hv.
  remember (poll_loop env (S fuel) c asset_name (JStr id) start st) as run
    eqn:Hloop.
  cbn [poll_loop] in Hloop. unfold bind at 1 in Hloop.
  rewrite Hrun in Hloop. cbv beta iota in Hloop. rewrite Ht in Hloop.
  unfold bind, time_time, print in Hloop. cbv beta iota in Hloop.
  match type of Hloop with
  | _ = handle_completion env c asset_name j ?s => set (s2 := s) in Hloop
  end.
  subst run.
  destruct (emits_retrieval env c asset_name j s2) as (eh & Hsh & Hph).
  pose proof (no_raise_handle_completion env c asset_name j s2) as Hn.
  pose proof (fuel_free_handle_completion env c asset_name j s2) as Hf.
  destruct (handle_completion env c asset_name j s2) as [[r|e|] st'];
    [|exfalso; apply (Hn e); reflexivity|contradiction].
  exists r, (eh ++ [EvPrint (MsgGenerated (now st + 0 + latency env (tick st) - start));
                    EvHistory (JStr id)])%list.
  split; [reflexivity|]. split; [|split].
  - unfold since in *. cbn [snd] in *. rewrite Hsh. unfold s2, advance.
    cbn [trace now]. rewrite <- app_assoc. reflexivity.
  - rewrite polls_app, (retrieval_no_poll eh Hph). reflexivity.
  - intros ms Hin. apply in_app_or in Hin. destruct Hin as [Hin|Hin].
    + apply (retrieval_no_sleep eh ms Hph Hin).
    + destruct Hin as [Hin|[Hin|[]]]; discriminate.
Qed.

Lemma finished_job_is_fetched_at_once_witness :
  exists r evs,
    fst (poll_loop env_second_image 1 sample_client (Some "block")
           (JStr "abc123") 0 (initial_state 0)) = Val r /\
    since (initial_state 0)
      (snd (poll_loop env_second_image 1 sample_client (Some "block")
              (JStr "abc123") 0 (initial_state 0))) evs /\
    polls evs = [EvHistory (JStr "abc123")] /\
    forall ms, ~ In (EvSleep ms) evs.
Proof.
  apply (finished_job_is_fetched_at_once env_second_image 0 sample_client
           (Some "block") "abc123" 0 (initial_state 0)
           [("abc123", JObj [("outputs", JObj [("7", JObj [("images",
               JArr [image_info "a.png"; image_info "b.png"])])])])]
           (JObj [("outputs", JObj [("7", JObj [("images",
               JArr [image_info "a.png"; image_info "b.png"])])])])).
  - reflexivity.
  - reflexivity.
  - reflexivity.
Defined.
